(** * KING orchestration core: entity state machines, event bus, services

    A shallow embedding of the Python sources under [king/core] and
    [king/infrastructure/persistence], and of the task and agent routes of
    [king/api/rest], followed by the properties of the specification that
    were checked against it and by further properties of the same code.

    Conventions of the embedding.

    - A Python object that is mutated in place is a value threaded through a
      state-and-exception computation [S -> Res A * S]: an exception leaves
      the state as it was when the exception was raised, nothing is rolled
      back.
    - A [dict] is an association list in insertion order (Python dicts
      iterate in insertion order, and the repositories depend on it).
    - [uuid4()] and [datetime.utcnow()] are read from the environment: the
      world carries both as oracles indexed by a call counter.
    - Log output is not modelled, and neither is the text of the messages of
      the exceptions the sources raise. *)

From Stdlib Require Import String Ascii List ZArith Bool Lia Arith.
From Stdlib Require Import Sorted Permutation.
Import ListNotations.

Open Scope string_scope.
Open Scope Z_scope.

Set Implicit Arguments.

(* ================================================================== *)
(** * Python runtime: exceptions, values, dictionaries                   *)
(* ================================================================== *)

(** Exception classes that occur in the sources.  [CancelledError] derives
    from [BaseException] only, so [except Exception] lets it through. *)
Inductive exn : Type :=
| ValueError
| TypeError
| Exception_ (type_name msg : string)
| CancelledError
| Untyped (field : string).
(** [Untyped f] is not a Python exception: it marks a run that has left the
    typed fragment because the value found for [f] does not have the type
    the source annotates.  Python would carry on with the ill-typed value. *)

Definition is_Exception (e : exn) : bool :=
  match e with
  | CancelledError => false
  | _ => true
  end.

(** [str(e)] and [type(e).__name__]. *)
Definition exn_str (e : exn) : string :=
  match e with
  | Exception_ _ msg => msg
  | _ => ""
  end.

Definition exn_type_name (e : exn) : string :=
  match e with
  | ValueError => "ValueError"
  | TypeError => "TypeError"
  | Exception_ n _ => n
  | CancelledError => "CancelledError"
  | Untyped _ => "Untyped"
  end.

Inductive Res (A : Type) : Type :=
| Ok (a : A)
| Raise (e : exn).
Arguments Ok {A} a.
Arguments Raise {A} e.

Definition is_ok {A} (r : Res A) : bool :=
  match r with Ok _ => true | Raise _ => false end.

(** Computations over a mutable state [S] that may raise. *)
Definition M (S A : Type) : Type := S -> Res A * S.

Definition ret {S A} (a : A) : M S A := fun s => (Ok a, s).

Definition bind {S A B} (m : M S A) (k : A -> M S B) : M S B :=
  fun s =>
    match m s with
    | (Ok a, s') => k a s'
    | (Raise e, s') => (Raise e, s')
    end.

Definition raise {S A} (e : exn) : M S A := fun s => (Raise e, s).

Definition get {S} : M S S := fun s => (Ok s, s).
Definition put {S} (s : S) : M S unit := fun _ => (Ok tt, s).
Definition modify {S} (f : S -> S) : M S unit := fun s => (Ok tt, f s).
Definition gets {S A} (f : S -> A) : M S A := fun s => (Ok (f s), s).

(** [try: body except Exception as e: handler(e)]. *)
Definition try_except_Exception {S A} (body : M S A) (handler : exn -> M S A)
  : M S A :=
  fun s =>
    match body s with
    | (Ok a, s') => (Ok a, s')
    | (Raise e, s') =>
        if is_Exception e then handler e s' else (Raise e, s')
    end.

(** Lifting a pure result that may raise. *)
Definition lift_res {S A} (r : Res A) : M S A := fun s => (r, s).

Declare Scope py_scope.
Delimit Scope py_scope with py.
Notation "x <- m ;; k" := (bind m (fun x => k))
  (at level 61, m at next level, right associativity) : py_scope.
Notation "m ;;; k" := (bind m (fun _ => k))
  (at level 61, right associativity) : py_scope.
Notation "'when' b 'then_' m" := (if b then m else ret tt)
  (at level 60, b at level 9) : py_scope.

(** Values of type [Any] that the sources keep in payloads and metadata. *)
#[warnings="-register-all"]
Inductive pyval : Type :=
| PNone
| PBool (b : bool)
| PInt (z : Z)
| PStr (s : string)
| PList (l : list pyval)
| PDict (d : list (string * pyval)).

(** Insertion-ordered dictionaries with string keys. *)
Definition dict (V : Type) : Type := list (string * V).

Fixpoint dict_get {V} (d : dict V) (k : string) : option V :=
  match d with
  | [] => None
  | (k', v) :: d' => if String.eqb k' k then Some v else dict_get d' k
  end.

Definition dict_contains {V} (d : dict V) (k : string) : bool :=
  match dict_get d k with Some _ => true | None => false end.

(** [d[k] = v]: an existing key keeps its position, a new key goes last. *)
Fixpoint dict_set {V} (d : dict V) (k : string) (v : V) : dict V :=
  match d with
  | [] => [(k, v)]
  | (k', v') :: d' =>
      if String.eqb k' k then (k', v) :: d' else (k', v') :: dict_set d' k v
  end.

(** [del d[k]]. *)
Fixpoint dict_del {V} (d : dict V) (k : string) : dict V :=
  match d with
  | [] => []
  | (k', v') :: d' =>
      if String.eqb k' k then d' else (k', v') :: dict_del d' k
  end.

Definition dict_values {V} (d : dict V) : list V := map snd d.
Definition dict_keys {V} (d : dict V) : list string := map fst d.

(** [d.update(e)]. *)
Definition dict_update {V} (d e : dict V) : dict V :=
  fold_left (fun acc kv => dict_set acc (fst kv) (snd kv)) e d.

(** [d.get(k, default)]. *)
Definition dict_get_default {V} (d : dict V) (k : string) (default : V) : V :=
  match dict_get d k with Some v => v | None => default end.

(** [l[start:stop]] for integers [start] and [stop]: a negative index
    counts from the end, and an index outside the list is brought back to
    its nearer end. *)
Definition slice_index (n : nat) (i : Z) : nat :=
  if i <? 0 then Z.to_nat (Z.max 0 (Z.of_nat n + i))
  else Nat.min (Z.to_nat i) n.

Definition py_slice {A} (l : list A) (start stop : Z) : list A :=
  let a := slice_index (length l) start in
  let b := slice_index (length l) stop in
  firstn (b - a) (skipn a l).

(** Truth value of a Python object, as [if x:] and [x or y] test it. *)
Definition truthy (v : pyval) : bool :=
  match v with
  | PNone => false
  | PBool b => b
  | PInt z => negb (z =? 0)
  | PStr s => negb (String.eqb s "")
  | PList l => match l with [] => false | _ => true end
  | PDict d => match d with [] => false | _ => true end
  end.

Definition opt_pystr (o : option string) : pyval :=
  match o with Some s => PStr s | None => PNone end.

Definition opt_pydict (o : option (dict pyval)) : pyval :=
  match o with Some d => PDict d | None => PNone end.

(** [metadata or {}] for [metadata : Optional[dict]]. *)
Definition or_empty (o : option (dict pyval)) : dict pyval :=
  match o with
  | Some d => d
  | None => []
  end.

(* ================================================================== *)
(** * [datetime]: naive timestamps and their ISO 8601 text form          *)
(* ================================================================== *)

(** The sources build every timestamp with [datetime.utcnow()], a naive
    datetime.  [isoformat] is CPython's: [YYYY-MM-DDTHH:MM:SS], followed by
    [.ffffff] when the microsecond is not zero.  [fromisoformat] reads back
    these two shapes and raises [ValueError] on any other text. *)
Module datetime.

Record datetime : Type := mk {
  year : Z; month : Z; day : Z;
  hour : Z; minute : Z; second : Z; microsecond : Z
}.

Definition is_leap (y : Z) : bool :=
  (y mod 4 =? 0) && (negb (y mod 100 =? 0) || (y mod 400 =? 0)).

Definition days_in_month (y m : Z) : Z :=
  if (m =? 2) then (if is_leap y then 29 else 28)
  else if (m =? 4) || (m =? 6) || (m =? 9) || (m =? 11) then 30
  else 31.

(** The ranges the [datetime] constructor enforces. *)
Definition valid (d : datetime) : bool :=
  (1 <=? year d) && (year d <=? 9999) &&
  (1 <=? month d) && (month d <=? 12) &&
  (1 <=? day d) && (day d <=? days_in_month (year d) (month d)) &&
  (0 <=? hour d) && (hour d <? 24) &&
  (0 <=? minute d) && (minute d <? 60) &&
  (0 <=? second d) && (second d <? 60) &&
  (0 <=? microsecond d) && (microsecond d <? 1000000).

Definition digit_char (d : Z) : ascii := ascii_of_nat (Z.to_nat (48 + d)).

Definition digit_val (c : ascii) : option Z :=
  let n := Z.of_nat (nat_of_ascii c) in
  if (48 <=? n) && (n <=? 57) then Some (n - 48) else None.

(** [n] in decimal, zero-padded to [k] digits ([%0kd]). *)
Fixpoint zfill (k : nat) (n : Z) : list ascii :=
  match k with
  | O => []
  | S k' => zfill k' (n / 10) ++ [digit_char (n mod 10)]
  end.

Fixpoint parse_digits (acc : Z) (cs : list ascii) : option Z :=
  match cs with
  | [] => Some acc
  | c :: cs' =>
      match digit_val c with
      | Some d => parse_digits (acc * 10 + d) cs'
      | None => None
      end
  end.

Definition take_digits (k : nat) (cs : list ascii) : option (Z * list ascii) :=
  if Nat.eqb (length (firstn k cs)) k then
    match parse_digits 0 (firstn k cs) with
    | Some n => Some (n, skipn k cs)
    | None => None
    end
  else None.

Definition expect (c : ascii) (cs : list ascii) : option (list ascii) :=
  match cs with
  | c' :: cs' => if Ascii.eqb c c' then Some cs' else None
  | [] => None
  end.

Definition isoformat_chars (d : datetime) : list ascii :=
  zfill 4 (year d) ++ "-"%char :: zfill 2 (month d) ++ "-"%char ::
  zfill 2 (day d) ++ "T"%char :: zfill 2 (hour d) ++ ":"%char ::
  zfill 2 (minute d) ++ ":"%char :: zfill 2 (second d) ++
  (if microsecond d =? 0 then [] else "."%char :: zfill 6 (microsecond d)).

Definition isoformat (d : datetime) : string :=
  string_of_list_ascii (isoformat_chars d).

Definition obind {A B} (o : option A) (k : A -> option B) : option B :=
  match o with Some a => k a | None => None end.

Definition parse_chars (cs : list ascii) : option datetime :=
  obind (take_digits 4 cs) (fun '(y, cs) =>
  obind (expect "-"%char cs) (fun cs =>
  obind (take_digits 2 cs) (fun '(mo, cs) =>
  obind (expect "-"%char cs) (fun cs =>
  obind (take_digits 2 cs) (fun '(dd, cs) =>
  obind (expect "T"%char cs) (fun cs =>
  obind (take_digits 2 cs) (fun '(h, cs) =>
  obind (expect ":"%char cs) (fun cs =>
  obind (take_digits 2 cs) (fun '(mi, cs) =>
  obind (expect ":"%char cs) (fun cs =>
  obind (take_digits 2 cs) (fun '(s, cs) =>
  match cs with
  | [] => Some (mk y mo dd h mi s 0)
  | _ =>
      obind (expect "."%char cs) (fun cs =>
      obind (take_digits 6 cs) (fun '(us, cs) =>
      match cs with
      | [] => Some (mk y mo dd h mi s us)
      | _ => None
      end))
  end))))))))))).

Definition fromisoformat (s : string) : Res datetime :=
  match parse_chars (list_ascii_of_string s) with
  | Some d => if valid d then Ok d else Raise ValueError
  | None => Raise ValueError
  end.

End datetime.
Abbreviation datetime := datetime.datetime.

Definition opt_isoformat (o : option datetime) : pyval :=
  match o with
  | Some d => PStr (datetime.isoformat d)
  | None => PNone
  end.

(* ================================================================== *)
(** * The environment: [uuid4()] and [datetime.utcnow()]                 *)
(* ================================================================== *)

(** What successive calls return is fixed by the environment and unknown to
    the program: the [n]-th call of [uuid4()] returns [uuid_of n], the
    [n]-th call of [utcnow()] returns [clock_of n]. *)
Record Env : Type := mkEnv {
  uuid_of : nat -> string;
  uuid_ix : nat;
  clock_of : nat -> datetime;
  clock_ix : nat
}.

Class HasEnv (S : Type) : Type := {
  env_of : S -> Env;
  with_env : Env -> S -> S
}.

#[export] Instance HasEnv_Env : HasEnv Env :=
  {| env_of := fun e => e; with_env := fun e _ => e |}.

#[export] Instance HasEnv_pair (X : Type) : HasEnv (Env * X) :=
  {| env_of := fst; with_env := fun e s => (e, snd s) |}.

Definition utcnow {St} `{HasEnv St} : M St datetime :=
  fun s =>
    let e := env_of s in
    (Ok (clock_of e (clock_ix e)),
     with_env (mkEnv (uuid_of e) (uuid_ix e) (clock_of e) (S (clock_ix e))) s).

(** [str(uuid4())]. *)
Definition uuid4 {St} `{HasEnv St} : M St string :=
  fun s =>
    let e := env_of s in
    (Ok (uuid_of e (uuid_ix e)),
     with_env (mkEnv (uuid_of e) (S (uuid_ix e)) (clock_of e) (clock_ix e)) s).

(** A method body sees the environment and [self]. *)
Definition self {X} : M (Env * X) X := gets snd.
Definition update_self {X} (f : X -> X) : M (Env * X) unit :=
  modify (fun s => (fst s, f (snd s))).

(* ================================================================== *)
(** * [king/core/domain/task.py]                                         *)
(* ================================================================== *)

Module TaskStatus.
Inductive t : Type :=
| CREATED | ASSIGNED | IN_PROGRESS | COMPLETED | FAILED | CANCELLED.

Definition value (s : t) : string :=
  match s with
  | CREATED => "created"
  | ASSIGNED => "assigned"
  | IN_PROGRESS => "in_progress"
  | COMPLETED => "completed"
  | FAILED => "failed"
  | CANCELLED => "cancelled"
  end.

Definition members : list t :=
  [CREATED; ASSIGNED; IN_PROGRESS; COMPLETED; FAILED; CANCELLED].

Definition eqb (a b : t) : bool :=
  match a, b with
  | CREATED, CREATED | ASSIGNED, ASSIGNED | IN_PROGRESS, IN_PROGRESS
  | COMPLETED, COMPLETED | FAILED, FAILED | CANCELLED, CANCELLED => true
  | _, _ => false
  end.

(** [TaskStatus(v)]: the member whose value is [v], else [ValueError]. *)
Definition of_value (v : pyval) : Res t :=
  match v with
  | PStr s =>
      match find (fun m => String.eqb (value m) s) members with
      | Some m => Ok m
      | None => Raise ValueError
      end
  | _ => Raise ValueError
  end.
End TaskStatus.

Module TaskType.
Inductive t : Type :=
| LLM_GENERATION | RAG_QUERY | DATA_PROCESSING | MULTIMODAL | CUSTOM.

Definition value (s : t) : string :=
  match s with
  | LLM_GENERATION => "llm_generation"
  | RAG_QUERY => "rag_query"
  | DATA_PROCESSING => "data_processing"
  | MULTIMODAL => "multimodal"
  | CUSTOM => "custom"
  end.

Definition members : list t :=
  [LLM_GENERATION; RAG_QUERY; DATA_PROCESSING; MULTIMODAL; CUSTOM].

(** [TaskType(v)]. *)
Definition of_value (v : pyval) : Res t :=
  match v with
  | PStr s =>
      match find (fun m => String.eqb (value m) s) members with
      | Some m => Ok m
      | None => Raise ValueError
      end
  | _ => Raise ValueError
  end.
End TaskType.

Module Task.
Import TaskStatus.

Record Task : Type := mk {
  id : string;
  type : TaskType.t;
  status : TaskStatus.t;
  payload : dict pyval;
  assigned_agent : option string;
  result : option (dict pyval);
  error : option string;
  metadata : dict pyval;
  created_at : datetime;
  updated_at : datetime;
  started_at : option datetime;
  completed_at : option datetime
}.

Definition set_status (v : TaskStatus.t) (t : Task) : Task :=
  mk (id t) (type t) v (payload t) (assigned_agent t) (result t) (error t)
     (metadata t) (created_at t) (updated_at t) (started_at t) (completed_at t).
Definition set_assigned_agent (v : option string) (t : Task) : Task :=
  mk (id t) (type t) (status t) (payload t) v (result t) (error t)
     (metadata t) (created_at t) (updated_at t) (started_at t) (completed_at t).
Definition set_result (v : option (dict pyval)) (t : Task) : Task :=
  mk (id t) (type t) (status t) (payload t) (assigned_agent t) v (error t)
     (metadata t) (created_at t) (updated_at t) (started_at t) (completed_at t).
Definition set_error (v : option string) (t : Task) : Task :=
  mk (id t) (type t) (status t) (payload t) (assigned_agent t) (result t) v
     (metadata t) (created_at t) (updated_at t) (started_at t) (completed_at t).
Definition set_updated_at (v : datetime) (t : Task) : Task :=
  mk (id t) (type t) (status t) (payload t) (assigned_agent t) (result t)
     (error t) (metadata t) (created_at t) v (started_at t) (completed_at t).
Definition set_started_at (v : option datetime) (t : Task) : Task :=
  mk (id t) (type t) (status t) (payload t) (assigned_agent t) (result t)
     (error t) (metadata t) (created_at t) (updated_at t) v (completed_at t).
Definition set_completed_at (v : option datetime) (t : Task) : Task :=
  mk (id t) (type t) (status t) (payload t) (assigned_agent t) (result t)
     (error t) (metadata t) (created_at t) (updated_at t) (started_at t) v.

Local Open Scope py_scope.

Definition assign_to (agent_id : string) : M (Env * Task) unit :=
  t <- self ;;
  if negb (eqb (status t) CREATED) then raise ValueError
  else
    update_self (set_assigned_agent (Some agent_id)) ;;;
    update_self (set_status ASSIGNED) ;;;
    now <- utcnow ;;
    update_self (set_updated_at now).

Definition start : M (Env * Task) unit :=
  t <- self ;;
  if negb (existsb (eqb (status t)) [ASSIGNED; CREATED])
  then raise ValueError
  else
    update_self (set_status IN_PROGRESS) ;;;
    now <- utcnow ;;
    update_self (set_started_at (Some now)) ;;;
    now <- utcnow ;;
    update_self (set_updated_at now).

Definition complete (res : dict pyval) : M (Env * Task) unit :=
  t <- self ;;
  if negb (eqb (status t) IN_PROGRESS) then raise ValueError
  else
    update_self (set_status COMPLETED) ;;;
    update_self (set_result (Some res)) ;;;
    now <- utcnow ;;
    update_self (set_completed_at (Some now)) ;;;
    now <- utcnow ;;
    update_self (set_updated_at now).

Definition fail (err : string) : M (Env * Task) unit :=
  update_self (set_status FAILED) ;;;
  update_self (set_error (Some err)) ;;;
  now <- utcnow ;;
  update_self (set_completed_at (Some now)) ;;;
  now <- utcnow ;;
  update_self (set_updated_at now).

Definition cancel : M (Env * Task) unit :=
  t <- self ;;
  if existsb (eqb (status t)) [COMPLETED; FAILED; CANCELLED]
  then raise ValueError
  else
    update_self (set_status CANCELLED) ;;;
    now <- utcnow ;;
    update_self (set_completed_at (Some now)) ;;;
    now <- utcnow ;;
    update_self (set_updated_at now).

Definition is_completed (t : Task) : bool :=
  existsb (eqb (status t)) [COMPLETED; FAILED; CANCELLED].

Definition to_dict (t : Task) : dict pyval :=
  [ ("id", PStr (id t));
    ("type", PStr (TaskType.value (type t)));
    ("status", PStr (TaskStatus.value (status t)));
    ("payload", PDict (payload t));
    ("assigned_agent", opt_pystr (assigned_agent t));
    ("result", opt_pydict (result t));
    ("error", opt_pystr (error t));
    ("metadata", PDict (metadata t));
    ("created_at", PStr (datetime.isoformat (created_at t)));
    ("updated_at", PStr (datetime.isoformat (updated_at t)));
    ("started_at", opt_isoformat (started_at t));
    ("completed_at", opt_isoformat (completed_at t)) ].

(** Readers of a value at the type the dataclass annotates. *)
Definition as_str (f : string) (v : pyval) : Res string :=
  match v with PStr s => Ok s | _ => Raise (Untyped f) end.
Definition as_dict (f : string) (v : pyval) : Res (dict pyval) :=
  match v with PDict d => Ok d | _ => Raise (Untyped f) end.
Definition as_opt_str (f : string) (v : option pyval) : Res (option string) :=
  match v with
  | None | Some PNone => Ok None
  | Some (PStr s) => Ok (Some s)
  | Some _ => Raise (Untyped f)
  end.
Definition as_opt_dict (f : string) (v : option pyval)
  : Res (option (dict pyval)) :=
  match v with
  | None | Some PNone => Ok None
  | Some (PDict d) => Ok (Some d)
  | Some _ => Raise (Untyped f)
  end.

(** [datetime.fromisoformat(x)] for an arbitrary object [x]. *)
Definition fromisoformat_any (v : pyval) : Res datetime :=
  match v with
  | PStr s => datetime.fromisoformat s
  | _ => Raise TypeError
  end.

(** [x = None; if data.get(k): x = datetime.fromisoformat(data[k])]. *)
Definition optional_timestamp (data : dict pyval) (k : string)
  : Res (option datetime) :=
  match dict_get data k with
  | Some v =>
      if truthy v then
        match fromisoformat_any v with
        | Ok d => Ok (Some d)
        | Raise e => Raise e
        end
      else Ok None
  | None => Ok None
  end.

(** [Task.from_dict(data)].  The default arguments of [data.get] are
    evaluated whether or not the key is present, so [uuid4()] and
    [utcnow()] are called on every run. *)
Definition from_dict {S} `{HasEnv S} (data : dict pyval) : M S Task :=
  started <- lift_res (optional_timestamp data "started_at") ;;
  completed <- lift_res (optional_timestamp data "completed_at") ;;
  uuid <- uuid4 ;;
  let id_v := dict_get_default data "id" (PStr uuid) in
  ty <- lift_res (TaskType.of_value
          (dict_get_default data "type" (PStr (TaskType.value TaskType.CUSTOM)))) ;;
  st <- lift_res (TaskStatus.of_value
          (dict_get_default data "status" (PStr (TaskStatus.value CREATED)))) ;;
  let payload_v := dict_get_default data "payload" (PDict []) in
  let assigned_v := dict_get data "assigned_agent" in
  let result_v := dict_get data "result" in
  let error_v := dict_get data "error" in
  let metadata_v := dict_get_default data "metadata" (PDict []) in
  now1 <- utcnow ;;
  created <- lift_res (fromisoformat_any
          (dict_get_default data "created_at" (PStr (datetime.isoformat now1)))) ;;
  now2 <- utcnow ;;
  updated <- lift_res (fromisoformat_any
          (dict_get_default data "updated_at" (PStr (datetime.isoformat now2)))) ;;
  i <- lift_res (as_str "id" id_v) ;;
  pl <- lift_res (as_dict "payload" payload_v) ;;
  ag <- lift_res (as_opt_str "assigned_agent" assigned_v) ;;
  rs <- lift_res (as_opt_dict "result" result_v) ;;
  er <- lift_res (as_opt_str "error" error_v) ;;
  md <- lift_res (as_dict "metadata" metadata_v) ;;
  ret (mk i ty st pl ag rs er md created updated started completed).

End Task.
Abbreviation Task := Task.Task.

(* ================================================================== *)
(** * [king/core/domain/agent.py]                                        *)
(* ================================================================== *)

Module AgentStatus.
Inductive t : Type := CREATED | ACTIVE | IDLE | BUSY | ERROR | STOPPED.

Definition value (s : t) : string :=
  match s with
  | CREATED => "created"
  | ACTIVE => "active"
  | IDLE => "idle"
  | BUSY => "busy"
  | ERROR => "error"
  | STOPPED => "stopped"
  end.

Definition eqb (a b : t) : bool :=
  match a, b with
  | CREATED, CREATED | ACTIVE, ACTIVE | IDLE, IDLE
  | BUSY, BUSY | ERROR, ERROR | STOPPED, STOPPED => true
  | _, _ => false
  end.

Definition members : list t := [CREATED; ACTIVE; IDLE; BUSY; ERROR; STOPPED].

(** [AgentStatus(v)]. *)
Definition of_value (v : pyval) : Res t :=
  match v with
  | PStr s =>
      match find (fun m => String.eqb (value m) s) members with
      | Some m => Ok m
      | None => Raise ValueError
      end
  | _ => Raise ValueError
  end.
End AgentStatus.

Module AgentType.
Inductive t : Type := LLM | TASK_EXECUTOR | ORCHESTRATOR | RAG | MULTIMODAL.

Definition value (s : t) : string :=
  match s with
  | LLM => "llm"
  | TASK_EXECUTOR => "task_executor"
  | ORCHESTRATOR => "orchestrator"
  | RAG => "rag"
  | MULTIMODAL => "multimodal"
  end.

Definition members : list t :=
  [LLM; TASK_EXECUTOR; ORCHESTRATOR; RAG; MULTIMODAL].

(** [AgentType(v)]. *)
Definition of_value (v : string) : Res t :=
  match find (fun m => String.eqb (value m) v) members with
  | Some m => Ok m
  | None => Raise ValueError
  end.

(** [AgentType(v)] for an arbitrary object [v]. *)
Definition of_object (v : pyval) : Res t :=
  match v with
  | PStr s => of_value s
  | _ => Raise ValueError
  end.
End AgentType.

Module Agent.
Import AgentStatus.

Record Agent : Type := mk {
  id : string;
  name : string;
  type : AgentType.t;
  status : AgentStatus.t;
  capabilities : dict pyval;
  metadata : dict pyval;
  created_at : datetime;
  updated_at : datetime
}.

Definition set_status (v : AgentStatus.t) (a : Agent) : Agent :=
  mk (id a) (name a) (type a) v (capabilities a) (metadata a)
     (created_at a) (updated_at a).
Definition set_updated_at (v : datetime) (a : Agent) : Agent :=
  mk (id a) (name a) (type a) (status a) (capabilities a) (metadata a)
     (created_at a) v.

Local Open Scope py_scope.

Definition change_status (new_status : AgentStatus.t) (reason : option string)
  : M (Env * Agent) unit :=
  a <- self ;;
  if eqb (status a) new_status then ret tt
  else
    let old_status := status a in
    update_self (set_status new_status) ;;;
    now <- utcnow ;;
    update_self (set_updated_at now).

Definition has_capability (a : Agent) (capability : string) : bool :=
  dict_contains (capabilities a) capability.

Definition is_available (a : Agent) : bool :=
  existsb (eqb (status a)) [ACTIVE; IDLE].

(** [has_capability(cap)] for an arbitrary object [cap]: the test
    [cap in self.capabilities] hashes [cap], which a list or a dict refuses
    with [TypeError]; a hashable object that is not a string is no key of
    the dict. *)
Definition has_capability_object (a : Agent) (cap : pyval) : Res bool :=
  match cap with
  | PStr s => Ok (has_capability a s)
  | PList _ | PDict _ => Raise TypeError
  | PNone | PBool _ | PInt _ => Ok false
  end.

Definition set_capabilities (v : dict pyval) (a : Agent) : Agent :=
  mk (id a) (name a) (type a) (status a) v (metadata a)
     (created_at a) (updated_at a).

Definition add_capability (capability : string) (value : pyval)
  : M (Env * Agent) unit :=
  update_self (fun a =>
    set_capabilities (dict_set (capabilities a) capability value) a) ;;;
  now <- utcnow ;;
  update_self (set_updated_at now).

Definition remove_capability (capability : string) : M (Env * Agent) unit :=
  a <- self ;;
  if dict_contains (capabilities a) capability then
    update_self (set_capabilities (dict_del (capabilities a) capability)) ;;;
    now <- utcnow ;;
    update_self (set_updated_at now)
  else ret tt.

Definition to_dict (a : Agent) : dict pyval :=
  [ ("id", PStr (id a));
    ("name", PStr (name a));
    ("type", PStr (AgentType.value (type a)));
    ("status", PStr (AgentStatus.value (status a)));
    ("capabilities", PDict (capabilities a));
    ("metadata", PDict (metadata a));
    ("created_at", PStr (datetime.isoformat (created_at a)));
    ("updated_at", PStr (datetime.isoformat (updated_at a))) ].

(** [Agent.from_dict(data)].  The arguments of the constructor call are
    evaluated in order, defaults of [data.get] included. *)
Definition from_dict {St} `{HasEnv St} (data : dict pyval) : M St Agent :=
  uuid <- uuid4 ;;
  let id_v := dict_get_default data "id" (PStr uuid) in
  let name_v := dict_get_default data "name" (PStr "") in
  ty <- lift_res (AgentType.of_object
          (dict_get_default data "type" (PStr (AgentType.value AgentType.LLM)))) ;;
  st <- lift_res (AgentStatus.of_value
          (dict_get_default data "status" (PStr (AgentStatus.value CREATED)))) ;;
  let capabilities_v := dict_get_default data "capabilities" (PDict []) in
  let metadata_v := dict_get_default data "metadata" (PDict []) in
  now1 <- utcnow ;;
  created <- lift_res (Task.fromisoformat_any
          (dict_get_default data "created_at" (PStr (datetime.isoformat now1)))) ;;
  now2 <- utcnow ;;
  updated <- lift_res (Task.fromisoformat_any
          (dict_get_default data "updated_at" (PStr (datetime.isoformat now2)))) ;;
  i <- lift_res (Task.as_str "id" id_v) ;;
  n <- lift_res (Task.as_str "name" name_v) ;;
  cs <- lift_res (Task.as_dict "capabilities" capabilities_v) ;;
  md <- lift_res (Task.as_dict "metadata" metadata_v) ;;
  ret (mk i n ty st cs md created updated).
End Agent.
Abbreviation Agent := Agent.Agent.

(* ================================================================== *)
(** * [king/core/domain/message.py]                                      *)
(* ================================================================== *)

Module Message.
Record Message : Type := mk {
  id : string;
  role : string;
  content : string;
  timestamp : datetime;
  metadata : dict pyval;
  conversation_id : option string
}.

Definition set_conversation_id (v : option string) (m : Message) : Message :=
  mk (id m) (role m) (content m) (timestamp m) (metadata m) v.

Local Open Scope py_scope.

(** [Message(role=, content=, conversation_id=, metadata=)]: the dataclass
    fills [id] and [timestamp] from their factories, in field order. *)
Definition new {St} `{HasEnv St} (role content : string)
    (conversation_id : option string) (metadata : dict pyval) : M St Message :=
  i <- uuid4 ;;
  ts <- utcnow ;;
  ret (mk i role content ts metadata conversation_id).

(** [Message(role=, content=, timestamp=)], as [_generate_response] builds
    the context. *)
Definition new_at {St} `{HasEnv St} (role content : string) (ts : datetime)
  : M St Message :=
  i <- uuid4 ;;
  ret (mk i role content ts [] None).

Definition to_dict (m : Message) : dict pyval :=
  [ ("id", PStr (id m));
    ("role", PStr (role m));
    ("content", PStr (content m));
    ("timestamp", PStr (datetime.isoformat (timestamp m)));
    ("metadata", PDict (metadata m));
    ("conversation_id", opt_pystr (conversation_id m)) ].

(** [x = datetime.utcnow(); if data.get(k): x = datetime.fromisoformat(data[k])]. *)
Definition timestamp_or_now {St} `{HasEnv St} (data : dict pyval) (k : string)
  : M St datetime :=
  now <- utcnow ;;
  match dict_get data k with
  | Some v => if truthy v then lift_res (Task.fromisoformat_any v) else ret now
  | None => ret now
  end.

Definition from_dict {St} `{HasEnv St} (data : dict pyval) : M St Message :=
  ts <- timestamp_or_now data "timestamp" ;;
  uuid <- uuid4 ;;
  let id_v := dict_get_default data "id" (PStr uuid) in
  let role_v := dict_get_default data "role" (PStr "user") in
  let content_v := dict_get_default data "content" (PStr "") in
  let metadata_v := dict_get_default data "metadata" (PDict []) in
  let conversation_v := dict_get data "conversation_id" in
  i <- lift_res (Task.as_str "id" id_v) ;;
  r <- lift_res (Task.as_str "role" role_v) ;;
  c <- lift_res (Task.as_str "content" content_v) ;;
  md <- lift_res (Task.as_dict "metadata" metadata_v) ;;
  cv <- lift_res (Task.as_opt_str "conversation_id" conversation_v) ;;
  ret (mk i r c ts md cv).

(** [Message.from_dict(x)] for an arbitrary object [x]: only a dict has
    the [get] the method calls. *)
Definition from_object {St} `{HasEnv St} (v : pyval) : M St Message :=
  match v with
  | PDict d => from_dict d
  | _ => raise (Exception_ "AttributeError" "object has no attribute 'get'")
  end.
End Message.
Abbreviation Message := Message.Message.

Module Conversation.
Record Conversation : Type := mk {
  id : string;
  messages : list Message;
  context : dict pyval;
  created_at : datetime;
  updated_at : datetime
}.

(** The fields of the dataclass, which are the keywords its generated
    [__init__] accepts. *)
Definition init_keywords : list string :=
  ["id"; "messages"; "context"; "created_at"; "updated_at"].

Local Open Scope py_scope.

(** The constructor call, with its keyword arguments.  Binding the arguments comes first: a keyword
    that is not a field raises [TypeError] before any default factory
    runs.  Of the keywords, the model gives a value to [id] and [context];
    [messages] and the timestamps are not passed by any caller. *)
Definition new {St} `{HasEnv St} (kwargs : dict pyval) : M St Conversation :=
  if negb (forallb (fun k => existsb (String.eqb k) init_keywords)
                   (dict_keys kwargs))
  then raise TypeError
  else
    uuid <- uuid4 ;;
    i <- lift_res (match dict_get kwargs "id" with
                   | Some v => Task.as_str "id" v
                   | None => Ok uuid
                   end) ;;
    ctx <- lift_res (match dict_get kwargs "context" with
                     | Some v => Task.as_dict "context" v
                     | None => Ok []
                     end) ;;
    when (dict_contains kwargs "messages") then_ raise (Untyped "messages") ;;;
    when (dict_contains kwargs "created_at") then_ raise (Untyped "created_at") ;;;
    when (dict_contains kwargs "updated_at") then_ raise (Untyped "updated_at") ;;;
    c <- utcnow ;;
    u <- utcnow ;;
    ret (mk i [] ctx c u).

Definition set_messages (v : list Message) (c : Conversation) : Conversation :=
  mk (id c) v (context c) (created_at c) (updated_at c).
Definition set_updated_at (v : datetime) (c : Conversation) : Conversation :=
  mk (id c) (messages c) (context c) (created_at c) v.

(** [add_message] writes [message.conversation_id] too: the computation
    returns the message as it is after the call. *)
Definition add_message (message : Message) : M (Env * Conversation) Message :=
  c <- self ;;
  let message := Message.set_conversation_id (Some (id c)) message in
  update_self (set_messages ((messages c ++ [message])%list)) ;;;
  now <- utcnow ;;
  update_self (set_updated_at now) ;;;
  ret message.

Definition get_messages_by_role (c : Conversation) (role : string)
  : list Message :=
  filter (fun msg => String.eqb (Message.role msg) role) (messages c).

Definition get_last_message (c : Conversation) : option Message :=
  match messages c with
  | [] => None
  | m :: l => Some (last l m)
  end.

Definition to_dict (c : Conversation) : dict pyval :=
  [ ("id", PStr (id c));
    ("messages", PList (map (fun msg => PDict (Message.to_dict msg)) (messages c)));
    ("context", PDict (context c));
    ("created_at", PStr (datetime.isoformat (created_at c)));
    ("updated_at", PStr (datetime.isoformat (updated_at c))) ].

(** The items a [for] loop takes from an object: the elements of a list,
    the characters of a string, the keys of a dict; the other values are
    not iterable. *)
Definition iterate (v : pyval) : Res (list pyval) :=
  match v with
  | PList l => Ok l
  | PStr s =>
      Ok (map (fun ch => PStr (String ch EmptyString)) (list_ascii_of_string s))
  | PDict d => Ok (map PStr (dict_keys d))
  | _ => Raise TypeError
  end.

Fixpoint messages_from {St} `{HasEnv St} (l : list pyval)
  : M St (list Message) :=
  match l with
  | [] => ret []
  | msg_data :: l' =>
      m <- Message.from_object msg_data ;;
      ms <- messages_from l' ;;
      ret (m :: ms)
  end.

Definition from_dict {St} `{HasEnv St} (data : dict pyval)
  : M St Conversation :=
  items <- lift_res (iterate (dict_get_default data "messages" (PList []))) ;;
  msgs <- messages_from items ;;
  created <- Message.timestamp_or_now data "created_at" ;;
  updated <- Message.timestamp_or_now data "updated_at" ;;
  uuid <- uuid4 ;;
  let id_v := dict_get_default data "id" (PStr uuid) in
  let context_v := dict_get_default data "context" (PDict []) in
  i <- lift_res (Task.as_str "id" id_v) ;;
  ctx <- lift_res (Task.as_dict "context" context_v) ;;
  ret (mk i msgs ctx created updated).
End Conversation.
Abbreviation Conversation := Conversation.Conversation.

(* ================================================================== *)
(** * [king/core/domain/events.py]                                       *)
(* ================================================================== *)

Module events.

(** The event classes with the fields each one declares.  An event that is
    handed to the bus is a value of [DomainEvent] below, whoever built
    it. *)
Inductive body : Type :=
| AgentCreated (agent_id agent_name agent_type : string)
               (capabilities : dict pyval)
| AgentStatusChanged (agent_id old_status new_status : string)
                     (reason : option string)
| LLMRequestInitiated (request_id prompt : string) (model : option string)
                      (parameters : dict pyval)
| LLMResponseReceived (request_id response_content : string)
                      (tokens_used : option Z) (model : option string)
| LLMErrorOccurred (request_id error_message : string)
                   (error_type : option string)
| TaskCreated (task_id task_type : string) (payload : dict pyval)
| TaskAssigned (task_id agent_id : string)
| TaskCompleted (task_id : string) (result : dict pyval)
| TaskFailed (task_id error_message : string) (error_type : option string)
| MessageReceived (message_id role content : string)
                  (conversation_id : option string)
| MessageProcessed (message_id : string) (response : option string).

Record DomainEvent : Type := mk {
  event_id : string;
  event_type : string;
  occurred_at : datetime;
  aggregate_id : option string;
  metadata : dict pyval;
  fields : body
}.

(** [self.__class__.__name__]. *)
Definition class_name (b : body) : string :=
  match b with
  | AgentCreated _ _ _ _ => "AgentCreated"
  | AgentStatusChanged _ _ _ _ => "AgentStatusChanged"
  | LLMRequestInitiated _ _ _ _ => "LLMRequestInitiated"
  | LLMResponseReceived _ _ _ _ => "LLMResponseReceived"
  | LLMErrorOccurred _ _ _ => "LLMErrorOccurred"
  | TaskCreated _ _ _ => "TaskCreated"
  | TaskAssigned _ _ => "TaskAssigned"
  | TaskCompleted _ _ => "TaskCompleted"
  | TaskFailed _ _ _ => "TaskFailed"
  | MessageReceived _ _ _ _ => "MessageReceived"
  | MessageProcessed _ _ => "MessageProcessed"
  end.

(** What each [__post_init__] stores in [aggregate_id]. *)
Definition aggregate (b : body) : string :=
  match b with
  | AgentCreated a _ _ _ | AgentStatusChanged a _ _ _ => a
  | LLMRequestInitiated r _ _ _ | LLMResponseReceived r _ _ _
  | LLMErrorOccurred r _ _ => r
  | TaskCreated t _ _ | TaskAssigned t _ | TaskCompleted t _
  | TaskFailed t _ _ => t
  | MessageReceived m _ _ _ | MessageProcessed m _ => m
  end.

Definition opt_pyint (o : option Z) : pyval :=
  match o with Some z => PInt z | None => PNone end.

(** The argument of [self.metadata.update(...)] in each [__post_init__]. *)
Definition post_init_metadata (b : body) : dict pyval :=
  match b with
  | AgentCreated _ n t c =>
      [("agent_name", PStr n); ("agent_type", PStr t); ("capabilities", PDict c)]
  | AgentStatusChanged _ o n r =>
      [("old_status", PStr o); ("new_status", PStr n); ("reason", opt_pystr r)]
  | LLMRequestInitiated _ p m ps =>
      [("prompt", PStr p); ("model", opt_pystr m); ("parameters", PDict ps)]
  | LLMResponseReceived _ c t m =>
      [("response_content", PStr c); ("tokens_used", opt_pyint t);
       ("model", opt_pystr m)]
  | LLMErrorOccurred _ m t =>
      [("error_message", PStr m); ("error_type", opt_pystr t)]
  | TaskCreated _ t p => [("task_type", PStr t); ("payload", PDict p)]
  | TaskAssigned _ a => [("agent_id", PStr a)]
  | TaskCompleted _ r => [("result", PDict r)]
  | TaskFailed _ m t =>
      [("error_message", PStr m); ("error_type", opt_pystr t)]
  | MessageReceived _ r c cid =>
      [("role", PStr r); ("content", PStr c); ("conversation_id", opt_pystr cid)]
  | MessageProcessed _ r => [("response", opt_pystr r)]
  end.

Local Open Scope py_scope.

(** Constructing an event of class [b], as the services do.  Each of the
    eleven subclasses declares fields without a default ([agent_id: str],
    [task_id: str], ...) after the defaulted fields it inherits from
    [DomainEvent]; [@dataclass] refuses such a class with [TypeError] when
    the class statement runs, so the class does not come into being and no
    event of it can be built.  The model raises that [TypeError] where a
    service constructs the event, the first point at which it needs the
    class; no default factory has run by then.  ([class_name], [aggregate]
    and [post_init_metadata] above record what the [__post_init__] methods
    are written to store.) *)
Definition new {St} `{HasEnv St} (b : body) : M St DomainEvent :=
  raise TypeError.

End events.
Abbreviation DomainEvent := events.DomainEvent.

(* ================================================================== *)
(** * [king/core/domain/event_bus.py]                                    *)
(* ================================================================== *)

Module EventBus.
Import events.

(** A handler is a callable of the subscriber.  Of what it does the bus
    observes whether the call raises, and, for a coroutine function, whether
    the awaited call suspends before it finishes.  [h_raises] gives the
    exception a call ends in, if any: a subclass of [Exception], or one that
    derives from [BaseException] only, as [CancelledError] does, and that
    [except Exception] lets through.  Handlers are compared by identity,
    which [h_name] stands for.  A handler is assumed not to call back into
    the bus it is subscribed to. *)
Record Handler : Type := mkHandler {
  h_name : string;
  h_raises : DomainEvent -> option exn;
  h_suspends : DomainEvent -> bool
}.

Inductive mode : Type := Immediate | Deferred.

Definition mode_eqb (a b : mode) : bool :=
  match a, b with
  | Immediate, Immediate | Deferred, Deferred => true
  | _, _ => false
  end.

(** One handler call, as recorded when the call starts. *)
Record invocation : Type := mkInv {
  inv_mode : mode;
  inv_handler : string;
  inv_event : DomainEvent
}.

(** The fields of the bus.  [unfinished_tasks] is the counter of the
    [asyncio.Queue]: [put] increments it, [task_done] decrements it and
    [join] waits for zero.  [tasks_created], [published] and [invoked] are
    history kept for the statements below: the number of calls of
    [asyncio.create_task], the events passed to [publish], and the handler
    calls made. *)
Record EventBus : Type := mk {
  _handlers : dict (list Handler);
  _async_handlers : dict (list Handler);
  _event_queue : list DomainEvent;
  unfinished_tasks : nat;
  _processing : bool;
  _processing_task : bool;
  tasks_created : nat;
  published : list DomainEvent;
  invoked : list invocation
}.

(** [EventBus()]. *)
Definition init : EventBus := mk [] [] [] 0 false false 0 [] [].

Definition set_handlers v (b : EventBus) : EventBus :=
  mk v (_async_handlers b) (_event_queue b) (unfinished_tasks b)
     (_processing b) (_processing_task b) (tasks_created b) (published b)
     (invoked b).
Definition set_async_handlers v (b : EventBus) : EventBus :=
  mk (_handlers b) v (_event_queue b) (unfinished_tasks b)
     (_processing b) (_processing_task b) (tasks_created b) (published b)
     (invoked b).
Definition set_queue q n (b : EventBus) : EventBus :=
  mk (_handlers b) (_async_handlers b) q n
     (_processing b) (_processing_task b) (tasks_created b) (published b)
     (invoked b).
Definition set_processing v (b : EventBus) : EventBus :=
  mk (_handlers b) (_async_handlers b) (_event_queue b) (unfinished_tasks b)
     v (_processing_task b) (tasks_created b) (published b) (invoked b).
Definition spawn_task (b : EventBus) : EventBus :=
  mk (_handlers b) (_async_handlers b) (_event_queue b) (unfinished_tasks b)
     (_processing b) true (S (tasks_created b)) (published b) (invoked b).
Definition log_published e (b : EventBus) : EventBus :=
  mk (_handlers b) (_async_handlers b) (_event_queue b) (unfinished_tasks b)
     (_processing b) (_processing_task b) (tasks_created b)
     ((published b ++ [e])%list) (invoked b).
Definition log_invoked i (b : EventBus) : EventBus :=
  mk (_handlers b) (_async_handlers b) (_event_queue b) (unfinished_tasks b)
     (_processing b) (_processing_task b) (tasks_created b) (published b)
     ((invoked b ++ [i])%list).

Local Open Scope py_scope.

(** [handler(event)], or [await handler(event)] run to its end. *)
Definition call_handler (m : mode) (h : Handler) (event : DomainEvent)
  : M EventBus unit :=
  modify (log_invoked (mkInv m (h_name h) event)) ;;;
  match h_raises h event with
  | Some e => raise e
  | None => ret tt
  end.

(** One pass of the body of [for handler in ...]: the call under its
    [try] and [except Exception]. *)
Definition guarded_call (m : mode) (handler : Handler) (event : DomainEvent)
  : M EventBus unit :=
  try_except_Exception (call_handler m handler event) (fun _ => ret tt).

Fixpoint for_each {St A} (l : list A) (body : A -> M St unit) : M St unit :=
  match l with
  | [] => ret tt
  | x :: l' => body x ;;; for_each l' body
  end.

(** [await self._event_queue.put(event)]: the queue is unbounded. *)
Definition queue_put (event : DomainEvent) : M EventBus unit :=
  modify (fun b => set_queue ((_event_queue b ++ [event])%list)
                             (S (unfinished_tasks b)) b).

Definition publish (event : DomainEvent) : M EventBus unit :=
  modify (log_published event) ;;;
  let event_type := event_type event in
  b <- get ;;
  (if dict_contains (_handlers b) event_type then
     for_each (dict_get_default (_handlers b) event_type [])
       (fun handler => guarded_call Immediate handler event)
   else ret tt) ;;;
  b <- get ;;
  if dict_contains (_async_handlers b) event_type
  then queue_put event
  else ret tt.

(** [d[k].append(h)] on a [defaultdict(list)]. *)
Definition dd_append (d : dict (list Handler)) (k : string) (h : Handler)
  : dict (list Handler) :=
  dict_set d k ((dict_get_default d k [] ++ [h])%list).

Definition subscribe (event_type : string) (handler : Handler)
    (async_processing : bool) : M EventBus unit :=
  (if async_processing
   then modify (fun b =>
          set_async_handlers (dd_append (_async_handlers b) event_type handler) b)
   else modify (fun b =>
          set_handlers (dd_append (_handlers b) event_type handler) b)) ;;;
  b <- get ;;
  if async_processing && negb (_processing b)
  then modify spawn_task
  else ret tt.

(** [l.remove(h)]: the first occurrence goes. *)
Fixpoint list_remove (l : list Handler) (h : Handler) : list Handler :=
  match l with
  | [] => []
  | x :: l' =>
      if String.eqb (h_name x) (h_name h) then l' else x :: list_remove l' h
  end.

Definition handler_in (h : Handler) (l : list Handler) : bool :=
  existsb (fun x => String.eqb (h_name x) (h_name h)) l.

(** [if handler in d[k]: d[k].remove(handler)]: indexing the
    [defaultdict] creates the key. *)
Definition dd_remove (d : dict (list Handler)) (k : string) (h : Handler)
  : dict (list Handler) :=
  let l := dict_get_default d k [] in
  let d := dict_set d k l in
  if handler_in h l then dict_set d k (list_remove l h) else d.

Definition unsubscribe (event_type : string) (handler : Handler)
  : M EventBus unit :=
  modify (fun b => set_handlers (dd_remove (_handlers b) event_type handler) b) ;;;
  modify (fun b =>
    set_async_handlers (dd_remove (_async_handlers b) event_type handler) b).

Definition get_handlers_count (b : EventBus) (event_type : string) : nat :=
  (length (dict_get_default (_handlers b) event_type []) +
   length (dict_get_default (_async_handlers b) event_type []))%nat.

(** [get_subscribed_events]: the keys of the two dicts, each once.  A
    Python set has no specified order; only membership in the result is
    meaningful. *)
Definition get_subscribed_events (b : EventBus) : list string :=
  nodup string_dec
    (dict_keys (_handlers b) ++ dict_keys (_async_handlers b))%list.

(** ** The consumption loop under the asyncio scheduler

    [_process_event_queue] is one task of the event loop.  It gives up
    control only at an [await] that cannot finish at once: in
    [queue.get()] when the queue is empty, and in [await handler(event)]
    when the handler suspends.  [consumer] records where the task stands;
    [cancel_requested] is set by [Task.cancel()] and makes the task's next
    resumption raise [CancelledError] at its [await].

    The machine describes a bus with one consumption task, over a stretch
    of time in which no handler is subscribed or unsubscribed: [subscribe]
    creates one task at every deferred subscription made while
    [_processing] is false, which [tasks_created] counts, and a bus with
    several tasks is outside the machine.  The statements about runs of the
    machine say which bus they are about. *)
Inductive consumer : Type :=
| Scheduled
| AwaitGet
| AwaitHandler (event : DomainEvent) (current : Handler) (rest : list Handler)
| Finished.

(** Where a call of [stop()] stands. *)
Inductive stop_pc : Type :=
| NotCalled
| AwaitTask
| AwaitJoin
| Returned.

Record Loop : Type := mkLoop {
  bus : EventBus;
  task : consumer;
  cancel_requested : bool;
  stopper : stop_pc
}.

(** [self._event_queue.task_done()]. *)
Definition task_done (b : EventBus) : EventBus :=
  set_queue (_event_queue b) (pred (unfinished_tasks b)) b.

(** The [for handler in ...] loop of the consumer from handler [hs] on.  A
    call that suspends parks the task, the call being recorded as made;
    a call that runs to its end is followed by the next one; an exception
    that [except Exception] lets through leaves the [while] loop through
    [except asyncio.CancelledError]. *)
Fixpoint run_handlers (event : DomainEvent) (hs : list Handler) (b : EventBus)
  : EventBus * option consumer :=
  match hs with
  | [] => (b, None)
  | h :: hs' =>
      if h_suspends h event
      then (log_invoked (mkInv Deferred (h_name h) event) b,
            Some (AwaitHandler event h hs'))
      else
        match guarded_call Deferred h event b with
        | (Ok _, b) => run_handlers event hs' b
        | (Raise _, b) => (b, Some Finished)
        end
  end.

(** The [while True] loop from [queue.get()] on, over the events [q] that
    are in the queue: it takes them one by one until a handler parks the
    task, or the queue is empty and [get()] parks it. *)
Fixpoint consume (q : list DomainEvent) (b : EventBus) : EventBus * consumer :=
  match q with
  | [] => (b, AwaitGet)
  | event :: q' =>
      let b := set_queue q' (unfinished_tasks b) b in
      let hs :=
        if dict_contains (_async_handlers b) (event_type event)
        then dict_get_default (_async_handlers b) (event_type event) []
        else [] in
      match run_handlers event hs b with
      | (b, Some c) => (b, c)
      | (b, None) => consume q' (task_done b)
      end
  end.

(** The end of a suspended handler call.  The call returns, or raises an
    [Exception], which is logged: then come the remaining handlers,
    [task_done()] and the loop.  Or it raises what [except Exception] lets
    through, which ends the loop. *)
Definition resume_handler (event : DomainEvent) (h : Handler)
    (rest : list Handler) (b : EventBus) : EventBus * consumer :=
  match h_raises h event with
  | Some e =>
      if is_Exception e then
        match run_handlers event rest b with
        | (b, Some c) => (b, c)
        | (b, None) => let b := task_done b in consume (_event_queue b) b
        end
      else (b, Finished)
  | None =>
      match run_handlers event rest b with
      | (b, Some c) => (b, c)
      | (b, None) => let b := task_done b in consume (_event_queue b) b
      end
  end.

(** The event loop runs the consumption task from where it stands. *)
Definition run_consumer (s : Loop) : Loop :=
  match task s with
  | Finished => s
  | Scheduled =>
      if cancel_requested s
      then mkLoop (bus s) Finished false (stopper s)
      else
        let b := set_processing true (bus s) in
        let '(b, c) := consume (_event_queue b) b in
        mkLoop b c false (stopper s)
  | AwaitGet =>
      if cancel_requested s
      then mkLoop (bus s) Finished false (stopper s)
      else
        let '(b, c) := consume (_event_queue (bus s)) (bus s) in
        mkLoop b c false (stopper s)
  | AwaitHandler event h rest =>
      if cancel_requested s
      then mkLoop (bus s) Finished false (stopper s)
      else
        let '(b, c) := resume_handler event h rest (bus s) in
        mkLoop b c false (stopper s)
  end.

(** [stop()] after [await self._processing_task]: the test of
    [queue.empty()] and [await queue.join()]. *)
Definition stop_drain (b : EventBus) : stop_pc :=
  match _event_queue b with
  | [] => Returned
  | _ :: _ =>
      match unfinished_tasks b with
      | O => Returned
      | S _ => AwaitJoin
      end
  end.

(** [stop()] from its call to its first suspension. *)
Definition stop_call (s : Loop) : Loop :=
  if negb (_processing (bus s)) then
    mkLoop (bus s) (task s) (cancel_requested s) Returned
  else
    let b := set_processing false (bus s) in
    match task s with
    | Finished => mkLoop b (task s) (cancel_requested s) (stop_drain b)
    | _ =>
        if _processing_task b
        then mkLoop b (task s) true AwaitTask
        else mkLoop b (task s) (cancel_requested s) (stop_drain b)
    end.

(** [stop()] resumed: after the awaited task has ended, or after [join]. *)
Definition stop_resume (s : Loop) : Loop :=
  match stopper s with
  | AwaitTask =>
      match task s with
      | Finished =>
          mkLoop (bus s) (task s) (cancel_requested s) (stop_drain (bus s))
      | _ => s
      end
  | AwaitJoin =>
      match unfinished_tasks (bus s) with
      | O => mkLoop (bus s) (task s) (cancel_requested s) Returned
      | S _ => s
      end
  | _ => s
  end.

(** What the event loop may do next. *)
Inductive action : Type :=
| DoPublish (event : DomainEvent)
| DoConsumer
| DoStopCall
| DoStopResume.

Definition step (s : Loop) (a : action) : Loop :=
  match a with
  | DoPublish event =>
      mkLoop (snd (publish event (bus s))) (task s) (cancel_requested s)
             (stopper s)
  | DoConsumer => run_consumer s
  | DoStopCall =>
      match stopper s with
      | NotCalled => stop_call s
      | _ => s
      end
  | DoStopResume => stop_resume s
  end.

Definition run (s : Loop) (schedule : list action) : Loop :=
  fold_left step schedule s.

End EventBus.
Abbreviation EventBus := EventBus.EventBus.

(* ================================================================== *)
(** * The world: repositories, bus and the generation capability         *)
(* ================================================================== *)

(** [king/core/ports/llm.py]. *)
Record LLMResponse : Type := mkLLMResponse {
  content : string;
  metadata : option (dict pyval);
  tokens_used : option Z;
  model : option string
}.

(** One instance of each in-memory repository and one bus, shared by the
    services, as [infrastructure/dependencies.py] wires them.
    [llm_client_generate] is the answer of the LLM adapter, an external
    collaborator; [object_id] renders [id(obj)] of a string; [llm_calls]
    keeps the history of the calls made to the adapter. *)
Record World : Type := mkWorld {
  env : Env;
  _agents : dict Agent;
  _tasks : dict Task;
  _messages : dict Message;
  _conversations : dict Conversation;
  event_bus : EventBus;
  llm_client_generate : string -> list Message -> Res LLMResponse;
  object_id : string -> string;
  llm_calls : list (string * list Message)
}.

Definition set_env v (w : World) : World :=
  mkWorld v (_agents w) (_tasks w) (_messages w) (_conversations w)
          (event_bus w) (llm_client_generate w) (object_id w) (llm_calls w).
Definition set_agents v (w : World) : World :=
  mkWorld (env w) v (_tasks w) (_messages w) (_conversations w)
          (event_bus w) (llm_client_generate w) (object_id w) (llm_calls w).
Definition set_tasks v (w : World) : World :=
  mkWorld (env w) (_agents w) v (_messages w) (_conversations w)
          (event_bus w) (llm_client_generate w) (object_id w) (llm_calls w).
Definition set_messages v (w : World) : World :=
  mkWorld (env w) (_agents w) (_tasks w) v (_conversations w)
          (event_bus w) (llm_client_generate w) (object_id w) (llm_calls w).
Definition set_conversations v (w : World) : World :=
  mkWorld (env w) (_agents w) (_tasks w) (_messages w) v
          (event_bus w) (llm_client_generate w) (object_id w) (llm_calls w).
Definition set_event_bus v (w : World) : World :=
  mkWorld (env w) (_agents w) (_tasks w) (_messages w) (_conversations w)
          v (llm_client_generate w) (object_id w) (llm_calls w).
Definition log_llm_call c (w : World) : World :=
  mkWorld (env w) (_agents w) (_tasks w) (_messages w) (_conversations w)
          (event_bus w) (llm_client_generate w) (object_id w)
          ((llm_calls w ++ [c])%list).

#[export] Instance HasEnv_World : HasEnv World :=
  {| env_of := env; with_env := set_env |}.

(** A method call [obj.method(...)] on an object held in a local variable:
    the method runs on the object, in the environment of the world, and the
    object comes back as the call left it. *)
Definition call {X A} (obj : X) (method : M (Env * X) A) : M World (A * X) :=
  fun w =>
    match method (env w, obj) with
    | (Ok a, (e, obj')) => (Ok (a, obj'), set_env e w)
    | (Raise ex, (e, _)) => (Raise ex, set_env e w)
    end.

(** A call on the bus of the world. *)
Definition on_bus {A} (m : M EventBus A) : M World A :=
  fun w =>
    match m (event_bus w) with
    | (r, b) => (r, set_event_bus b w)
    end.

(** [_publish_event], the same in the three services: publishing is guarded
    by the presence of a bus, and an [Exception] out of [publish] is logged
    and dropped. *)
Definition _publish_event (has_event_bus : bool) (event : DomainEvent)
  : M World unit :=
  if has_event_bus
  then try_except_Exception (on_bus (EventBus.publish event)) (fun _ => ret tt)
  else ret tt.

(* ================================================================== *)
(** * [king/infrastructure/persistence/in_memory_repositories.py]        *)
(* ================================================================== *)

(** The repositories hand out the objects they store, not copies.  The
    services below work on values: where the source changes a stored object
    in place without writing it back, the model writes it back under the key
    it was read from. *)

Module InMemoryAgentRepository.
Local Open Scope py_scope.

Definition create (agent : Agent) : M World Agent :=
  modify (fun w => set_agents (dict_set (_agents w) (Agent.id agent) agent) w) ;;;
  ret agent.

Definition get_by_id (agent_id : string) : M World (option Agent) :=
  gets (fun w => dict_get (_agents w) agent_id).

Definition update (agent : Agent) : M World Agent :=
  w <- get ;;
  if negb (dict_contains (_agents w) (Agent.id agent)) then raise ValueError
  else
    modify (fun w => set_agents (dict_set (_agents w) (Agent.id agent) agent) w) ;;;
    ret agent.

Definition delete (agent_id : string) : M World bool :=
  w <- get ;;
  if dict_contains (_agents w) agent_id then
    modify (fun w => set_agents (dict_del (_agents w) agent_id) w) ;;;
    ret true
  else ret false.

Definition get_available : M World (list Agent) :=
  gets (fun w =>
    filter (fun agent =>
              existsb (AgentStatus.eqb (Agent.status agent))
                      [AgentStatus.ACTIVE; AgentStatus.IDLE])
           (dict_values (_agents w))).

Definition get_by_status (status : string) : M World (list Agent) :=
  gets (fun w =>
    filter (fun agent =>
              String.eqb (AgentStatus.value (Agent.status agent)) status)
           (dict_values (_agents w))).

Definition get_all (skip limit : Z) : M World (list Agent) :=
  gets (fun w => py_slice (dict_values (_agents w)) skip (skip + limit)).
End InMemoryAgentRepository.

Module InMemoryTaskRepository.
Local Open Scope py_scope.

Definition create (task : Task) : M World Task :=
  modify (fun w => set_tasks (dict_set (_tasks w) (Task.id task) task) w) ;;;
  ret task.

Definition get_by_id (task_id : string) : M World (option Task) :=
  gets (fun w => dict_get (_tasks w) task_id).

Definition update (task : Task) : M World Task :=
  w <- get ;;
  if negb (dict_contains (_tasks w) (Task.id task)) then raise ValueError
  else
    modify (fun w => set_tasks (dict_set (_tasks w) (Task.id task) task) w) ;;;
    ret task.

Definition get_pending : M World (list Task) :=
  gets (fun w =>
    filter (fun task =>
              existsb (TaskStatus.eqb (Task.status task))
                      [TaskStatus.CREATED; TaskStatus.ASSIGNED])
           (dict_values (_tasks w))).

Definition delete (task_id : string) : M World bool :=
  w <- get ;;
  if dict_contains (_tasks w) task_id then
    modify (fun w => set_tasks (dict_del (_tasks w) task_id) w) ;;;
    ret true
  else ret false.

Definition get_by_status (status : string) : M World (list Task) :=
  gets (fun w =>
    filter (fun task =>
              String.eqb (TaskStatus.value (Task.status task)) status)
           (dict_values (_tasks w))).


Definition get_all (skip limit : Z) : M World (list Task) :=
  gets (fun w => py_slice (dict_values (_tasks w)) skip (skip + limit)).
End InMemoryTaskRepository.

Module InMemoryMessageRepository.
Local Open Scope py_scope.

Definition create_message (message : Message) : M World Message :=
  modify (fun w =>
    set_messages (dict_set (_messages w) (Message.id message) message) w) ;;;
  ret message.

Definition get_message_by_id (message_id : string) : M World (option Message) :=
  gets (fun w => dict_get (_messages w) message_id).

Definition create_conversation (conversation : Conversation)
  : M World Conversation :=
  modify (fun w =>
    set_conversations
      (dict_set (_conversations w) (Conversation.id conversation) conversation)
      w) ;;;
  ret conversation.

Definition get_conversation_by_id (conversation_id : string)
  : M World (option Conversation) :=
  gets (fun w => dict_get (_conversations w) conversation_id).

(** [datetime] order, which [messages.sort(key=lambda m: m.timestamp)]
    compares with. *)
Definition datetime_key (d : datetime) : list Z :=
  [datetime.year d; datetime.month d; datetime.day d; datetime.hour d;
   datetime.minute d; datetime.second d; datetime.microsecond d].

Fixpoint lex_ltb (a b : list Z) : bool :=
  match a, b with
  | x :: a', y :: b' => (x <? y) || ((x =? y) && lex_ltb a' b')
  | [], _ :: _ => true
  | _, [] => false
  end.

Definition timestamp_ltb (a b : Message) : bool :=
  lex_ltb (datetime_key (Message.timestamp a))
          (datetime_key (Message.timestamp b)).

(** A stable sort: an element goes before the first one that is strictly
    later. *)
Fixpoint insert_sorted (m : Message) (l : list Message) : list Message :=
  match l with
  | [] => [m]
  | x :: l' =>
      if timestamp_ltb m x then m :: x :: l' else x :: insert_sorted m l'
  end.

Definition sort_by_timestamp (l : list Message) : list Message :=
  fold_left (fun acc m => insert_sorted m acc) l [].

Definition opt_string_eqb (a b : option string) : bool :=
  match a, b with
  | Some x, Some y => String.eqb x y
  | None, None => true
  | _, _ => false
  end.

Definition get_conversation_messages (conversation_id : string)
    (skip limit : nat) : M World (list Message) :=
  w <- get ;;
  let messages :=
    filter (fun msg =>
              opt_string_eqb (Message.conversation_id msg) (Some conversation_id))
           (dict_values (_messages w)) in
  let messages := sort_by_timestamp messages in
  ret (firstn limit (skipn skip messages)).

(** [conversation] is the stored object: [add_message] changes it in the
    store. *)
Definition add_message_to_conversation (conversation_id : string)
    (message : Message) : M World Message :=
  conversation <- get_conversation_by_id conversation_id ;;
  match conversation with
  | None => raise ValueError
  | Some conversation =>
      r <- call conversation (Conversation.add_message message) ;;
      let '(message, conversation) := r in
      modify (fun w =>
        set_conversations
          (dict_set (_conversations w) conversation_id conversation) w) ;;;
      create_message message ;;;
      ret message
  end.
End InMemoryMessageRepository.

(* ================================================================== *)
(** * [king/core/services/agent_orchestrator.py]                         *)
(* ================================================================== *)

Module AgentOrchestrator.
Local Open Scope py_scope.

(** The repositories are those of the world; [event_bus] tells whether
    the service was given the bus or [None]. *)
Record AgentOrchestrator : Type := mk { event_bus : bool }.

Definition update_agent_status (self : AgentOrchestrator) (agent_id : string)
    (new_status : AgentStatus.t) (reason : option string) : M World Agent :=
  agent <- InMemoryAgentRepository.get_by_id agent_id ;;
  match agent with
  | None => raise ValueError
  | Some agent =>
      let old_status := Agent.status agent in
      r <- call agent (Agent.change_status new_status reason) ;;
      let agent := snd r in
      agent <- InMemoryAgentRepository.update agent ;;
      (if event_bus self then
         event <- events.new
                    (events.AgentStatusChanged
                       (Agent.id agent)
                       (AgentStatus.value old_status)
                       (AgentStatus.value new_status)
                       reason) ;;
         _publish_event (event_bus self) event
       else ret tt) ;;;
      ret agent
  end.

Definition assign_task_to_agent (self : AgentOrchestrator) (task : Task)
    (agent_id : string) : M World Task :=
  agent <- InMemoryAgentRepository.get_by_id agent_id ;;
  match agent with
  | None => raise ValueError
  | Some agent =>
      if negb (Agent.is_available agent) then raise ValueError
      else
        r <- call task (Task.assign_to agent_id) ;;
        let task := snd r in
        InMemoryTaskRepository.update task
  end.

Definition find_available_agent (self : AgentOrchestrator)
    (required_capabilities : option (list string)) : M World (option Agent) :=
  available_agents <- InMemoryAgentRepository.get_available ;;
  match available_agents with
  | [] => ret None
  | _ :: _ =>
      match required_capabilities with
      | Some ((_ :: _) as required_capabilities) =>
          ret (find (fun agent =>
                       forallb (Agent.has_capability agent) required_capabilities)
                    available_agents)
      | _ => ret (hd_error available_agents)
      end
  end.

(** [all(agent.has_capability(cap) for cap in caps)]: the test stops at the
    first capability the agent lacks. *)
Fixpoint all_capabilities (agent : Agent) (caps : list pyval) : Res bool :=
  match caps with
  | [] => Ok true
  | cap :: rest =>
      match Agent.has_capability_object agent cap with
      | Ok true => all_capabilities agent rest
      | Ok false => Ok false
      | Raise e => Raise e
      end
  end.

(** The loop [for agent in available_agents: if all(...): return agent].
    The generator expression takes [iter(required_capabilities)] anew for
    every agent, and that is where an object that cannot be iterated
    raises [TypeError]. *)
Fixpoint first_capable (agents : list Agent) (required_capabilities : pyval)
  : Res (option Agent) :=
  match agents with
  | [] => Ok None
  | agent :: rest =>
      match Conversation.iterate required_capabilities with
      | Ok caps =>
          match all_capabilities agent caps with
          | Ok true => Ok (Some agent)
          | Ok false => first_capable rest required_capabilities
          | Raise e => Raise e
          end
      | Raise e => Raise e
      end
  end.

(** [find_available_agent] as [schedule_task] calls it, with whatever
    object the metadata of the task holds under [required_capabilities]
    ([None] when the key is absent).  On [None] and on a list of strings it
    is [find_available_agent] above. *)
Definition find_available_agent_for (self : AgentOrchestrator)
    (required_capabilities : pyval) : M World (option Agent) :=
  available_agents <- InMemoryAgentRepository.get_available ;;
  match available_agents with
  | [] => ret None
  | _ :: _ =>
      if truthy required_capabilities
      then lift_res (first_capable available_agents required_capabilities)
      else ret (hd_error available_agents)
  end.




Definition get_agent (self : AgentOrchestrator) (agent_id : string)
  : M World (option Agent) :=
  InMemoryAgentRepository.get_by_id agent_id.


Definition get_all_agents (self : AgentOrchestrator) (skip limit : Z)
  : M World (list Agent) :=
  InMemoryAgentRepository.get_all skip limit.
End AgentOrchestrator.
Abbreviation AgentOrchestrator := AgentOrchestrator.AgentOrchestrator.

(* ================================================================== *)
(** * [king/core/services/task_scheduler.py]                             *)
(* ================================================================== *)

Module TaskScheduler.
Local Open Scope py_scope.

Record TaskScheduler : Type := mk {
  agent_orchestrator : option AgentOrchestrator;
  event_bus : bool
}.

(** [TaskType(task_type) if isinstance(task_type, str) else task_type]: the
    REST layer passes a member of the enum, which is a [str] too and which
    [TaskType(...)] returns as it is. *)
Definition task_type_of (task_type : string + TaskType.t) : Res TaskType.t :=
  match task_type with
  | inl s => TaskType.of_value (PStr s)
  | inr t => TaskType.of_value (PStr (TaskType.value t))
  end.

(** [task] is the stored object, which [assign_to] changes in place: what
    the [except] clause returns is the task as the repository holds it
    under [task_id] when the exception arrives (every task being stored
    under its id, as [create] stores it), assigned if the assignment had
    gone through. *)
Definition schedule_task (self : TaskScheduler) (task_id : string)
  : M World (option Task) :=
  task <- InMemoryTaskRepository.get_by_id task_id ;;
  match task with
  | None => ret None
  | Some task =>
      if negb (TaskStatus.eqb (Task.status task) TaskStatus.CREATED)
      then ret (Some task)
      else
        let required_capabilities :=
          dict_get_default (Task.metadata task) "required_capabilities" PNone in
        agent <- match agent_orchestrator self with
                 | Some orchestrator =>
                     AgentOrchestrator.find_available_agent_for orchestrator
                       required_capabilities
                 | None => ret None
                 end ;;
        match agent with
        | None => ret (Some task)
        | Some agent =>
            try_except_Exception
              (task <- match agent_orchestrator self with
                       | Some orchestrator =>
                           AgentOrchestrator.assign_task_to_agent
                             orchestrator task (Agent.id agent)
                       | None =>
                           r <- call task (Task.assign_to (Agent.id agent)) ;;
                           InMemoryTaskRepository.update (snd r)
                       end ;;
               (if event_bus self then
                  event <- events.new
                             (events.TaskAssigned (Task.id task) (Agent.id agent)) ;;
                  _publish_event (event_bus self) event
                else ret tt) ;;;
               ret (Some task))
              (fun _ =>
                 stored <- InMemoryTaskRepository.get_by_id task_id ;;
                 ret (match stored with
                      | Some t => Some t
                      | None => Some task
                      end))
        end
  end.

(** [Task(type=, status=, payload=, metadata=)]: [id], [created_at] and
    [updated_at] come from their factories, in field order. *)
Definition new_task (type : TaskType.t) (payload metadata : dict pyval)
  : M World Task :=
  i <- uuid4 ;;
  c <- utcnow ;;
  u <- utcnow ;;
  ret (Task.mk i type TaskStatus.CREATED payload None None None metadata
               c u None None).

(** The task that [create_task] returns is the object the repository
    holds, which [schedule_task] may have changed in the meantime: the
    value returned is read from the repository at the end. *)
Definition create_task (self : TaskScheduler) (task_type : string + TaskType.t)
    (payload : dict pyval) (priority : Z) (metadata : option (dict pyval))
  : M World Task :=
  type <- lift_res (task_type_of task_type) ;;
  task <- new_task type payload
            (dict_set (or_empty metadata) "priority" (PInt priority)) ;;
  task <- InMemoryTaskRepository.create task ;;
  (if event_bus self then
     event <- events.new
                (events.TaskCreated (Task.id task)
                   (TaskType.value (Task.type task)) (Task.payload task)) ;;
     _publish_event (event_bus self) event
   else ret tt) ;;;
  match agent_orchestrator self with
  | Some _ =>
      schedule_task self (Task.id task) ;;;
      stored <- InMemoryTaskRepository.get_by_id (Task.id task) ;;
      ret (match stored with Some t => t | None => task end)
  | None => ret task
  end.

Definition get_pending_tasks (self : TaskScheduler) : M World (list Task) :=
  InMemoryTaskRepository.get_pending.

Fixpoint schedule_each (self : TaskScheduler) (pending : list Task)
    (scheduled_count : nat) : M World nat :=
  match pending with
  | [] => ret scheduled_count
  | task :: rest =>
      scheduled <- schedule_task self (Task.id task) ;;
      schedule_each self rest
        (match scheduled with
         | Some t =>
             if TaskStatus.eqb (Task.status t) TaskStatus.ASSIGNED
             then S scheduled_count else scheduled_count
         | None => scheduled_count
         end)
  end.

Definition schedule_all_pending (self : TaskScheduler) : M World nat :=
  pending_tasks <- get_pending_tasks self ;;
  schedule_each self pending_tasks 0%nat.

Definition get_task (self : TaskScheduler) (task_id : string)
  : M World (option Task) :=
  InMemoryTaskRepository.get_by_id task_id.

Definition get_tasks_by_status (self : TaskScheduler) (status : string)
  : M World (list Task) :=
  InMemoryTaskRepository.get_by_status status.
End TaskScheduler.
Abbreviation TaskScheduler := TaskScheduler.TaskScheduler.

(* ================================================================== *)
(** * [king/core/services/llm_service.py]                                *)
(* ================================================================== *)

Module LLMService.
Local Open Scope py_scope.

Record LLMService : Type := mk { event_bus : bool }.

(** [generate(prompt, context=context)], the one way the message
    processor calls it: no streaming and no further keyword. *)
Definition generate (self : LLMService) (prompt : string)
    (context : list Message) : M World LLMResponse :=
  w <- get ;;
  let request_id := "req_" ++ object_id w prompt in
  try_except_Exception
    ((if event_bus self then
        event <- events.new
                   (events.LLMRequestInitiated request_id prompt None []) ;;
        _publish_event (event_bus self) event
      else ret tt) ;;;
     modify (log_llm_call (prompt, context)) ;;;
     w <- get ;;
     response <- lift_res (llm_client_generate w prompt context) ;;
     (if event_bus self then
        event <- events.new
                   (events.LLMResponseReceived request_id (content response)
                      (tokens_used response) (model response)) ;;
        _publish_event (event_bus self) event
      else ret tt) ;;;
     ret response)
    (fun e =>
       (if event_bus self then
          event <- events.new
                     (events.LLMErrorOccurred request_id (exn_str e)
                        (Some (exn_type_name e))) ;;
          _publish_event (event_bus self) event
        else ret tt) ;;;
       raise e).
End LLMService.
Abbreviation LLMService := LLMService.LLMService.

(* ================================================================== *)
(** * [king/core/services/message_processor.py]                          *)
(* ================================================================== *)

Module MessageProcessor.
Local Open Scope py_scope.

Record MessageProcessor : Type := mk {
  llm_service : option LLMService;
  event_bus : bool
}.

Fixpoint build_context (messages : list Message) : M World (list Message) :=
  match messages with
  | [] => ret []
  | msg :: rest =>
      m <- Message.new_at (Message.role msg) (Message.content msg)
             (Message.timestamp msg) ;;
      ms <- build_context rest ;;
      ret (m :: ms)
  end.

Definition _generate_response (self : MessageProcessor) (llm : LLMService)
    (conversation : Conversation) (user_message : Message) : M World unit :=
  try_except_Exception
    (messages <- InMemoryMessageRepository.get_conversation_messages
                   (Conversation.id conversation) 0 100 ;;
     context <- build_context messages ;;
     let prompt := Message.content user_message in
     response <- LLMService.generate llm prompt context ;;
     assistant_message <-
       Message.new "assistant" (content response)
         (Some (Conversation.id conversation))
         [("model", opt_pystr (model response));
          ("tokens_used", events.opt_pyint (tokens_used response))] ;;
     assistant_message <-
       InMemoryMessageRepository.create_message assistant_message ;;
     assistant_message <-
       InMemoryMessageRepository.add_message_to_conversation
         (Conversation.id conversation) assistant_message ;;
     (if event_bus self then
        event <- events.new
                   (events.MessageProcessed (Message.id user_message)
                      (Some (Message.content assistant_message))) ;;
        _publish_event (event_bus self) event
      else ret tt))
    (fun e => raise e).

Definition process_message (self : MessageProcessor) (content role : string)
    (conversation_id : option string) (metadata : option (dict pyval))
  : M World Message :=
  conversation <-
    match conversation_id with
    | Some cid =>
        if negb (String.eqb cid "")
        then InMemoryMessageRepository.get_conversation_by_id cid
        else ret None
    | None => ret None
    end ;;
  conversation <-
    match conversation with
    | Some c => ret c
    | None =>
        c <- Conversation.new [("metadata", PDict (or_empty metadata))] ;;
        InMemoryMessageRepository.create_conversation c
    end ;;
  message <- Message.new role content (Some (Conversation.id conversation))
               (or_empty metadata) ;;
  message <- InMemoryMessageRepository.create_message message ;;
  message <- InMemoryMessageRepository.add_message_to_conversation
               (Conversation.id conversation) message ;;
  (if event_bus self then
     event <- events.new
                (events.MessageReceived (Message.id message)
                   (Message.role message) (Message.content message)
                   (Some (Conversation.id conversation))) ;;
     _publish_event (event_bus self) event
   else ret tt) ;;;
  match llm_service self with
  | Some llm =>
      if String.eqb role "user"
      then _generate_response self llm conversation message ;;; ret message
      else ret message
  | None => ret message
  end.
End MessageProcessor.
Abbreviation MessageProcessor := MessageProcessor.MessageProcessor.

(* ================================================================== *)
(** * [king/api/rest/tasks.py] and [king/api/rest/agents.py]             *)
(* ================================================================== *)

Module rest.

(** What a route function raises: an [HTTPException], of which the status
    code is kept and the detail text is not, or an exception that comes out
    of a service.  [HTTPException] derives from [Exception]. *)
Inductive raised : Type :=
| HTTPException (status_code : Z)
| Service (e : exn).

Inductive outcome (A : Type) : Type :=
| Returns (a : A)
| Raises (r : raised).
Arguments Returns {A} a.
Arguments Raises {A} r.

(** A route function runs on the world the services share. *)
Definition route (A : Type) : Type := World -> outcome A * World.

Definition returns {A} (a : A) : route A := fun w => (Returns a, w).
Definition raises {A} (r : raised) : route A := fun w => (Raises r, w).

Definition and_then {A B} (m : route A) (k : A -> route B) : route B :=
  fun w =>
    match m w with
    | (Returns a, w') => k a w'
    | (Raises r, w') => (Raises r, w')
    end.

(** [await service_call(...)]. *)
Definition await {A} (m : M World A) : route A :=
  fun w =>
    match m w with
    | (Ok a, w') => (Returns a, w')
    | (Raise e, w') => (Raises (Service e), w')
    end.

(** The classes the [except] clauses of the routes name.  No service call
    of these routes raises an [Exception_]. *)
Definition is_ValueError (r : raised) : bool :=
  match r with
  | Service ValueError => true
  | _ => false
  end.

Definition derives_from_Exception (r : raised) : bool :=
  match r with
  | HTTPException _ => true
  | Service e => is_Exception e
  end.

(** [try: body except ValueError: h]. *)
Definition try_except_ValueError {A} (body : route A) (h : route A) : route A :=
  fun w =>
    match body w with
    | (Returns a, w') => (Returns a, w')
    | (Raises r, w') => if is_ValueError r then h w' else (Raises r, w')
    end.

(** [try: body except Exception: h]. *)
Definition try_except_Exception {A} (body : route A) (h : route A) : route A :=
  fun w =>
    match body w with
    | (Returns a, w') => (Returns a, w')
    | (Raises r, w') => if derives_from_Exception r then h w' else (Raises r, w')
    end.

(** [try: body except ValueError: h1 except Exception: h2]. *)
Definition try_except_ValueError_Exception {A} (body : route A)
    (h1 h2 : route A) : route A :=
  fun w =>
    match body w with
    | (Returns a, w') => (Returns a, w')
    | (Raises r, w') =>
        if is_ValueError r then h1 w'
        else if derives_from_Exception r then h2 w'
        else (Raises r, w')
    end.

(** [king/api/rest/schemas.py]. *)
Record TaskCreate : Type := mkTaskCreate {
  tc_type : string;
  tc_payload : dict pyval;
  tc_priority : Z;
  tc_metadata : option (dict pyval)
}.

Record TaskResponse : Type := mkTaskResponse {
  tr_id : string;
  tr_type : string;
  tr_status : string;
  tr_payload : dict pyval;
  tr_assigned_agent : option string;
  tr_result : option (dict pyval);
  tr_error : option string;
  tr_metadata : dict pyval;
  tr_created_at : string;
  tr_updated_at : string;
  tr_started_at : option string;
  tr_completed_at : option string
}.

Record AgentResponse : Type := mkAgentResponse {
  ar_id : string;
  ar_name : string;
  ar_type : string;
  ar_status : string;
  ar_capabilities : dict pyval;
  ar_metadata : dict pyval;
  ar_created_at : string;
  ar_updated_at : string
}.

(** [TaskResponse(id=task.id, ...)], the same in every route. *)
Definition task_response (task : Task) : TaskResponse :=
  mkTaskResponse
    (Task.id task) (TaskType.value (Task.type task))
    (TaskStatus.value (Task.status task)) (Task.payload task)
    (Task.assigned_agent task) (Task.result task) (Task.error task)
    (Task.metadata task)
    (datetime.isoformat (Task.created_at task))
    (datetime.isoformat (Task.updated_at task))
    (option_map datetime.isoformat (Task.started_at task))
    (option_map datetime.isoformat (Task.completed_at task)).

Definition agent_response (agent : Agent) : AgentResponse :=
  mkAgentResponse
    (Agent.id agent) (Agent.name agent) (AgentType.value (Agent.type agent))
    (AgentStatus.value (Agent.status agent)) (Agent.capabilities agent)
    (Agent.metadata agent)
    (datetime.isoformat (Agent.created_at agent))
    (datetime.isoformat (Agent.updated_at agent)).

(** [tasks.py]: [POST /tasks]. *)
Definition create_task (task_data : TaskCreate) (scheduler : TaskScheduler)
  : route TaskResponse :=
  and_then
    (try_except_ValueError
       (await (lift_res (TaskType.of_value (PStr (tc_type task_data)))))
       (raises (HTTPException 400)))
    (fun task_type_enum =>
       if negb (truthy (PDict (tc_payload task_data)))
       then raises (HTTPException 400)
       else if tc_priority task_data <? 0
       then raises (HTTPException 400)
       else
         try_except_ValueError_Exception
           (and_then
              (await (TaskScheduler.create_task scheduler (inr task_type_enum)
                        (tc_payload task_data) (tc_priority task_data)
                        (tc_metadata task_data)))
              (fun task => returns (task_response task)))
           (raises (HTTPException 400))
           (raises (HTTPException 500))).

(** [tasks.py]: [GET /tasks/{task_id}]. *)
Definition get_task (task_id : string) (scheduler : TaskScheduler)
  : route TaskResponse :=
  and_then (await (TaskScheduler.get_task scheduler task_id))
    (fun task =>
       match task with
       | None => raises (HTTPException 404)
       | Some task => returns (task_response task)
       end).

(** [tasks.py]: [POST /tasks/{task_id}/schedule].  The [HTTPException] for
    a task that is not found is raised inside the [try]. *)
Definition schedule_task (task_id : string) (scheduler : TaskScheduler)
  : route TaskResponse :=
  try_except_Exception
    (and_then (await (TaskScheduler.schedule_task scheduler task_id))
       (fun task =>
          match task with
          | None => raises (HTTPException 404)
          | Some task => returns (task_response task)
          end))
    (raises (HTTPException 500)).

(** [agents.py]: [GET /agents/{agent_id}]. *)
Definition get_agent (agent_id : string) (orchestrator : AgentOrchestrator)
  : route AgentResponse :=
  and_then (await (AgentOrchestrator.get_agent orchestrator agent_id))
    (fun agent =>
       match agent with
       | None => raises (HTTPException 404)
       | Some agent => returns (agent_response agent)
       end).

(** [agents.py]: [PATCH /agents/{agent_id}/status]. *)
Definition update_agent_status (agent_id new_status : string)
    (reason : option string) (orchestrator : AgentOrchestrator)
  : route AgentResponse :=
  try_except_ValueError_Exception
    (and_then (await (lift_res (AgentStatus.of_value (PStr new_status))))
       (fun status_enum =>
          and_then
            (await (AgentOrchestrator.update_agent_status orchestrator agent_id
                      status_enum reason))
            (fun agent => returns (agent_response agent))))
    (raises (HTTPException 400))
    (raises (HTTPException 500)).
End rest.

(* ================================================================== *)
(** * Concrete inputs                                                    *)
(* ================================================================== *)

Module Sample.
Definition t0 : datetime := datetime.mk 2024 5 17 9 30 0 0.

(** An environment whose clock advances by one second per reading. *)
Definition env0 : Env :=
  mkEnv (fun n => String (ascii_of_nat (97 + n)) "-uuid") 0
        (fun n => datetime.mk 2024 5 17 9 30 (1 + Z.of_nat n) 0) 0.

Definition task_in (st : TaskStatus.t) : Task :=
  Task.mk "task-1" TaskType.LLM_GENERATION st [("x", PInt 1)] None None None
          [("priority", PInt 0)] t0 t0 None None.

(** A task that has run to completion. *)
Definition task_done : Task :=
  Task.mk "task-2" TaskType.RAG_QUERY TaskStatus.COMPLETED
          [("query", PStr "status of order 17")] (Some "agent-1")
          (Some [("answer", PStr "shipped"); ("hits", PList [PInt 3; PInt 5])])
          None
          [("priority", PInt 2); ("required_capabilities", PList [PStr "rag"])]
          t0 (datetime.mk 2024 5 17 9 31 12 250000)
          (Some (datetime.mk 2024 5 17 9 30 7 1))
          (Some (datetime.mk 2024 5 17 9 31 12 249999)).

Definition agent (id : string) (st : AgentStatus.t) (caps : dict pyval) : Agent :=
  Agent.mk id ("Agent " ++ id) AgentType.TASK_EXECUTOR st caps [] t0 t0.

Definition agents : dict Agent :=
  [ ("agent-0", agent "agent-0" AgentStatus.BUSY [("rag", PBool true)]);
    ("agent-1", agent "agent-1" AgentStatus.CREATED []);
    ("agent-2", agent "agent-2" AgentStatus.IDLE [("rag", PBool true)]) ].

(** A subscriber that raises on every call, and one that never does. *)
Definition failing (name : string) : EventBus.Handler :=
  EventBus.mkHandler name (fun _ => Some (Exception_ "RuntimeError" "boom"))
                     (fun _ => false).
Definition quiet (name : string) : EventBus.Handler :=
  EventBus.mkHandler name (fun _ => None) (fun _ => false).
(** A subscriber whose call ends in [CancelledError], which does not derive
    from [Exception]. *)
Definition cancelling (name : string) : EventBus.Handler :=
  EventBus.mkHandler name (fun _ => Some CancelledError) (fun _ => false).
(** A coroutine subscriber whose call suspends before it ends. *)
Definition slow (name : string) : EventBus.Handler :=
  EventBus.mkHandler name (fun _ => None) (fun _ => true).

(** A bus with an immediate subscriber that raises and, for task events,
    two deferred subscribers; its consumption loop has been started. *)
Definition bus0 : EventBus :=
  EventBus.mk
    [("AgentStatusChanged", [failing "audit"]);
     ("MessageReceived", [failing "audit"; quiet "metrics"])]
    [("TaskCreated", [failing "mirror"; quiet "index"]);
     ("TaskAssigned", [quiet "index"])]
    [] 0 true true 1 [] [].

Definition stored_conversation : Conversation :=
  Conversation.mk "conv-1" [] [] t0 t0.

(** A world whose LLM adapter fails on every request. *)
Definition world0 : World :=
  mkWorld env0 agents
          [("task-1", task_in TaskStatus.ASSIGNED); ("task-2", task_done)]
          [] [("conv-1", stored_conversation)] bus0
          (fun _ _ => Raise (Exception_ "TimeoutError" "upstream timed out"))
          (fun _ => "140230") [].

Definition orchestrator : AgentOrchestrator := AgentOrchestrator.mk true.
Definition scheduler : TaskScheduler := TaskScheduler.mk (Some orchestrator) true.
Definition processor : MessageProcessor :=
  MessageProcessor.mk (Some (LLMService.mk true)) true.

(** The same services, given no event bus. *)
Definition plain_orchestrator : AgentOrchestrator := AgentOrchestrator.mk false.
Definition plain_scheduler : TaskScheduler :=
  TaskScheduler.mk (Some plain_orchestrator) false.
Definition plain_processor : MessageProcessor :=
  MessageProcessor.mk (Some (LLMService.mk false)) false.

(** An event of type [TaskCreated], the [n]-th of the run. *)
Definition task_created (n : nat) : DomainEvent :=
  events.mk (uuid_of env0 n) "TaskCreated" (clock_of env0 n) (Some "task-1")
            [] (events.TaskCreated "task-1" "custom" []).

(** The bus with its consumption loop waiting in [get()]. *)
Definition loop0 : EventBus.Loop :=
  EventBus.mkLoop bus0 EventBus.AwaitGet false EventBus.NotCalled.

(** Publishers and the loop taking turns. *)
Definition schedule0 : list EventBus.action :=
  [EventBus.DoPublish (task_created 0); EventBus.DoConsumer;
   EventBus.DoPublish (task_created 1); EventBus.DoPublish (task_created 2)].

(** A bus whose first deferred subscriber for task events is a coroutine
    that suspends. *)
Definition bus1 : EventBus :=
  EventBus.mk [] [("TaskCreated", [slow "mirror"; quiet "index"])]
              [] 0 true true 1 [] [].
Definition loop1 : EventBus.Loop :=
  EventBus.mkLoop bus1 EventBus.AwaitGet false EventBus.NotCalled.

(** A bus whose first subscriber for task events, deferred and immediate,
    ends in [CancelledError]. *)
Definition bus2 : EventBus :=
  EventBus.mk [("TaskAssigned", [cancelling "guard"; quiet "metrics"])]
              [("TaskCreated", [cancelling "mirror"; quiet "index"])]
              [] 0 true true 1 [] [].
Definition loop2 : EventBus.Loop :=
  EventBus.mkLoop bus2 EventBus.AwaitGet false EventBus.NotCalled.
Definition task_assigned : DomainEvent :=
  events.mk (uuid_of env0 7) "TaskAssigned" (clock_of env0 7) (Some "task-1")
            [] (events.TaskAssigned "task-1" "agent-2").
End Sample.

(* ================================================================== *)
(** * Vocabulary of the statements                                       *)
(* ================================================================== *)

(** A method call returned, and left the task in status [st]. *)
Definition returns_in {A} (r : Res A * (Env * Task)) (st : TaskStatus.t) : Prop :=
  is_ok (fst r) = true /\ Task.status (snd (snd r)) = st.

(** A method call raised [ValueError] and changed neither the task [t] nor
    the environment [e] it was called in. *)
Definition refuses {A} (e : Env) (t : Task) (r : Res A * (Env * Task)) : Prop :=
  r = (Raise ValueError, (e, t)).

Definition opt_valid (o : option datetime) : bool :=
  match o with
  | Some d => datetime.valid d
  | None => true
  end.

(** Every timestamp of the task is one the [datetime] type can hold. *)
Definition timestamps_valid (t : Task) : bool :=
  datetime.valid (Task.created_at t) && datetime.valid (Task.updated_at t) &&
  opt_valid (Task.started_at t) && opt_valid (Task.completed_at t).

(** [first_match p l r]: [r] is the first element of [l] that satisfies
    [p], or nothing when no element does. *)
Definition first_match {A} (p : A -> bool) (l : list A) (r : option A) : Prop :=
  match r with
  | Some a =>
      exists before after,
        l = (before ++ a :: after)%list /\ p a = true /\
        Forall (fun x => p x = false) before
  | None => Forall (fun x => p x = false) l
  end.

(** The bus after the listed handlers have been called for [event]. *)
Definition after_calls (m : EventBus.mode) (event : DomainEvent)
    (hs : list EventBus.Handler) (b : EventBus) : EventBus :=
  EventBus.mk
    (EventBus._handlers b) (EventBus._async_handlers b)
    (EventBus._event_queue b) (EventBus.unfinished_tasks b)
    (EventBus._processing b) (EventBus._processing_task b)
    (EventBus.tasks_created b) (EventBus.published b)
    (EventBus.invoked b ++
     map (fun h => EventBus.mkInv m (EventBus.h_name h) event) hs)%list.

(** The handlers [publish] calls at once. *)
Definition immediate_handlers (b : EventBus) (event : DomainEvent)
  : list EventBus.Handler :=
  if dict_contains (EventBus._handlers b) (events.event_type event)
  then dict_get_default (EventBus._handlers b) (events.event_type event) []
  else [].

(** The exception of a call of [h] that [except Exception] does not
    catch, if the call ends in one. *)
Definition escapes (h : EventBus.Handler) (event : DomainEvent) : option exn :=
  match EventBus.h_raises h event with
  | Some e => if is_Exception e then None else Some e
  | None => None
  end.

(** A handler whose calls return or raise a subclass of [Exception]. *)
Definition raises_only_Exception (h : EventBus.Handler) : Prop :=
  forall event, escapes h event = None.

(** The handlers of [hs] that a loop [for handler in hs] calls for [event],
    in order, and the exception that ends the loop early, if one does: the
    loop goes up to the first handler whose exception escapes. *)
Fixpoint called_until (event : DomainEvent) (hs : list EventBus.Handler)
  : list EventBus.Handler * option exn :=
  match hs with
  | [] => ([], None)
  | h :: hs' =>
      match escapes h event with
      | Some e => ([h], Some e)
      | None =>
          let (called, escaped) := called_until event hs' in
          (h :: called, escaped)
      end
  end.

(** What [publish(event)] gives its caller: the exception of an immediate
    handler that [except Exception] lets through, or nothing. *)
Definition publish_result (event : DomainEvent) (b : EventBus) : Res unit :=
  match snd (called_until event (immediate_handlers b event)) with
  | Some e => Raise e
  | None => Ok tt
  end.

(** [publish(event)] reaches [put] and the type has an entry among the
    deferred handlers: the event goes into the queue. *)
Definition enqueued (b : EventBus) (event : DomainEvent) : bool :=
  match snd (called_until event (immediate_handlers b event)) with
  | Some _ => false
  | None => dict_contains (EventBus._async_handlers b) (events.event_type event)
  end.

(** The bus as [publish(event)] leaves it. *)
Definition published_state (event : DomainEvent) (b : EventBus) : EventBus :=
  EventBus.mk
    (EventBus._handlers b) (EventBus._async_handlers b)
    (if enqueued b event then (EventBus._event_queue b ++ [event])%list
     else EventBus._event_queue b)
    (if enqueued b event then S (EventBus.unfinished_tasks b)
     else EventBus.unfinished_tasks b)
    (EventBus._processing b) (EventBus._processing_task b)
    (EventBus.tasks_created b)
    (EventBus.published b ++ [event])%list
    (EventBus.invoked b ++
     map (fun h => EventBus.mkInv EventBus.Immediate (EventBus.h_name h) event)
         (fst (called_until event (immediate_handlers b event))))%list.

(** The bus has had one consumption task created for it: the machine
    [EventBus.Loop] describes such a bus. *)
Definition one_loop (b : EventBus) : Prop :=
  EventBus.tasks_created b = 1%nat.


(** The conversation [process_message] finds for its [conversation_id]
    argument: none when the argument is [None] or empty, or when the
    repository has no conversation under that id. *)
Definition resolved_conversation (w : World) (conversation_id : option string)
  : option Conversation :=
  match conversation_id with
  | Some cid =>
      if negb (String.eqb cid "") then dict_get (_conversations w) cid else None
  | None => None
  end.


(** The task [t] after [assign_to(agent_id)] at time [now]. *)
Definition assigned (t : Task) (agent_id : string) (now : datetime) : Task :=
  Task.set_updated_at now
    (Task.set_status TaskStatus.ASSIGNED
       (Task.set_assigned_agent (Some agent_id) t)).



(** The message that [process_message] constructs in environment [e]. *)
Definition received_message (e : Env) (role content : string)
    (conversation_id : string) (metadata : option (dict pyval)) : Message :=
  Message.mk (uuid_of e (uuid_ix e)) role content (clock_of e (clock_ix e))
             (or_empty metadata) (Some conversation_id).

(** A handler call by the consumption loop: who was called, with what. *)
Definition call_of (event : DomainEvent) (h : EventBus.Handler)
  : string * DomainEvent :=
  (EventBus.h_name h, event).

(** The deferred calls made so far, in the order they were made. *)
Definition deferred_calls (b : EventBus) : list (string * DomainEvent) :=
  map (fun i => (EventBus.inv_handler i, EventBus.inv_event i))
      (filter (fun i => EventBus.mode_eqb (EventBus.inv_mode i) EventBus.Deferred)
              (EventBus.invoked b)).

(** The deferred calls that the events [es] ask for, with the handlers
    registered in [ah]: event by event, each handler in registration order. *)
Definition handlers_for (ah : dict (list EventBus.Handler)) (event : DomainEvent)
  : list EventBus.Handler :=
  if dict_contains ah (events.event_type event)
  then dict_get_default ah (events.event_type event) []
  else [].

Definition expected_calls (ah : dict (list EventBus.Handler))
    (es : list DomainEvent) : list (string * DomainEvent) :=
  flat_map (fun e => map (call_of e) (handlers_for ah e)) es.

(** The calls still to be made for what the loop holds: the handlers after
    the one it is parked in, then the events of the queue. *)
Definition pending_calls (c : EventBus.consumer)
    (ah : dict (list EventBus.Handler)) (q : list DomainEvent)
  : list (string * DomainEvent) :=
  (match c with
   | EventBus.AwaitHandler e _ rest => map (call_of e) rest
   | _ => []
   end ++ expected_calls ah q)%list.

(** The events a schedule publishes, in order. *)
Definition published_events (schedule : list EventBus.action) : list DomainEvent :=
  flat_map (fun a => match a with
                     | EventBus.DoPublish e => [e]
                     | _ => []
                     end) schedule.

(** The loop has caught up: it waits in [get()] on an empty queue. *)
Definition quiescent (s : EventBus.Loop) : Prop :=
  EventBus.task s = EventBus.AwaitGet /\
  EventBus._event_queue (EventBus.bus s) = [].

(** A schedule in which publishers and the consumption loop run, and
    [stop()] is not called. *)
Definition no_stop (a : EventBus.action) : Prop :=
  match a with
  | EventBus.DoStopCall => False
  | _ => True
  end.

(** The events a handler has seen, in order. *)
Definition seen_by (name : string) (calls : list (string * DomainEvent))
  : list DomainEvent :=
  map snd (filter (fun c => String.eqb (fst c) name) calls).

(** The handlers of the event the loop is parked in: the suspended one and
    those after it. *)
Definition inflight (c : EventBus.consumer) : list EventBus.Handler :=
  match c with
  | EventBus.AwaitHandler _ h rest => h :: rest
  | _ => []
  end.

(** The handlers registered in [d] for the type of [event] return or raise
    subclasses of [Exception]. *)
Definition tame_for (d : dict (list EventBus.Handler)) (event : DomainEvent)
  : Prop :=
  Forall raises_only_Exception (handlers_for d event).

(** A step of a schedule that, if it publishes, publishes an event whose
    handlers, immediate and deferred, raise only subclasses of
    [Exception]. *)
Definition publishable (h0 ah0 : dict (list EventBus.Handler))
    (a : EventBus.action) : Prop :=
  match a with
  | EventBus.DoPublish event => tame_for h0 event /\ tame_for ah0 event
  | _ => True
  end.

(** The calls the loop still owes in state [s]. *)
Definition owed (s : EventBus.Loop) : list (string * DomainEvent) :=
  pending_calls (EventBus.task s) (EventBus._async_handlers (EventBus.bus s))
                (EventBus._event_queue (EventBus.bus s)).

(** The invariant of a run without [stop()]: with the handlers [h0] and
    [ah0] registered, the calls made since the start, followed by the calls
    owed, are the calls that the events [es] published since the start ask
    for; and the handlers of the events the loop still holds raise nothing
    that would end it. *)
Definition delivery_inv (h0 ah0 : dict (list EventBus.Handler))
    (dc0 : list (string * DomainEvent)) (es : list DomainEvent)
    (s : EventBus.Loop) : Prop :=
  (EventBus._handlers (EventBus.bus s) = h0 /\
   EventBus._async_handlers (EventBus.bus s) = ah0) /\
  EventBus.cancel_requested s = false /\
  EventBus.stopper s = EventBus.NotCalled /\
  EventBus.task s <> EventBus.Finished /\
  (deferred_calls (EventBus.bus s) ++ owed s)%list
  = (dc0 ++ expected_calls ah0 es)%list /\
  Forall (tame_for ah0) (EventBus._event_queue (EventBus.bus s)) /\
  Forall raises_only_Exception (inflight (EventBus.task s)).

(** The deferred handlers of an event type, in registration order. *)
Definition deferred_subscribers (b : EventBus) (event_type : string)
  : list EventBus.Handler :=
  if dict_contains (EventBus._async_handlers b) event_type
  then dict_get_default (EventBus._async_handlers b) event_type []
  else [].

(** Every handler of [hs], in order, for every event of [es], in order. *)
Definition all_calls (hs : list EventBus.Handler) (es : list DomainEvent)
  : list (string * DomainEvent) :=
  flat_map (fun e => map (call_of e) hs) es.

(** The state of a bus after [stop()] was called with events still in the
    queue: [stop()] is waiting, the consumption task has ended or is about
    to be cancelled, the events [q0] are still queued, and no deferred call
    has been made since. *)
Definition shutdown_inv (q0 : list DomainEvent)
    (dc0 : list (string * DomainEvent)) (s : EventBus.Loop) : Prop :=
  (EventBus.stopper s = EventBus.AwaitTask \/
   EventBus.stopper s = EventBus.AwaitJoin) /\
  (EventBus.task s = EventBus.Finished \/ EventBus.cancel_requested s = true) /\
  (exists more, EventBus._event_queue (EventBus.bus s) = (q0 ++ more)%list) /\
  EventBus.unfinished_tasks (EventBus.bus s) <> 0%nat /\
  deferred_calls (EventBus.bus s) = dc0.

(* ================================================================== *)
(** * Sequences of calls and well-formed values                          *)
(* ================================================================== *)

(** A call of one of the transition methods of a task. *)
Inductive task_call : Type :=
| Call_assign_to (agent_id : string)
| Call_start
| Call_complete (res : dict pyval)
| Call_fail (err : string)
| Call_cancel.

Definition invoke (c : task_call) : M (Env * Task) unit :=
  match c with
  | Call_assign_to agent_id => Task.assign_to agent_id
  | Call_start => Task.start
  | Call_complete res => Task.complete res
  | Call_fail err => Task.fail err
  | Call_cancel => Task.cancel
  end.

(** The task and the environment after a sequence of calls, each of which
    returned or raised. *)
Definition invoke_all (cs : list task_call) (s : Env * Task) : Env * Task :=
  fold_left (fun s c => snd (invoke c s)) cs s.

Definition is_some {A} (o : option A) : bool :=
  match o with Some _ => true | None => false end.
Definition is_none {A} (o : option A) : bool := negb (is_some o).

(** What the optional fields of a task hold in each status. *)
Definition lifecycle_consistent (t : Task) : bool :=
  match Task.status t with
  | TaskStatus.CREATED =>
      is_none (Task.assigned_agent t) && is_none (Task.started_at t) &&
      is_none (Task.completed_at t) && is_none (Task.result t) &&
      is_none (Task.error t)
  | TaskStatus.ASSIGNED =>
      is_some (Task.assigned_agent t) && is_none (Task.started_at t) &&
      is_none (Task.completed_at t) && is_none (Task.result t) &&
      is_none (Task.error t)
  | TaskStatus.IN_PROGRESS =>
      is_some (Task.started_at t) &&
      is_none (Task.completed_at t) && is_none (Task.result t) &&
      is_none (Task.error t)
  | TaskStatus.COMPLETED =>
      is_some (Task.started_at t) &&
      is_some (Task.completed_at t) && is_some (Task.result t) &&
      is_none (Task.error t)
  | TaskStatus.FAILED =>
      is_some (Task.completed_at t) && is_some (Task.error t)
  | TaskStatus.CANCELLED =>
      is_some (Task.completed_at t) && is_none (Task.result t) &&
      is_none (Task.error t)
  end.

(** How far a status is along the life of a task. *)
Definition stage (st : TaskStatus.t) : nat :=
  match st with
  | TaskStatus.CREATED => 0
  | TaskStatus.ASSIGNED => 1
  | TaskStatus.IN_PROGRESS => 2
  | TaskStatus.COMPLETED | TaskStatus.FAILED | TaskStatus.CANCELLED => 3
  end.

(** The association list holds each key once, as a Python dict does. *)
Fixpoint unique_keys {V} (d : dict V) : bool :=
  match d with
  | [] => true
  | (k, _) :: d' => negb (dict_contains d' k) && unique_keys d'
  end.

Definition agent_timestamps_valid (a : Agent) : bool :=
  datetime.valid (Agent.created_at a) && datetime.valid (Agent.updated_at a).

Definition message_timestamp_valid (m : Message) : bool :=
  datetime.valid (Message.timestamp m).

Definition conversation_timestamps_valid (c : Conversation) : bool :=
  datetime.valid (Conversation.created_at c) &&
  datetime.valid (Conversation.updated_at c) &&
  forallb message_timestamp_valid (Conversation.messages c).

(** The bus after the subscriptions [subs] (event type, handler, whether
    deferred) have been made one after the other. *)
Definition subscribe_all (subs : list (string * EventBus.Handler * bool))
    (b : EventBus) : EventBus :=
  fold_left (fun b s =>
               snd (EventBus.subscribe (fst (fst s)) (snd (fst s)) (snd s) b))
            subs b.

(** The handlers registered for an event type, immediate and deferred. *)
Definition immediate_subscribers (b : EventBus) (event_type : string)
  : list EventBus.Handler :=
  dict_get_default (EventBus._handlers b) event_type [].
Definition queued_subscribers (b : EventBus) (event_type : string)
  : list EventBus.Handler :=
  dict_get_default (EventBus._async_handlers b) event_type [].

(** The events of [es] whose type is a key of [ah]. *)
Definition with_deferred_key (ah : dict (list EventBus.Handler))
    (es : list DomainEvent) : list DomainEvent :=
  filter (fun e => dict_contains ah (events.event_type e)) es.

(** Every object of the store is held once, under its own id: what the
    repositories keep, storing each object under [obj.id]. *)
Definition stored_under_id {V} (key : V -> string) (d : dict V) : bool :=
  unique_keys d &&
  forallb (fun kv => String.eqb (fst kv) (key (snd kv))) d.

(** The messages are in the order of their timestamps: none is strictly
    earlier than one before it. *)
Definition in_timestamp_order (l : list Message) : Prop :=
  StronglySorted
    (fun a b => InMemoryMessageRepository.timestamp_ltb b a = false) l.

(** The stored messages of a conversation, in the order they were stored. *)
Definition messages_of (w : World) (conversation_id : string) : list Message :=
  filter (fun msg =>
            InMemoryMessageRepository.opt_string_eqb
              (Message.conversation_id msg) (Some conversation_id))
         (dict_values (_messages w)).

(** [a == b] on naive datetimes. *)
Definition datetime_eqb (a b : datetime) : bool :=
  (datetime.year a =? datetime.year b) &&
  (datetime.month a =? datetime.month b) &&
  (datetime.day a =? datetime.day b) &&
  (datetime.hour a =? datetime.hour b) &&
  (datetime.minute a =? datetime.minute b) &&
  (datetime.second a =? datetime.second b) &&
  (datetime.microsecond a =? datetime.microsecond b).

(** The messages of [l] whose timestamp is [ts], in the order of [l]. *)
Definition at_time (ts : datetime) (l : list Message) : list Message :=
  filter (fun m => datetime_eqb (Message.timestamp m) ts) l.

(** The environment after one reading of the clock. *)
Definition tick (e : Env) : Env :=
  mkEnv (uuid_of e) (uuid_ix e) (clock_of e) (S (clock_ix e)).



(** The number of stored tasks in status ASSIGNED. *)
Definition assigned_count (w : World) : nat :=
  length (filter (fun t => TaskStatus.eqb (Task.status t) TaskStatus.ASSIGNED)
                 (dict_values (_tasks w))).

(** The sample world with a task that has just been created. *)
Definition world_with_new_task : World :=
  set_tasks [("task-1", Sample.task_in TaskStatus.CREATED);
             ("task-2", Sample.task_done)] Sample.world0.

(** A new task whose metadata holds [v] under [required_capabilities], and
    the sample world with that task. *)
Definition task_requiring (v : pyval) : Task :=
  Task.mk "task-1" TaskType.LLM_GENERATION TaskStatus.CREATED [("x", PInt 1)]
          None None None
          [("priority", PInt 0); ("required_capabilities", v)]
          Sample.t0 Sample.t0 None None.

Definition world_with_task_requiring (v : pyval) : World :=
  set_tasks [("task-1", task_requiring v)] Sample.world0.

(** What the adapter is shown of a message of the context. *)
Definition shown (m : Message) : string * string * datetime :=
  (Message.role m, Message.content m, Message.timestamp m).

(** The assistant message that [_generate_response] constructs for a
    response in environment [e]. *)
Definition reply_message (e : Env) (response : LLMResponse)
    (conversation_id : string) : Message :=
  Message.mk (uuid_of e (uuid_ix e)) "assistant" (content response)
             (clock_of e (clock_ix e))
             [("model", opt_pystr (model response));
              ("tokens_used", events.opt_pyint (tokens_used response))]
             (Some conversation_id).

(** The context [_generate_response] builds from the messages [ms]: for
    each a new message with the next fresh id and the role, content and
    timestamp of the original, without metadata or conversation. *)
Fixpoint rebuilt (ids : nat -> string) (ix : nat) (ms : list Message)
  : list Message :=
  match ms with
  | [] => []
  | msg :: rest =>
      Message.mk (ids ix) (Message.role msg) (Message.content msg)
                 (Message.timestamp msg) [] None
      :: rebuilt ids (S ix) rest
  end.

(** The context of the reply to a message of conversation [cid] in world
    [w]: rebuilt from the first 100 stored messages of the conversation by
    timestamp. *)
Definition context_in (w : World) (cid : string) : list Message :=
  rebuilt (uuid_of (env w)) (uuid_ix (env w))
    (firstn 100 (InMemoryMessageRepository.sort_by_timestamp (messages_of w cid))).

(** The context that [process_message], called in [w], hands to the LLM
    service for the reply to the message [m] it has received: by then [m]
    is stored and its id is taken. *)
Definition reply_context (w : World) (m : Message) (cid : string)
  : list Message :=
  rebuilt (uuid_of (env w)) (S (uuid_ix (env w)))
    (firstn 100
       (InMemoryMessageRepository.sort_by_timestamp
          (messages_of (set_messages (dict_set (_messages w) (Message.id m) m) w)
                       cid))).

(** An answer of the adapter, and the sample world with an adapter that
    gives it to every request. *)
Definition sample_response : LLMResponse :=
  mkLLMResponse "hi there" None (Some 3) (Some "model-a").

Definition world_with_adapter : World :=
  mkWorld (env Sample.world0) (_agents Sample.world0) (_tasks Sample.world0)
          (_messages Sample.world0) (_conversations Sample.world0)
          (event_bus Sample.world0) (fun _ _ => Ok sample_response)
          (object_id Sample.world0) (llm_calls Sample.world0).

(* ================================================================== *)
(** * Properties                                                         *)
(* ================================================================== *)

Open Scope list_scope.

(** ** Task status transitions *)

Section TaskTransitions.
Import TaskStatus.
Variable e : Env.
Variable t : Task.

Lemma assign_to_edges (agent_id : string) :
  match Task.status t with
  | CREATED =>
      returns_in (Task.assign_to agent_id (e, t)) ASSIGNED /\
      Task.assigned_agent (snd (snd (Task.assign_to agent_id (e, t))))
      = Some agent_id
  | _ => refuses e t (Task.assign_to agent_id (e, t))
  end.
Proof.
  unfold returns_in, refuses.
  destruct t as [i ty st]; destruct st; cbn; auto.
Qed.

Lemma start_edges :
  match Task.status t with
  | CREATED | ASSIGNED => returns_in (Task.start (e, t)) IN_PROGRESS
  | _ => refuses e t (Task.start (e, t))
  end.
Proof.
  unfold returns_in, refuses.
  destruct t as [i ty st]; destruct st; cbn; auto.
Qed.

Lemma complete_edges (res : dict pyval) :
  match Task.status t with
  | IN_PROGRESS =>
      returns_in (Task.complete res (e, t)) COMPLETED /\
      Task.result (snd (snd (Task.complete res (e, t)))) = Some res
  | _ => refuses e t (Task.complete res (e, t))
  end.
Proof.
  unfold returns_in, refuses.
  destruct t as [i ty st]; destruct st; cbn; auto.
Qed.

Lemma cancel_edges :
  if Task.is_completed t
  then refuses e t (Task.cancel (e, t))
  else returns_in (Task.cancel (e, t)) CANCELLED.
Proof.
  unfold returns_in, refuses.
  destruct t as [i ty st]; destruct st; cbn; auto.
Qed.

(** [fail] has no guard at all. *)
Lemma fail_total (err : string) :
  returns_in (Task.fail err (e, t)) FAILED /\
  Task.error (snd (snd (Task.fail err (e, t)))) = Some err.
Proof.
  unfold returns_in. destruct t; cbn; auto.
Qed.
End TaskTransitions.

(** C1 (as the code has it).  The transition methods of a Task permit
    exactly these edges: [assign_to] from CREATED to ASSIGNED; [start] from
    CREATED or ASSIGNED to IN_PROGRESS; [complete] from IN_PROGRESS to
    COMPLETED; [cancel] from any non-terminal status to CANCELLED; and
    [fail], which has no guard, from every status, the terminal ones
    included, to FAILED.  A call of [assign_to], [start], [complete] or
    [cancel] from any other status, in particular from a terminal one,
    raises and leaves the task and the clock as they were. *)
Theorem task_transition_edges (e : Env) (t : Task) (agent_id err : string)
    (res : dict pyval) :
  (match Task.status t with
   | TaskStatus.CREATED =>
       returns_in (Task.assign_to agent_id (e, t)) TaskStatus.ASSIGNED
   | _ => refuses e t (Task.assign_to agent_id (e, t))
   end) /\
  (match Task.status t with
   | TaskStatus.CREATED | TaskStatus.ASSIGNED =>
       returns_in (Task.start (e, t)) TaskStatus.IN_PROGRESS
   | _ => refuses e t (Task.start (e, t))
   end) /\
  (match Task.status t with
   | TaskStatus.IN_PROGRESS =>
       returns_in (Task.complete res (e, t)) TaskStatus.COMPLETED
   | _ => refuses e t (Task.complete res (e, t))
   end) /\
  (if Task.is_completed t
   then refuses e t (Task.cancel (e, t))
   else returns_in (Task.cancel (e, t)) TaskStatus.CANCELLED) /\
  returns_in (Task.fail err (e, t)) TaskStatus.FAILED.
Proof.
  split; [|split; [|split; [|split]]].
  - generalize (assign_to_edges e t agent_id).
    destruct (Task.status t); tauto.
  - apply start_edges.
  - generalize (complete_edges e t res).
    destruct (Task.status t); tauto.
  - apply cancel_edges.
  - apply (fail_total e t err).
Qed.

(** C1 as stated does not hold: [start] accepts a task that is still
    CREATED, an edge the claim leaves out, and [fail] goes through on a task
    that is already COMPLETED and rewrites it. *)
Lemma task_start_from_created_fail_from_completed :
  (fst (Task.start (Sample.env0, Sample.task_in TaskStatus.CREATED)) = Ok tt /\
   Task.status (snd (snd (Task.start (Sample.env0, Sample.task_in TaskStatus.CREATED))))
   = TaskStatus.IN_PROGRESS) /\
  (fst (Task.fail "boom" (Sample.env0, Sample.task_in TaskStatus.COMPLETED)) = Ok tt /\
   snd (snd (Task.fail "boom" (Sample.env0, Sample.task_in TaskStatus.COMPLETED)))
   <> Sample.task_in TaskStatus.COMPLETED /\
   Task.status (snd (snd (Task.fail "boom" (Sample.env0, Sample.task_in TaskStatus.COMPLETED))))
   = TaskStatus.FAILED).
Proof.
  repeat split; try reflexivity.
  cbv. discriminate.
Qed.

(** ** ISO 8601 text of a timestamp *)

Module datetime_facts.
Import datetime.

Lemma length_zfill (k : nat) : forall n, length (zfill k n) = k.
Proof.
  induction k as [|k IH]; intro n; cbn [zfill]; [reflexivity|].
  rewrite length_app, IH. cbn. lia.
Qed.

Lemma digit_val_digit_char (d : Z) :
  0 <= d < 10 -> digit_val (digit_char d) = Some d.
Proof.
  intro H.
  assert (d = 0 \/ d = 1 \/ d = 2 \/ d = 3 \/ d = 4 \/
          d = 5 \/ d = 6 \/ d = 7 \/ d = 8 \/ d = 9) as C by lia.
  repeat (destruct C as [C|C]; [subst d; reflexivity|]).
  subst d; reflexivity.
Qed.

Lemma parse_digits_app (l1 l2 : list ascii) : forall acc,
  parse_digits acc (l1 ++ l2) =
  match parse_digits acc l1 with
  | Some a => parse_digits a l2
  | None => None
  end.
Proof.
  induction l1 as [|c l1 IH]; intro acc; cbn; [reflexivity|].
  destruct (digit_val c); [apply IH | reflexivity].
Qed.

Lemma parse_digits_zfill (k : nat) : forall n acc,
  0 <= n ->
  parse_digits acc (zfill k n) = Some (acc * 10 ^ Z.of_nat k + n mod 10 ^ Z.of_nat k).
Proof.
  induction k as [|k IH]; intros n acc Hn.
  - cbn. rewrite Z.mod_1_r. f_equal. lia.
  - cbn [zfill]. rewrite parse_digits_app, IH
      by (apply Z.div_pos; lia).
    cbn [parse_digits].
    rewrite digit_val_digit_char by (apply Z.mod_pos_bound; lia).
    f_equal.
    rewrite Nat2Z.inj_succ, Z.pow_succ_r by lia.
    rewrite (Z.rem_mul_r n 10 (10 ^ Z.of_nat k)) by lia.
    ring.
Qed.

Lemma take_digits_zfill (k : nat) (n : Z) (rest : list ascii) :
  0 <= n < 10 ^ Z.of_nat k ->
  take_digits k (zfill k n ++ rest) = Some (n, rest).
Proof.
  intros [H0 H1]. unfold take_digits.
  assert (firstn k (zfill k n ++ rest) = zfill k n) as F.
  { rewrite firstn_app, length_zfill, Nat.sub_diag.
    rewrite <- (length_zfill k n) at 1. rewrite firstn_all.
    cbn. apply app_nil_r. }
  assert (skipn k (zfill k n ++ rest) = rest) as K.
  { rewrite skipn_app, length_zfill, Nat.sub_diag.
    rewrite <- (length_zfill k n) at 1. rewrite skipn_all.
    reflexivity. }
  rewrite F, K, length_zfill, Nat.eqb_refl.
  rewrite parse_digits_zfill by assumption.
  rewrite Z.mod_small by lia. reflexivity.
Qed.

Lemma valid_ranges (d : datetime) :
  valid d = true ->
  0 <= year d < 10 ^ 4 /\ 0 <= month d < 10 ^ 2 /\ 0 <= day d < 10 ^ 2 /\
  0 <= hour d < 10 ^ 2 /\ 0 <= minute d < 10 ^ 2 /\ 0 <= second d < 10 ^ 2 /\
  0 <= microsecond d < 10 ^ 6.
Proof.
  unfold valid. rewrite !andb_true_iff, !Z.leb_le, !Z.ltb_lt.
  intros H.
  assert (days_in_month (year d) (month d) <= 31) as D.
  { unfold days_in_month.
    destruct (month d =? 2); [destruct (is_leap (year d)); lia|].
    destruct ((month d =? 4) || (month d =? 6) || (month d =? 9) || (month d =? 11));
      lia. }
  change (10 ^ 4) with 10000. change (10 ^ 2) with 100.
  change (10 ^ 6) with 1000000.
  lia.
Qed.

Lemma parse_isoformat (d : datetime) :
  valid d = true -> parse_chars (isoformat_chars d) = Some d.
Proof.
  intro V. destruct (valid_ranges d V) as (Hy & Hmo & Hd & Hh & Hmi & Hs & Hus).
  unfold parse_chars, isoformat_chars.
  rewrite (take_digits_zfill 4) by exact Hy. cbv beta iota delta [obind expect].
  rewrite ?Ascii.eqb_refl.
  rewrite (take_digits_zfill 2) by exact Hmo. cbv beta iota delta [obind expect].
  rewrite ?Ascii.eqb_refl.
  rewrite (take_digits_zfill 2) by exact Hd. cbv beta iota delta [obind expect].
  rewrite ?Ascii.eqb_refl.
  rewrite (take_digits_zfill 2) by exact Hh. cbv beta iota delta [obind expect].
  rewrite ?Ascii.eqb_refl.
  rewrite (take_digits_zfill 2) by exact Hmi. cbv beta iota delta [obind expect].
  rewrite ?Ascii.eqb_refl.
  rewrite (take_digits_zfill 2) by exact Hs. cbv beta iota delta [obind].
  destruct (microsecond d =? 0) eqn:E.
  - apply Z.eqb_eq in E. destruct d; cbn in *; subst; reflexivity.
  - cbv beta iota delta [obind expect]. rewrite ?Ascii.eqb_refl.
    rewrite <- (app_nil_r (zfill 6 (microsecond d))).
    rewrite (take_digits_zfill 6) by exact Hus.
    destruct d; reflexivity.
Qed.

(** [datetime.fromisoformat] is the inverse of [datetime.isoformat]. *)
Lemma fromisoformat_isoformat (d : datetime) :
  valid d = true -> fromisoformat (isoformat d) = Ok d.
Proof.
  intro V. unfold fromisoformat, isoformat.
  rewrite list_ascii_of_string_of_list_ascii, parse_isoformat by exact V.
  rewrite V. reflexivity.
Qed.

Lemma isoformat_truthy (d : datetime) : truthy (PStr (isoformat d)) = true.
Proof.
  unfold isoformat, isoformat_chars. cbn. reflexivity.
Qed.
End datetime_facts.

(** ** Task serialisation *)

Lemma optional_timestamp_isoformat (data : dict pyval) (k : string)
    (o : option datetime) :
  opt_valid o = true ->
  dict_get data k = Some (opt_isoformat o) ->
  Task.optional_timestamp data k = Ok o.
Proof.
  intros V G. unfold Task.optional_timestamp. rewrite G.
  destruct o as [d|]; cbn [opt_isoformat]; [|reflexivity].
  rewrite datetime_facts.isoformat_truthy. cbn [Task.fromisoformat_any].
  rewrite datetime_facts.fromisoformat_isoformat by exact V. reflexivity.
Qed.

Lemma task_status_of_value (st : TaskStatus.t) :
  TaskStatus.of_value (PStr (TaskStatus.value st)) = Ok st.
Proof. destruct st; reflexivity. Qed.

Lemma task_type_of_value (ty : TaskType.t) :
  TaskType.of_value (PStr (TaskType.value ty)) = Ok ty.
Proof. destruct ty; reflexivity. Qed.

(** C10.  For every Task [t], [Task.from_dict(t.to_dict())] returns a task
    equal to [t] in every field: id, type, status, payload, assigned agent,
    result, error, metadata and the four timestamps, the two nullable ones
    included.  The timestamps are naive datetimes, as [utcnow()] makes
    them. *)
Theorem task_from_dict_to_dict (e : Env) (t : Task) :
  timestamps_valid t = true ->
  fst (Task.from_dict (Task.to_dict t) e) = Ok t.
Proof.
  unfold timestamps_valid. rewrite !andb_true_iff.
  intros [[[Vc Vu] Vs] Vf].
  unfold Task.from_dict, bind, lift_res, ret.
  rewrite (@optional_timestamp_isoformat _ _ (Task.started_at t)) by
    (assumption || reflexivity).
  rewrite (@optional_timestamp_isoformat _ _ (Task.completed_at t)) by
    (assumption || reflexivity).
  cbn [uuid4 utcnow env_of with_env HasEnv_Env].
  change (dict_get_default (Task.to_dict t) "type" _)
    with (PStr (TaskType.value (Task.type t))).
  change (dict_get_default (Task.to_dict t) "status" _)
    with (PStr (TaskStatus.value (Task.status t))).
  rewrite task_type_of_value, task_status_of_value.
  change (dict_get_default (Task.to_dict t) "created_at" _)
    with (PStr (datetime.isoformat (Task.created_at t))).
  change (dict_get_default (Task.to_dict t) "updated_at" _)
    with (PStr (datetime.isoformat (Task.updated_at t))).
  cbn [Task.fromisoformat_any].
  rewrite !datetime_facts.fromisoformat_isoformat by assumption.
  change (dict_get_default (Task.to_dict t) "id" _) with (PStr (Task.id t)).
  change (dict_get_default (Task.to_dict t) "payload" _)
    with (PDict (Task.payload t)).
  change (dict_get_default (Task.to_dict t) "metadata" _)
    with (PDict (Task.metadata t)).
  change (dict_get (Task.to_dict t) "assigned_agent")
    with (Some (opt_pystr (Task.assigned_agent t))).
  change (dict_get (Task.to_dict t) "result")
    with (Some (opt_pydict (Task.result t))).
  change (dict_get (Task.to_dict t) "error")
    with (Some (opt_pystr (Task.error t))).
  destruct t as [i ty st pl ag rs er md c u sa co].
  destruct ag, rs, er; reflexivity.
Qed.

Lemma task_from_dict_to_dict_witness :
  timestamps_valid Sample.task_done = true /\
  fst (Task.from_dict (Task.to_dict Sample.task_done) Sample.env0)
  = Ok Sample.task_done.
Proof.
  split; [reflexivity|].
  apply (task_from_dict_to_dict Sample.env0 Sample.task_done).
  reflexivity.
Defined.

(** The text form of the sample: what [to_dict] writes for the timestamps. *)
Example task_done_timestamps :
  dict_get (Task.to_dict Sample.task_done) "updated_at"
  = Some (PStr "2024-05-17T09:31:12.250000") /\
  dict_get (Task.to_dict Sample.task_done) "created_at"
  = Some (PStr "2024-05-17T09:30:00") /\
  dict_get (Task.to_dict Sample.task_done) "started_at"
  = Some (PStr "2024-05-17T09:30:07.000001").
Proof. repeat split; reflexivity. Qed.

(** ** Capability matching *)

Section FirstMatch.
Context {A : Type}.

Lemma find_filter (p q : A -> bool) (l : list A) :
  find p (filter q l) = find (fun x => q x && p x) l.
Proof.
  induction l as [|x l IH]; cbn; [reflexivity|].
  destruct (q x); cbn; [destruct (p x); auto | exact IH].
Qed.

Lemma find_ext (p q : A -> bool) (l : list A) :
  (forall x, p x = q x) -> find p l = find q l.
Proof.
  intro E. induction l as [|x l IH]; cbn; [reflexivity|].
  rewrite E, IH. reflexivity.
Qed.

Lemma hd_error_filter (q : A -> bool) (l : list A) :
  hd_error (filter q l) = find q l.
Proof.
  induction l as [|x l IH]; cbn; [reflexivity|].
  destruct (q x); cbn; [reflexivity | exact IH].
Qed.

Lemma find_first_match (p : A -> bool) (l : list A) :
  first_match p l (find p l).
Proof.
  induction l as [|x l IH]; cbn.
  - constructor.
  - destruct (p x) eqn:Px.
    + exists [], l. repeat split; auto.
    + destruct (find p l) as [a|]; cbn in *.
      * destruct IH as (b & c & -> & Pa & Fb).
        exists (x :: b), c. repeat split; auto.
      * constructor; assumption.
Qed.
End FirstMatch.

Lemma is_available_status (a : Agent) :
  Agent.is_available a = true <->
  Agent.status a = AgentStatus.ACTIVE \/ Agent.status a = AgentStatus.IDLE.
Proof.
  unfold Agent.is_available.
  destruct (Agent.status a); cbn; split; intro H;
    try discriminate; auto; destruct H; discriminate.
Qed.

(** What [find_available_agent] computes, filter or not: it reads the
    repository and changes nothing. *)
Lemma find_available_agent_eq (self : AgentOrchestrator) (w : World)
    (caps : option (list string)) :
  AgentOrchestrator.find_available_agent self caps w =
  (Ok (find (fun a =>
              Agent.is_available a &&
              match caps with
              | Some l => forallb (Agent.has_capability a) l
              | None => true
              end)
            (dict_values (_agents w))), w).
Proof.
  unfold AgentOrchestrator.find_available_agent, bind, ret,
    InMemoryAgentRepository.get_available, gets.
  change (filter _ (dict_values (_agents w)))
    with (filter Agent.is_available (dict_values (_agents w))).
  assert (forall l : list Agent,
             match l with [] => @None Agent | _ :: _ => hd_error l end = hd_error l)
    as Hhd by (intros [|? ?]; reflexivity).
  assert (forall (p : Agent -> bool) (l : list Agent),
             match l with [] => @None Agent | _ :: _ => find p l end = find p l)
    as Hfd by (intros p [|? ?]; reflexivity).
  destruct caps as [[|c cs]|].
  - rewrite <- (find_ext Agent.is_available) by
      (intro a; cbn; rewrite andb_true_r; reflexivity).
    rewrite <- hd_error_filter, <- Hhd.
    destruct (filter Agent.is_available (dict_values (_agents w))); reflexivity.
  - rewrite <- find_filter, <- Hfd.
    destruct (filter Agent.is_available (dict_values (_agents w))); reflexivity.
  - rewrite <- (find_ext Agent.is_available) by
      (intro a; rewrite andb_true_r; reflexivity).
    rewrite <- hd_error_filter, <- Hhd.
    destruct (filter Agent.is_available (dict_values (_agents w))); reflexivity.
Qed.

(** C6.  For every state of the agent repository: with a non-empty list of
    required capabilities, [find_available_agent] returns nothing or an
    agent of the repository whose status is ACTIVE or IDLE and whose
    capabilities contain every required name (and it is the first such
    agent in the iteration order of the repository); with no filter, it
    returns the first agent in iteration order whose status is ACTIVE or
    IDLE, and nothing when there is none.  The call never raises and leaves
    the world as it was. *)
Theorem find_available_agent_first_match (self : AgentOrchestrator) (w : World) :
  (forall (c : string) (cs : list string),
      exists r,
        AgentOrchestrator.find_available_agent self (Some (c :: cs)) w = (Ok r, w) /\
        first_match
          (fun a => Agent.is_available a &&
                    forallb (Agent.has_capability a) (c :: cs))
          (dict_values (_agents w)) r /\
        match r with
        | Some a =>
            In a (dict_values (_agents w)) /\
            (Agent.status a = AgentStatus.ACTIVE \/
             Agent.status a = AgentStatus.IDLE) /\
            (forall cap, In cap (c :: cs) ->
                         dict_contains (Agent.capabilities a) cap = true)
        | None => True
        end) /\
  (exists r,
        AgentOrchestrator.find_available_agent self None w = (Ok r, w) /\
        AgentOrchestrator.find_available_agent self (Some []) w = (Ok r, w) /\
        first_match Agent.is_available (dict_values (_agents w)) r /\
        match r with
        | Some a =>
            In a (dict_values (_agents w)) /\
            (Agent.status a = AgentStatus.ACTIVE \/
             Agent.status a = AgentStatus.IDLE)
        | None =>
            forall a, In a (dict_values (_agents w)) ->
                      Agent.status a <> AgentStatus.ACTIVE /\
                      Agent.status a <> AgentStatus.IDLE
        end).
Proof.
  split.
  - intros c cs. eexists. split; [apply find_available_agent_eq|].
    split; [apply find_first_match|].
    destruct (find _ _) as [a|] eqn:F; [|exact I].
    apply find_some in F. destruct F as [Hin Hp].
    apply andb_true_iff in Hp. destruct Hp as [Hav Hcaps].
    repeat split; [exact Hin | apply is_available_status; exact Hav |].
    intros cap Hc. rewrite forallb_forall in Hcaps. apply (Hcaps cap Hc).
  - exists (find Agent.is_available (dict_values (_agents w))).
    assert (forall caps, caps = None \/ caps = Some [] ->
              AgentOrchestrator.find_available_agent self caps w =
              (Ok (find Agent.is_available (dict_values (_agents w))), w)) as E.
    { intros caps Hcaps. rewrite find_available_agent_eq. f_equal. f_equal.
      apply find_ext. intro a.
      destruct Hcaps as [-> | ->]; cbn; apply andb_true_r. }
    split; [apply E; auto|]. split; [apply E; auto|]. clear E.
    split; [apply find_first_match|].
    destruct (find _ _) as [a|] eqn:F.
    + apply find_some in F. destruct F as [Hin Hav].
      split; [exact Hin | apply is_available_status; exact Hav].
    + intros a Hin. pose proof (find_none _ _ F a Hin) as N.
      split; intro E;
        (assert (Agent.is_available a = true) as T
           by (apply is_available_status; auto));
        congruence.
Qed.

(** ** Publishing *)

Section Publish.
Import EventBus.

Lemma guarded_call_eq (m : mode) (h : Handler) (event : DomainEvent) (b : EventBus) :
  guarded_call m h event b
  = (match escapes h event with Some e => Raise e | None => Ok tt end,
     log_invoked (mkInv m (h_name h) event) b).
Proof.
  unfold guarded_call, try_except_Exception, call_handler, bind, modify, raise,
    ret, escapes.
  destruct (h_raises h event) as [e|]; [destruct e|]; reflexivity.
Qed.

Lemma escapes_not_Exception (h : Handler) (event : DomainEvent) (e : exn) :
  escapes h event = Some e -> is_Exception e = false.
Proof.
  unfold escapes. destruct (h_raises h event) as [x|]; [|discriminate].
  destruct (is_Exception x) eqn:E; [discriminate|].
  intro H. injection H as <-. exact E.
Qed.

Lemma called_until_not_Exception (event : DomainEvent) (hs : list Handler) (e : exn) :
  snd (called_until event hs) = Some e -> is_Exception e = false.
Proof.
  induction hs as [|h hs IH]; cbn [called_until]; [discriminate|].
  destruct (escapes h event) as [x|] eqn:E.
  - cbn. intro H. injection H as <-. apply (escapes_not_Exception _ _ E).
  - destruct (called_until event hs) as [called escaped]. exact IH.
Qed.

(** Handlers that raise only subclasses of [Exception] are all called. *)
Lemma called_until_tame (event : DomainEvent) (hs : list Handler) :
  Forall raises_only_Exception hs -> called_until event hs = (hs, None).
Proof.
  induction 1 as [|h hs Hh _ IH]; [reflexivity|].
  cbn [called_until]. rewrite (Hh event), IH. reflexivity.
Qed.

Lemma for_each_guarded (m : mode) (event : DomainEvent) (hs : list Handler) :
  forall b,
    for_each hs (fun h => guarded_call m h event) b
    = (match snd (called_until event hs) with
       | Some e => Raise e
       | None => Ok tt
       end,
       after_calls m event (fst (called_until event hs)) b).
Proof.
  induction hs as [|h hs IH]; intro b.
  - cbn. unfold ret, after_calls. rewrite app_nil_r. destruct b; reflexivity.
  - cbn [for_each called_until]. unfold bind. rewrite guarded_call_eq.
    destruct (escapes h event) as [e|].
    + cbn. unfold after_calls, log_invoked. reflexivity.
    + rewrite IH. destruct (called_until event hs) as [called escaped].
      cbn [fst snd]. unfold after_calls, log_invoked. cbn.
      rewrite <- app_assoc. reflexivity.
Qed.

(** [publish] calls the immediate handlers up to the first one whose
    exception is no [Exception], which it hands to its caller; otherwise it
    returns, with the event in the queue if the type has deferred
    handlers. *)
Lemma publish_eq (event : DomainEvent) (b : EventBus) :
  publish event b = (publish_result event b, published_state event b).
Proof.
  unfold publish, bind, modify, get, ret, published_state, publish_result,
    enqueued, immediate_handlers.
  cbn [_handlers log_published _async_handlers].
  destruct (dict_contains (_handlers b) (events.event_type event)).
  - rewrite for_each_guarded.
    destruct (called_until event _) as [called [e|]]; cbn [fst snd].
    + unfold after_calls. reflexivity.
    + unfold after_calls, queue_put, modify.
      cbn. destruct (dict_contains (_async_handlers b) _); reflexivity.
  - cbn. rewrite app_nil_r. unfold queue_put, modify.
    destruct (dict_contains (_async_handlers b) _); reflexivity.
Qed.

(** With subscribers that raise only subclasses of [Exception], [publish]
    returns. *)
Lemma publish_result_tame (event : DomainEvent) (b : EventBus) :
  Forall raises_only_Exception (immediate_handlers b event) ->
  publish_result event b = Ok tt /\
  enqueued b event = dict_contains (_async_handlers b) (events.event_type event) /\
  fst (called_until event (immediate_handlers b event))
  = immediate_handlers b event.
Proof.
  intro T. unfold publish_result, enqueued.
  rewrite (called_until_tame event T). auto.
Qed.

(** [_publish_event] of the services: an exception that [publish] lets
    through is no [Exception] and passes the guard of [_publish_event]
    too. *)
Lemma _publish_event_eq (has_bus : bool) (event : DomainEvent) (w : World) :
  _publish_event has_bus event w =
  if has_bus
  then (publish_result event (event_bus w),
        set_event_bus (published_state event (event_bus w)) w)
  else (Ok tt, w).
Proof.
  unfold _publish_event. destruct has_bus; [|reflexivity].
  unfold try_except_Exception, on_bus. rewrite publish_eq.
  unfold publish_result.
  destruct (snd (called_until event _)) as [e|] eqn:E; [|reflexivity].
  rewrite (called_until_not_Exception _ _ E). reflexivity.
Qed.
End Publish.

(** ** Dictionaries *)

Section DictFacts.
Context {V : Type}.

Lemma dict_get_set_same (d : dict V) (k : string) (v : V) :
  dict_get (dict_set d k v) k = Some v.
Proof.
  induction d as [|[k' v'] d IH]; cbn.
  - rewrite String.eqb_refl. reflexivity.
  - destruct (String.eqb k' k) eqn:E; cbn; rewrite E; [reflexivity | exact IH].
Qed.

Lemma dict_get_set_other (d : dict V) (k k' : string) (v : V) :
  k' <> k -> dict_get (dict_set d k v) k' = dict_get d k'.
Proof.
  intro N. induction d as [|[k0 v0] d IH]; cbn.
  - destruct (String.eqb k k') eqn:E; [|reflexivity].
    apply String.eqb_eq in E. congruence.
  - destruct (String.eqb k0 k) eqn:E; cbn.
    + apply String.eqb_eq in E. subst k0.
      destruct (String.eqb k k') eqn:E'; [|reflexivity].
      apply String.eqb_eq in E'. congruence.
    + rewrite IH. reflexivity.
Qed.

Lemma dict_set_set (d : dict V) (k : string) (v v' : V) :
  dict_set (dict_set d k v) k v' = dict_set d k v'.
Proof.
  induction d as [|[k0 v0] d IH]; cbn.
  - rewrite String.eqb_refl. reflexivity.
  - destruct (String.eqb k0 k) eqn:E; cbn; rewrite E; [reflexivity|].
    rewrite IH. reflexivity.
Qed.

Lemma dict_contains_get (d : dict V) (k : string) (v : V) :
  dict_get d k = Some v -> dict_contains d k = true.
Proof. unfold dict_contains. intros ->. reflexivity. Qed.

Lemma dict_contains_set (d : dict V) (k : string) (v : V) :
  dict_contains (dict_set d k v) k = true.
Proof. unfold dict_contains. rewrite dict_get_set_same. reflexivity. Qed.

End DictFacts.

Lemma TaskStatus_eqb_eq (a b : TaskStatus.t) :
  TaskStatus.eqb a b = true <-> a = b.
Proof. destruct a, b; cbn; split; congruence. Qed.


Lemma AgentStatus_eqb_refl (a : AgentStatus.t) : AgentStatus.eqb a a = true.
Proof. destruct a; reflexivity. Qed.

(** ** Scheduling a task that is not CREATED *)

(** C7.  For every task in the repository whose status is not CREATED,
    [schedule_task] returns that task as it is and leaves the whole world
    as it was: nothing is written to a repository and nothing is
    published.  Calling it again therefore gives the same result. *)
Theorem schedule_task_not_created (self : TaskScheduler) (w : World)
    (task_id : string) (t : Task) :
  dict_get (_tasks w) task_id = Some t ->
  Task.status t <> TaskStatus.CREATED ->
  TaskScheduler.schedule_task self task_id w = (Ok (Some t), w) /\
  bind (TaskScheduler.schedule_task self task_id)
       (fun _ => TaskScheduler.schedule_task self task_id) w
  = (Ok (Some t), w).
Proof.
  intros G N.
  assert (TaskScheduler.schedule_task self task_id w = (Ok (Some t), w)) as E.
  { unfold TaskScheduler.schedule_task, bind, InMemoryTaskRepository.get_by_id, gets.
    rewrite G.
    destruct (TaskStatus.eqb (Task.status t) TaskStatus.CREATED) eqn:S.
    - apply TaskStatus_eqb_eq in S. contradiction.
    - reflexivity. }
  split; [exact E|].
  unfold bind. rewrite E. exact E.
Qed.

Lemma schedule_task_not_created_witness :
  TaskScheduler.schedule_task Sample.scheduler "task-2" Sample.world0
  = (Ok (Some Sample.task_done), Sample.world0) /\
  bind (TaskScheduler.schedule_task Sample.scheduler "task-2")
       (fun _ => TaskScheduler.schedule_task Sample.scheduler "task-2")
       Sample.world0
  = (Ok (Some Sample.task_done), Sample.world0).
Proof.
  apply (@schedule_task_not_created Sample.scheduler Sample.world0 "task-2"
           Sample.task_done).
  - reflexivity.
  - discriminate.
Defined.

(** ** Updating the status of an agent *)




(** The two calls on the sample world.  Without a bus both return the
    agent, which the first call has made ACTIVE.  With a bus both raise,
    the first after it has made the agent ACTIVE; the bus has received
    nothing and its subscriber was not called. *)
Example update_agent_status_twice_sample :
  let update self :=
    AgentOrchestrator.update_agent_status self "agent-1"
      AgentStatus.ACTIVE (Some "warm-up") in
  let quiet := AgentOrchestrator.mk false in
  let w1 := snd (update quiet Sample.world0) in
  let v1 := snd (update Sample.orchestrator Sample.world0) in
  (option_map Agent.status (dict_get (_agents Sample.world0) "agent-1")
   = Some AgentStatus.CREATED /\
   option_map Agent.status (dict_get (_agents w1) "agent-1")
   = Some AgentStatus.ACTIVE /\
   is_ok (fst (update quiet Sample.world0)) = true /\
   is_ok (fst (update quiet w1)) = true /\
   snd (update quiet w1) = w1) /\
  (fst (update Sample.orchestrator Sample.world0) = Raise TypeError /\
   option_map Agent.status (dict_get (_agents v1) "agent-1")
   = Some AgentStatus.ACTIVE /\
   update Sample.orchestrator v1 = (Raise TypeError, v1) /\
   EventBus.published (event_bus v1) = [] /\
   EventBus.invoked (event_bus v1) = []).
Proof.
  repeat split; reflexivity.
Qed.

(** ** A message without a conversation *)

(** [Conversation] has no field [metadata]: the constructor call of
    [process_message] cannot bind its argument. *)
Lemma Conversation_new_metadata (md : dict pyval) (w : World) :
  Conversation.new [("metadata", PDict md)] w = (Raise TypeError, w).
Proof. reflexivity. Qed.

(** C3 (the code fails it).  Whenever [conversation_id] is absent or does
    not resolve to a stored conversation, [process_message] raises
    [TypeError] out of [Conversation(metadata=...)] and leaves the world as
    it was: no conversation is created, no message is stored and nothing is
    published. *)
Theorem process_message_new_conversation_raises (mp : MessageProcessor)
    (w : World) (content role : string) (conversation_id : option string)
    (metadata : option (dict pyval)) :
  resolved_conversation w conversation_id = None ->
  MessageProcessor.process_message mp content role conversation_id metadata w
  = (Raise TypeError, w).
Proof.
  intro R.
  unfold MessageProcessor.process_message.
  unfold bind at 1. unfold bind at 1.
  assert (match conversation_id with
          | Some cid =>
              if negb (String.eqb cid "")
              then InMemoryMessageRepository.get_conversation_by_id cid
              else ret None
          | None => ret None
          end w = (Ok None, w)) as E.
  { unfold resolved_conversation in R.
    destruct conversation_id as [cid|]; [|reflexivity].
    destruct (negb (String.eqb cid "")); [|reflexivity].
    unfold InMemoryMessageRepository.get_conversation_by_id, gets.
    rewrite R. reflexivity. }
  rewrite E. unfold bind. rewrite Conversation_new_metadata. reflexivity.
Qed.

Lemma process_message_new_conversation_raises_witness :
  MessageProcessor.process_message Sample.processor "hello" "user" None None
    Sample.world0
  = (Raise TypeError, Sample.world0).
Proof.
  apply (@process_message_new_conversation_raises Sample.processor Sample.world0
           "hello" "user" None None).
  reflexivity.
Defined.

(** The same with an id the repository does not know. *)
Example process_message_unknown_conversation :
  MessageProcessor.process_message Sample.processor "hello" "user"
    (Some "conv-404") (Some [("channel", PStr "web")]) Sample.world0
  = (Raise TypeError, Sample.world0).
Proof. reflexivity. Qed.

(** ** Finding an agent for the capabilities a task asks for *)








(** ** Scheduling a task that is CREATED *)




(** ** Creating a task *)





(** ** A failing reply generation *)

Lemma build_context_eq (ms : list Message) :
  forall w,
    MessageProcessor.build_context ms w
    = (Ok (rebuilt (uuid_of (env w)) (uuid_ix (env w)) ms),
       set_env (mkEnv (uuid_of (env w)) (length ms + uuid_ix (env w))
                      (clock_of (env w)) (clock_ix (env w))) w).
Proof.
  induction ms as [|m ms IH]; intro w.
  - cbn. unfold ret. destruct w as [[]]; reflexivity.
  - cbn [MessageProcessor.build_context].
    unfold bind at 1, Message.new_at, bind at 1, uuid4, ret.
    cbn [env_of with_env HasEnv_World].
    unfold bind. rewrite IH. cbn [rebuilt length]. cbn.
    rewrite Nat.add_succ_r. reflexivity.
Qed.

(** [LLMService.generate] (no streaming).  A service with a bus raises
    [TypeError]: out of the construction of LLMRequestInitiated, and again,
    in the [except] clause, out of that of LLMErrorOccurred; the adapter is
    not called.  A service without a bus calls the adapter once and hands
    on its response or its exception. *)
Lemma generate_eq (llm : LLMService) (prompt : string)
    (context : list Message) (w : World) :
  LLMService.generate llm prompt context w =
  if LLMService.event_bus llm then (Raise TypeError, w)
  else (llm_client_generate w prompt context,
        log_llm_call (prompt, context) w).
Proof.
  unfold LLMService.generate, bind at 1, get.
  unfold try_except_Exception.
  destruct (LLMService.event_bus llm).
  - unfold events.new, bind, raise. reflexivity.
  - unfold bind, ret, modify, get, lift_res. cbn.
    destruct (llm_client_generate w prompt context) as [response|ex];
      [reflexivity|].
    destruct (is_Exception ex); reflexivity.
Qed.

(** Normalising the projections of a world that was built by setters. *)
Ltac world_simpl :=
  cbn [env _agents _tasks _messages _conversations event_bus
       llm_client_generate object_id llm_calls
       set_env set_agents set_tasks set_messages set_conversations
       set_event_bus log_llm_call
       uuid_of uuid_ix clock_of clock_ix
       env_of with_env HasEnv_World HasEnv_pair HasEnv_Env fst snd].


(** [process_message] on a stored conversation, up to the reply: the
    message is constructed, stored and appended to the conversation.  A
    processor with a bus then raises [TypeError] where it builds
    MessageReceived; one without goes on. *)
Lemma process_message_received (mp : MessageProcessor) (w : World)
    (content role cid : string) (metadata : option (dict pyval))
    (conv : Conversation) :
  resolved_conversation w (Some cid) = Some conv ->
  Conversation.id conv = cid ->
  let m := received_message (env w) role content cid metadata in
  let conv' :=
    Conversation.set_updated_at (clock_of (env w) (S (clock_ix (env w))))
      (Conversation.set_messages (Conversation.messages conv ++ [m]) conv) in
  exists wc,
    MessageProcessor.process_message mp content role (Some cid) metadata w =
    (if MessageProcessor.event_bus mp then (Raise TypeError, wc)
     else
       match MessageProcessor.llm_service mp with
       | Some llm =>
           if String.eqb role "user"
           then match MessageProcessor._generate_response mp llm conv m wc with
                | (Ok _, w') => (Ok m, w')
                | (Raise e, w') => (Raise e, w')
                end
           else (Ok m, wc)
       | None => (Ok m, wc)
       end) /\
    _messages wc = dict_set (_messages w) (Message.id m) m /\
    _conversations wc = dict_set (_conversations w) cid conv' /\
    _agents wc = _agents w /\ _tasks wc = _tasks w /\
    llm_calls wc = llm_calls w /\
    llm_client_generate wc = llm_client_generate w /\
    object_id wc = object_id w /\
    event_bus wc = event_bus w /\
    context_in wc cid = reply_context w m cid.
Proof.
  intros R I m conv'.
  unfold resolved_conversation in R.
  destruct (negb (String.eqb cid "")) eqn:NE; [|discriminate].
  unfold MessageProcessor.process_message.
  rewrite NE.
  unfold bind at 1, InMemoryMessageRepository.get_conversation_by_id at 1, gets.
  rewrite R. unfold bind at 1, ret at 1. rewrite I.
  unfold bind at 1, Message.new, bind at 1, uuid4, bind at 1, utcnow, ret at 1.
  world_simpl.
  repeat match goal with
  | |- context [Message.mk ?a role content ?b ?c ?d] =>
      change (Message.mk a role content b c d) with m
  end.
  unfold bind at 1, InMemoryMessageRepository.create_message at 1, bind at 1,
    modify, ret at 1.
  unfold bind at 1, InMemoryMessageRepository.add_message_to_conversation,
    bind at 1, InMemoryMessageRepository.get_conversation_by_id, gets.
  world_simpl. rewrite R.
  unfold bind at 1, call, Conversation.add_message, bind, self, gets,
    update_self, modify, utcnow, ret,
    InMemoryMessageRepository.create_message, modify.
  world_simpl.
  rewrite I.
  change (Message.set_conversation_id (Some cid) m) with m.
  cbn [Message.id Message.role Message.content].
  destruct (MessageProcessor.event_bus mp) eqn:HB.
  - unfold events.new, bind, raise.
    eexists. split; [reflexivity|].
    cbn -[dict_set dict_get m conv']. rewrite dict_set_set.
    repeat split; reflexivity.
  - eexists. split.
    + destruct (MessageProcessor.llm_service mp); [|reflexivity].
      destruct (String.eqb role "user"); reflexivity.
    + cbn -[dict_set dict_get m conv']. rewrite dict_set_set.
      repeat split; reflexivity.
Qed.




(** ** Deferred delivery *)

Section Delivery.
Import EventBus.

Lemma deferred_calls_log (i : invocation) (b : EventBus) :
  deferred_calls (log_invoked i b) =
  deferred_calls b ++
  (if mode_eqb (inv_mode i) Deferred then [(inv_handler i, inv_event i)] else []).
Proof.
  unfold deferred_calls, log_invoked. cbn [invoked].
  rewrite filter_app, map_app. cbn [filter].
  destruct (mode_eqb (inv_mode i) Deferred); reflexivity.
Qed.

(** What [run_handlers] does with handlers that raise only subclasses of
    [Exception]: it makes the calls of [hs] in order, up to and including
    the first one that suspends. *)
Lemma run_handlers_spec (event : DomainEvent) (hs : list Handler) :
  Forall raises_only_Exception hs ->
  forall b,
  exists new,
    deferred_calls (fst (run_handlers event hs b)) = deferred_calls b ++ new /\
    (_handlers (fst (run_handlers event hs b)) = _handlers b /\
     _async_handlers (fst (run_handlers event hs b)) = _async_handlers b) /\
    _event_queue (fst (run_handlers event hs b)) = _event_queue b /\
    unfinished_tasks (fst (run_handlers event hs b)) = unfinished_tasks b /\
    published (fst (run_handlers event hs b)) = published b /\
    match snd (run_handlers event hs b) with
    | None => new = map (call_of event) hs
    | Some (AwaitHandler e h rest) =>
        e = event /\ new ++ map (call_of event) rest = map (call_of event) hs /\
        new <> [] /\ Forall raises_only_Exception (h :: rest)
    | Some _ => False
    end.
Proof.
  induction 1 as [|h hs Hh Hhs IH]; intro b.
  - exists []. cbn. rewrite app_nil_r. auto 10.
  - cbn [run_handlers].
    destruct (h_suspends h event).
    + exists [call_of event h]. cbn [fst snd].
      rewrite deferred_calls_log. cbn. repeat split; auto. discriminate.
    + rewrite guarded_call_eq, (Hh event).
      destruct (IH (log_invoked (mkInv Deferred (h_name h) event) b))
        as (new & Hd & [Hi Ha] & Hq & Hu & Hp & Hc).
      exists (call_of event h :: new).
      rewrite Hd, Hi, Ha, Hq, Hu, Hp, deferred_calls_log. cbn [inv_mode mode_eqb].
      rewrite <- app_assoc. cbn [app inv_handler inv_event].
      repeat split; auto.
      destruct (snd (run_handlers event hs _)) as [[| |e h' rest|]|].
      * contradiction.
      * contradiction.
      * destruct Hc as (-> & Hc & Hn & Ht). cbn. rewrite Hc.
        repeat split; auto. discriminate.
      * contradiction.
      * cbn. rewrite Hc. reflexivity.
Qed.

Lemma deferred_calls_set_queue (q : list DomainEvent) (n : nat) (b : EventBus) :
  deferred_calls (set_queue q n b) = deferred_calls b.
Proof. reflexivity. Qed.

Lemma deferred_calls_published_state (event : DomainEvent) (b : EventBus) :
  deferred_calls (published_state event b) = deferred_calls b.
Proof.
  unfold deferred_calls, published_state. cbn [invoked].
  rewrite filter_app, map_app.
  assert (forall l : list Handler,
             filter (fun i => mode_eqb (inv_mode i) Deferred)
               (map (fun h => mkInv Immediate (h_name h) event) l) = []) as E.
  { induction l as [|h l IH]; cbn; auto. }
  rewrite E. cbn. apply app_nil_r.
Qed.

Lemma expected_calls_app (ah : dict (list Handler)) (es es' : list DomainEvent) :
  expected_calls ah (es ++ es') = expected_calls ah es ++ expected_calls ah es'.
Proof. unfold expected_calls. apply flat_map_app. Qed.

(** What the [while] loop does from [get()] on: it makes the calls that the
    events of the queue ask for, in order, until a call suspends or the
    queue is empty. *)
Lemma consume_spec (q : list DomainEvent) :
  forall b,
  _event_queue b = q ->
  Forall (tame_for (_async_handlers b)) q ->
  exists new,
    deferred_calls (fst (consume q b)) = deferred_calls b ++ new /\
    (_handlers (fst (consume q b)) = _handlers b /\
     _async_handlers (fst (consume q b)) = _async_handlers b) /\
    published (fst (consume q b)) = published b /\
    new ++ pending_calls (snd (consume q b)) (_async_handlers b)
                         (_event_queue (fst (consume q b)))
    = expected_calls (_async_handlers b) q /\
    Forall (tame_for (_async_handlers b)) (_event_queue (fst (consume q b))) /\
    Forall raises_only_Exception (inflight (snd (consume q b))) /\
    (snd (consume q b) = AwaitGet /\ _event_queue (fst (consume q b)) = [] \/
     exists e h rest, snd (consume q b) = AwaitHandler e h rest /\ new <> []).
Proof.
  induction q as [|event q IH]; intros b Q T.
  - exists []. cbn. rewrite Q, app_nil_r. auto 10.
  - inversion T as [|? ? Te Tq]; subst.
    cbn [consume].
    fold (handlers_for (_async_handlers (set_queue q (unfinished_tasks b) b)) event).
    change (_async_handlers (set_queue q (unfinished_tasks b) b))
      with (_async_handlers b).
    set (hs := handlers_for (_async_handlers b) event).
    destruct (run_handlers_spec event Te (set_queue q (unfinished_tasks b) b))
      as (new & Hd & [Hi Ha] & Hq & Hu & Hp & Hc).
    fold hs in Hd, Hi, Ha, Hq, Hu, Hp, Hc.
    destruct (run_handlers event hs (set_queue q (unfinished_tasks b) b))
      as [b2 [c|]]; cbn [fst snd] in *.
    + destruct c as [| |e h rest|]; try contradiction.
      destruct Hc as (-> & Hc & Hn & Ht).
      exists new. rewrite Hd, Hi, Ha, Hp, Hq. cbn [_event_queue set_queue inflight].
      repeat split; auto.
      * unfold pending_calls. rewrite app_assoc, Hc. reflexivity.
      * right. eauto.
    + subst new.
      assert (Forall (tame_for (_async_handlers (task_done b2))) q) as Tq'
        by exact (eq_ind_r (fun d => Forall (tame_for d) q) Tq Ha).
      destruct (IH (task_done b2) Hq Tq')
        as (new & Hd' & [Hi' Ha'] & Hp' & He & Htq & Hti & Hc').
      exists (map (call_of event) hs ++ new).
      rewrite Hd', Hi', Ha', Hp'.
      change (deferred_calls (task_done b2)) with (deferred_calls b2).
      change (_handlers (task_done b2)) with (_handlers b2) in *.
      change (_async_handlers (task_done b2)) with (_async_handlers b2) in *.
      change (published (task_done b2)) with (published b2).
      rewrite Hd, Hi, Ha, Hp in *. rewrite deferred_calls_set_queue.
      rewrite <- !app_assoc.
      change (_async_handlers (set_queue q (unfinished_tasks b) b))
        with (_async_handlers b) in *.
      change (_handlers (set_queue q (unfinished_tasks b) b))
        with (_handlers b) in *.
      repeat split; auto.
      * rewrite He. reflexivity.
      * destruct Hc' as [Hc' | (e & h & rest & Hc' & Hn)]; [left; exact Hc'|].
        right. exists e, h, rest. split; [exact Hc'|].
        destruct (map (call_of event) hs); [exact Hn | discriminate].
Qed.

(** A suspended call of a handler that raises only subclasses of
    [Exception] is followed by the remaining handlers. *)
Lemma resume_handler_tame (event : DomainEvent) (h : Handler)
    (rest : list Handler) (b : EventBus) :
  raises_only_Exception h ->
  resume_handler event h rest b =
  match run_handlers event rest b with
  | (b, Some c) => (b, c)
  | (b, None) => let b := task_done b in consume (_event_queue b) b
  end.
Proof.
  intro T. unfold resume_handler. specialize (T event). unfold escapes in T.
  destruct (h_raises h event) as [e|]; [|reflexivity].
  destruct (is_Exception e); [reflexivity | discriminate].
Qed.

(** One turn of the consumption task, neither finished nor cancelled: it
    makes some of the calls it owes, in order, and ends caught up unless it
    has made at least one call. *)
Lemma run_consumer_spec (s : Loop) :
  cancel_requested s = false ->
  task s <> Finished ->
  Forall (tame_for (_async_handlers (bus s))) (_event_queue (bus s)) ->
  Forall raises_only_Exception (inflight (task s)) ->
  exists new,
    deferred_calls (bus (run_consumer s)) = deferred_calls (bus s) ++ new /\
    (_handlers (bus (run_consumer s)) = _handlers (bus s) /\
     _async_handlers (bus (run_consumer s)) = _async_handlers (bus s)) /\
    cancel_requested (run_consumer s) = false /\
    stopper (run_consumer s) = stopper s /\
    task (run_consumer s) <> Finished /\
    new ++ owed (run_consumer s) = owed s /\
    Forall (tame_for (_async_handlers (bus s)))
           (_event_queue (bus (run_consumer s))) /\
    Forall raises_only_Exception (inflight (task (run_consumer s))) /\
    (quiescent (run_consumer s) \/ new <> []).
Proof.
  intros C F Tq Ti. unfold run_consumer, owed, quiescent. rewrite C.
  destruct (task s) as [| |e h rest|] eqn:T; [| | |contradiction].
  - pose proof (@consume_spec (_event_queue (set_processing true (bus s)))
                  (set_processing true (bus s)) eq_refl Tq)
      as (new & Hd & [Hi Ha] & Hp & He & Htq & Hti & Hc).
    destruct (consume _ (set_processing true (bus s))) as [b c].
    cbn [fst snd bus task cancel_requested stopper] in *.
    exists new. rewrite Hi, Ha.
    repeat split; auto.
    + destruct Hc as [[-> _] | (e & h & rest & -> & _)]; discriminate.
    + destruct Hc as [Hc | (e & h & rest & _ & Hn)]; auto.
  - pose proof (@consume_spec (_event_queue (bus s)) (bus s) eq_refl Tq)
      as (new & Hd & [Hi Ha] & Hp & He & Htq & Hti & Hc).
    destruct (consume _ (bus s)) as [b c].
    cbn [fst snd bus task cancel_requested stopper] in *.
    exists new. rewrite Hi, Ha.
    repeat split; auto.
    + destruct Hc as [[-> _] | (e & h & rest & -> & _)]; discriminate.
    + destruct Hc as [Hc | (e & h & rest & _ & Hn)]; auto.
  - cbn [inflight] in Ti. inversion Ti as [|? ? Th Tr]; subst.
    rewrite (resume_handler_tame e rest (bus s) Th).
    destruct (run_handlers_spec e Tr (bus s))
      as (new & Hd & [Hi Ha] & Hq & Hu & Hp & Hc).
    destruct (run_handlers e rest (bus s)) as [b2 [c|]]; cbn [fst snd] in *.
    + destruct c as [| |e' h' rest'|]; try contradiction.
      destruct Hc as (-> & Hc & Hn & Ht).
      cbn [fst snd bus task cancel_requested stopper inflight].
      exists new. rewrite Hi, Ha, Hq.
      repeat split; auto; [discriminate|].
      unfold pending_calls. rewrite app_assoc, Hc. reflexivity.
    + subst new.
      assert (Forall (tame_for (_async_handlers (task_done b2)))
                     (_event_queue (task_done b2))) as Tq'.
      { change (_async_handlers (task_done b2)) with (_async_handlers b2).
        change (_event_queue (task_done b2)) with (_event_queue b2).
        rewrite Ha, Hq. exact Tq. }
      pose proof (@consume_spec (_event_queue (task_done b2)) (task_done b2)
                    eq_refl Tq')
        as (new & Hd' & [Hi' Ha'] & Hp' & He & Htq & Hti & Hc').
      destruct (consume _ (task_done b2)) as [b c].
      cbn [fst snd bus task cancel_requested stopper] in *.
      change (deferred_calls (task_done b2)) with (deferred_calls b2) in Hd'.
      change (_handlers (task_done b2)) with (_handlers b2) in *.
      change (_async_handlers (task_done b2)) with (_async_handlers b2) in *.
      change (_event_queue (task_done b2)) with (_event_queue b2) in *.
      exists (map (call_of e) rest ++ new).
      rewrite Hd', Hd, Hi', Hi, Ha', Ha, <- !app_assoc.
      rewrite Ha in He, Htq. rewrite Hq in He.
      repeat split; auto.
      * destruct Hc' as [[-> _] | (e' & h' & rest' & -> & _)]; discriminate.
      * unfold pending_calls at 2. rewrite He. reflexivity.
      * destruct Hc' as [Hc' | (e' & h' & rest' & _ & Hn)]; auto.
        right. destruct (map (call_of e) rest); [exact Hn | discriminate].
Qed.

Lemma immediate_handlers_for (b : EventBus) (event : DomainEvent) :
  immediate_handlers b event = handlers_for (_handlers b) event.
Proof. reflexivity. Qed.

Lemma step_delivery_inv (h0 ah0 : dict (list Handler))
    (dc0 : list (string * DomainEvent)) (es : list DomainEvent) (s : Loop)
    (a : action) :
  delivery_inv h0 ah0 dc0 es s ->
  no_stop a ->
  publishable h0 ah0 a ->
  delivery_inv h0 ah0 dc0 (es ++ published_events [a]) (step s a).
Proof.
  intros ([Hi Ha] & Hc & Hs & Hf & He & Tq & Ti) N P.
  destruct a as [event| | |]; cbn [step published_events flat_map].
  - destruct P as [Pi Pa].
    rewrite publish_eq. cbn [snd]. unfold delivery_inv, owed in *.
    cbn [bus task cancel_requested stopper].
    rewrite deferred_calls_published_state.
    change (_async_handlers (published_state event (bus s)))
      with (_async_handlers (bus s)).
    change (_handlers (published_state event (bus s)))
      with (_handlers (bus s)).
    assert (Forall raises_only_Exception (immediate_handlers (bus s) event))
      as Pi' by (rewrite immediate_handlers_for, Hi; exact Pi).
    destruct (publish_result_tame event (bus s) Pi') as (_ & En & _).
    unfold published_state. cbn [_event_queue]. rewrite En.
    rewrite Ha in *. repeat split; auto.
    + cbn [app]. rewrite expected_calls_app, app_assoc, <- He, <- app_assoc.
      f_equal. unfold pending_calls. rewrite <- app_assoc. f_equal.
      destruct (dict_contains ah0 (events.event_type event)) eqn:D.
      * rewrite expected_calls_app. reflexivity.
      * unfold expected_calls at 3. cbn. unfold handlers_for. rewrite D.
        cbn. rewrite app_nil_r. reflexivity.
    + destruct (dict_contains ah0 (events.event_type event)); [|exact Tq].
      apply Forall_app. split; [exact Tq|]. constructor; [exact Pa|constructor].
  - rewrite <- Ha in Tq.
    destruct (run_consumer_spec s Hc Hf Tq Ti)
      as (new & Hd' & [Hi' Ha'] & Hc' & Hs' & Hf' & Ho & Tq' & Ti' & _).
    unfold delivery_inv. rewrite Hi', Ha', Hc', Hs', Hd'.
    rewrite Ha in Tq'.
    repeat split; auto.
    rewrite app_nil_r, <- app_assoc, Ho. exact He.
  - contradiction.
  - unfold stop_resume. rewrite Hs. rewrite app_nil_r.
    unfold delivery_inv; auto 10.
Qed.

Lemma published_events_cons (a : action) (schedule : list action) :
  published_events (a :: schedule)
  = published_events [a] ++ published_events schedule.
Proof.
  unfold published_events. cbn [flat_map]. rewrite app_nil_r. reflexivity.
Qed.

Lemma published_events_app (l l' : list action) :
  published_events (l ++ l') = published_events l ++ published_events l'.
Proof. unfold published_events. apply flat_map_app. Qed.

Lemma run_delivery_inv (h0 ah0 : dict (list Handler))
    (dc0 : list (string * DomainEvent)) (schedule : list action) :
  forall es s,
    delivery_inv h0 ah0 dc0 es s ->
    Forall no_stop schedule ->
    Forall (publishable h0 ah0) schedule ->
    delivery_inv h0 ah0 dc0 (es ++ published_events schedule) (run s schedule).
Proof.
  induction schedule as [|a schedule IH]; intros es s Hi Hn Hp.
  - cbn. rewrite app_nil_r. exact Hi.
  - inversion Hn as [|? ? Na Ns]; subst.
    inversion Hp as [|? ? Pa Ps]; subst.
    change (run s (a :: schedule)) with (run (step s a) schedule).
    rewrite (published_events_cons a schedule).
    rewrite app_assoc. apply IH; [|exact Ns|exact Ps].
    apply step_delivery_inv; assumption.
Qed.

(** Left to itself, the consumption loop catches up. *)
Lemma catch_up (h0 ah0 : dict (list Handler)) (dc0 : list (string * DomainEvent))
    (es : list DomainEvent) (n : nat) :
  forall s,
    delivery_inv h0 ah0 dc0 es s ->
    (length (owed s) <= n)%nat ->
    exists k,
      quiescent (run s (repeat DoConsumer k)) /\
      delivery_inv h0 ah0 dc0 es (run s (repeat DoConsumer k)).
Proof.
  induction n as [|n IH]; intros s Hi Hn.
  - pose proof Hi as ([Hh Ha] & Hc & Hs & Hf & He & Tq & Ti).
    rewrite <- Ha in Tq.
    destruct (run_consumer_spec s Hc Hf Tq Ti)
      as (new & Hd' & _ & Hc' & Hs' & Hf' & Ho & _ & _ & [Q | Nn]).
    + exists 1%nat. split; [exact Q|].
      pose proof (@step_delivery_inv h0 ah0 dc0 es s DoConsumer Hi
                    Logic.I Logic.I) as X.
      cbn [published_events flat_map] in X. rewrite app_nil_r in X. exact X.
    + exfalso. rewrite <- Ho, length_app in Hn.
      destruct new; [apply Nn; reflexivity | cbn in Hn; lia].
  - pose proof Hi as ([Hh Ha] & Hc & Hs & Hf & He & Tq & Ti).
    rewrite <- Ha in Tq.
    destruct (run_consumer_spec s Hc Hf Tq Ti)
      as (new & Hd' & _ & Hc' & Hs' & Hf' & Ho & _ & _ & Q).
    pose proof (@step_delivery_inv h0 ah0 dc0 es s DoConsumer Hi
                  Logic.I Logic.I) as X.
    cbn [published_events flat_map] in X. rewrite app_nil_r in X.
    destruct Q as [Q | Nn].
    + exists 1%nat. split; [exact Q | exact X].
    + destruct (IH (step s DoConsumer) X) as (k & Qk & Ik).
      * cbn [step]. rewrite <- Ho, length_app in Hn.
        destruct new; [exfalso; apply Nn; reflexivity | cbn in Hn; lia].
      * exists (S k). exact (conj Qk Ik).
Qed.

Lemma expected_calls_one_type (b : EventBus) (ty : string) (es : list DomainEvent) :
  Forall (fun e => events.event_type e = ty) es ->
  expected_calls (_async_handlers b) es = all_calls (deferred_subscribers b ty) es.
Proof.
  unfold expected_calls, all_calls, handlers_for, deferred_subscribers.
  induction 1 as [|e es He Hes IH]; cbn [flat_map]; [reflexivity|].
  rewrite IH, He. reflexivity.
Qed.

Lemma handlers_for_default (d : dict (list Handler)) (event : DomainEvent) :
  handlers_for d event = dict_get_default d (events.event_type event) [].
Proof.
  unfold handlers_for, dict_contains, dict_get_default.
  destruct (dict_get d (events.event_type event)); reflexivity.
Qed.

(** The events of one type, whose subscribers raise only subclasses of
    [Exception], can all be published. *)
Lemma publishable_one_type (b : EventBus) (ty : string) (schedule : list action) :
  Forall raises_only_Exception (immediate_subscribers b ty) ->
  Forall raises_only_Exception (queued_subscribers b ty) ->
  Forall (fun e => events.event_type e = ty) (published_events schedule) ->
  Forall (publishable (_handlers b) (_async_handlers b)) schedule.
Proof.
  intros Ti Ta.
  induction schedule as [|a schedule IH]; intro Ty; [constructor|].
  rewrite (published_events_cons a schedule) in Ty.
  apply Forall_app in Ty. destruct Ty as [Ty1 Ty2].
  constructor; [|apply IH; exact Ty2].
  destruct a as [event| | |]; cbn; auto.
  cbn in Ty1. inversion Ty1 as [|? ? E _]; subst.
  unfold tame_for. rewrite !handlers_for_default. split; assumption.
Qed.

Lemma length_all_calls (hs : list Handler) (es : list DomainEvent) :
  length (all_calls hs es) = (length hs * length es)%nat.
Proof.
  unfold all_calls. induction es as [|e es IH]; cbn [flat_map length].
  - lia.
  - rewrite length_app, length_map, IH. lia.
Qed.

Lemma seen_by_app (name : string) (l l' : list (string * DomainEvent)) :
  seen_by name (l ++ l') = seen_by name l ++ seen_by name l'.
Proof. unfold seen_by. rewrite filter_app, map_app. reflexivity. Qed.

Lemma seen_by_absent (name : string) (e : DomainEvent) (hs : list Handler) :
  ~ In name (map h_name hs) -> seen_by name (map (call_of e) hs) = [].
Proof.
  induction hs as [|h hs IH]; intro N; [reflexivity|].
  cbn [map]. change (call_of e h :: map (call_of e) hs)
    with ([call_of e h] ++ map (call_of e) hs).
  rewrite seen_by_app, IH by (intro X; apply N; right; exact X).
  unfold seen_by. cbn.
  destruct (String.eqb (h_name h) name) eqn:E; [|reflexivity].
  apply String.eqb_eq in E. exfalso. apply N. left. exact E.
Qed.

Lemma seen_by_once (e : DomainEvent) (hs : list Handler) (h : Handler) :
  NoDup (map h_name hs) -> In h hs ->
  seen_by (h_name h) (map (call_of e) hs) = [e].
Proof.
  induction hs as [|h0 hs IH]; intros D I; [contradiction|].
  cbn [map] in *. inversion D as [|? ? N D']; subst.
  change (call_of e h0 :: map (call_of e) hs)
    with ([call_of e h0] ++ map (call_of e) hs).
  rewrite seen_by_app.
  destruct I as [-> | I].
  - rewrite (@seen_by_absent (h_name h) e hs N). unfold seen_by. cbn.
    rewrite String.eqb_refl. reflexivity.
  - rewrite (IH D' I). unfold seen_by. cbn.
    destruct (String.eqb (h_name h0) (h_name h)) eqn:E; [|reflexivity].
    apply String.eqb_eq in E. exfalso. apply N. rewrite E.
    apply in_map. exact I.
Qed.

(** A handler subscribed once sees every event once, in publish order. *)
Lemma seen_by_all_calls (hs : list Handler) (es : list DomainEvent) (h : Handler) :
  NoDup (map h_name hs) -> In h hs ->
  seen_by (h_name h) (all_calls hs es) = es.
Proof.
  intros D I. unfold all_calls.
  induction es as [|e es IH]; cbn [flat_map]; [reflexivity|].
  rewrite seen_by_app, IH, (@seen_by_once e hs h D I). reflexivity.
Qed.

(** A loop that has ended stays as it is, whatever turns it is given. *)
Lemma run_consumer_finished (s : Loop) (k : nat) :
  task s = Finished -> run s (repeat DoConsumer k) = s.
Proof.
  intro F. induction k as [|k IH]; [reflexivity|].
  cbn [repeat]. change (run s (DoConsumer :: repeat DoConsumer k))
    with (run (step s DoConsumer) (repeat DoConsumer k)).
  cbn [step]. unfold run_consumer. rewrite F. exact IH.
Qed.
End Delivery.

(** C8 (as the code has it).  On a bus with one consumption loop, started
    and not stopped, and with subscribers for the type, immediate and
    deferred, whose calls return or raise subclasses of [Exception]: when
    N events of the type are published, in any interleaving with the loop,
    every [publish] returns, and once the loop is left to catch up the M
    deferred handlers subscribed for the type have been called M x N times
    in all: for each event in publish order, each handler in registration
    order, so that every handler sees the events in publish order.  A
    handler that raises such an exception on every call takes nothing away
    from the others. *)
Theorem deferred_delivery (s0 : EventBus.Loop) (ty : string)
    (schedule : list EventBus.action) :
  one_loop (EventBus.bus s0) ->
  Forall raises_only_Exception (immediate_subscribers (EventBus.bus s0) ty) ->
  Forall raises_only_Exception (queued_subscribers (EventBus.bus s0) ty) ->
  EventBus._event_queue (EventBus.bus s0) = [] ->
  (EventBus.task s0 = EventBus.Scheduled \/ EventBus.task s0 = EventBus.AwaitGet) ->
  EventBus.cancel_requested s0 = false ->
  EventBus.stopper s0 = EventBus.NotCalled ->
  Forall no_stop schedule ->
  Forall (fun e => events.event_type e = ty) (published_events schedule) ->
  let hs := deferred_subscribers (EventBus.bus s0) ty in
  let es := published_events schedule in
  (forall before event after,
      schedule = before ++ EventBus.DoPublish event :: after ->
      fst (EventBus.publish event (EventBus.bus (EventBus.run s0 before)))
      = Ok tt) /\
  (quiescent (EventBus.run s0 schedule) ->
   deferred_calls (EventBus.bus (EventBus.run s0 schedule))
   = deferred_calls (EventBus.bus s0) ++ all_calls hs es) /\
  exists k,
    let s := EventBus.run s0 (schedule ++ repeat EventBus.DoConsumer k) in
    quiescent s /\
    deferred_calls (EventBus.bus s)
    = deferred_calls (EventBus.bus s0) ++ all_calls hs es /\
    length (all_calls hs es) = (length hs * length es)%nat /\
    (NoDup (map EventBus.h_name hs) ->
     forall h, In h hs -> seen_by (EventBus.h_name h) (all_calls hs es) = es).
Proof.
  intros _ Ti Ta Q T C S N Ty hs es.
  set (h0 := EventBus._handlers (EventBus.bus s0)).
  set (ah0 := EventBus._async_handlers (EventBus.bus s0)).
  set (dc0 := deferred_calls (EventBus.bus s0)).
  pose proof (@publishable_one_type (EventBus.bus s0) ty schedule Ti Ta Ty) as P.
  fold h0 ah0 in P.
  assert (delivery_inv h0 ah0 dc0 [] s0) as I0.
  { unfold delivery_inv, owed, pending_calls. rewrite Q.
    repeat split; auto.
    - destruct T as [-> | ->]; discriminate.
    - destruct T as [-> | ->]; reflexivity.
    - destruct T as [-> | ->]; constructor. }
  pose proof (@run_delivery_inv h0 ah0 dc0 schedule [] s0 I0 N P) as I1.
  cbn [app] in I1. fold es in I1.
  assert (forall s, delivery_inv h0 ah0 dc0 es s -> quiescent s ->
                    deferred_calls (EventBus.bus s) = dc0 ++ all_calls hs es) as Fin.
  { intros s (_ & _ & _ & _ & He & _) [Qt Qq].
    unfold owed, pending_calls in He. rewrite Qt, Qq in He.
    cbn in He. rewrite app_nil_r in He. rewrite He.
    unfold ah0. rewrite (@expected_calls_one_type (EventBus.bus s0) ty es Ty).
    reflexivity. }
  split.
  { intros before event after E. subst schedule.
    apply Forall_app in N. destruct N as [N _].
    apply Forall_app in P. destruct P as [P P'].
    inversion P' as [|? ? Pe _]; subst. destruct Pe as [Pe _].
    pose proof (@run_delivery_inv h0 ah0 dc0 before [] s0 I0 N P)
      as ([Hh _] & _).
    rewrite publish_eq. cbn [fst].
    apply publish_result_tame.
    rewrite immediate_handlers_for, Hh. exact Pe. }
  split; [apply Fin; exact I1|].
  destruct (@catch_up h0 ah0 dc0 es (length (owed (EventBus.run s0 schedule)))
              (EventBus.run s0 schedule) I1 (Nat.le_refl _))
    as (k & Qk & Ik).
  exists k. cbn zeta. unfold EventBus.run in *. rewrite fold_left_app.
  split; [exact Qk|]. split; [apply Fin; assumption|].
  split; [apply length_all_calls|].
  intros D h Hin. apply seen_by_all_calls; assumption.
Qed.

Lemma deferred_delivery_witness :
  let hs := deferred_subscribers (EventBus.bus Sample.loop0) "TaskCreated" in
  let es := published_events Sample.schedule0 in
  (forall before event after,
      Sample.schedule0 = before ++ EventBus.DoPublish event :: after ->
      fst (EventBus.publish event
             (EventBus.bus (EventBus.run Sample.loop0 before)))
      = Ok tt) /\
  (quiescent (EventBus.run Sample.loop0 Sample.schedule0) ->
   deferred_calls (EventBus.bus (EventBus.run Sample.loop0 Sample.schedule0))
   = deferred_calls (EventBus.bus Sample.loop0) ++ all_calls hs es) /\
  exists k,
    let s := EventBus.run Sample.loop0
               (Sample.schedule0 ++ repeat EventBus.DoConsumer k) in
    quiescent s /\
    deferred_calls (EventBus.bus s)
    = deferred_calls (EventBus.bus Sample.loop0) ++ all_calls hs es /\
    length (all_calls hs es) = (length hs * length es)%nat /\
    (NoDup (map EventBus.h_name hs) ->
     forall h, In h hs -> seen_by (EventBus.h_name h) (all_calls hs es) = es).
Proof.
  apply (@deferred_delivery Sample.loop0 "TaskCreated" Sample.schedule0).
  - reflexivity.
  - constructor.
  - repeat constructor.
  - reflexivity.
  - right. reflexivity.
  - reflexivity.
  - reflexivity.
  - repeat constructor.
  - repeat constructor.
Defined.

(** The calls of that run, once the loop has caught up: two handlers, three
    events, six calls, the raising handler first each time. *)
Example deferred_delivery_calls :
  map (fun c => (fst c, events.event_id (snd c)))
      (deferred_calls
         (EventBus.bus
            (EventBus.run Sample.loop0
               (Sample.schedule0 ++ [EventBus.DoConsumer]))))
  = [("mirror", "a-uuid"); ("index", "a-uuid");
     ("mirror", "b-uuid"); ("index", "b-uuid");
     ("mirror", "c-uuid"); ("index", "c-uuid")].
Proof. vm_compute. reflexivity. Qed.

(** C8 as stated does not hold for a handler whose exception is no
    [Exception].  On the bus whose first deferred handler for TaskCreated
    ends in [CancelledError], the first call of that handler ends the
    consumption loop: of the 2 x 3 calls that the three published events
    ask for, one is made, however many turns the loop is given, and the
    second handler sees no event.  And an immediate handler of that kind
    hands its exception to the publisher, the handler after it not being
    called. *)
Lemma cancelled_handler_ends_delivery :
  (forall k,
      let s := EventBus.run Sample.loop2
                 (Sample.schedule0 ++ repeat EventBus.DoConsumer k) in
      EventBus.task s = EventBus.Finished /\
      deferred_calls (EventBus.bus s) = [("mirror", Sample.task_created 0)] /\
      seen_by "index" (deferred_calls (EventBus.bus s)) = [] /\
      length (deferred_subscribers Sample.bus2 "TaskCreated") = 2%nat /\
      length (published_events Sample.schedule0) = 3%nat) /\
  fst (EventBus.publish Sample.task_assigned Sample.bus2) = Raise CancelledError /\
  map EventBus.inv_handler
      (EventBus.invoked (snd (EventBus.publish Sample.task_assigned Sample.bus2)))
  = ["guard"].
Proof.
  split; [|split; reflexivity].
  intro k. cbv zeta.
  unfold EventBus.run. rewrite fold_left_app.
  change (fold_left EventBus.step (repeat EventBus.DoConsumer k)
            (fold_left EventBus.step Sample.schedule0 Sample.loop2))
    with (EventBus.run (EventBus.run Sample.loop2 Sample.schedule0)
            (repeat EventBus.DoConsumer k)).
  rewrite run_consumer_finished by reflexivity.
  repeat split; reflexivity.
Qed.

(** ** Shutdown *)

Section Shutdown.
Import EventBus.

Lemma stop_call_shutdown_inv (s : Loop) :
  _processing (bus s) = true ->
  _processing_task (bus s) = true ->
  _event_queue (bus s) <> [] ->
  unfinished_tasks (bus s) <> 0%nat ->
  shutdown_inv (_event_queue (bus s)) (deferred_calls (bus s)) (stop_call s).
Proof.
  intros P T Q U. unfold stop_call. rewrite P. cbn [negb].
  destruct (task s) eqn:E; cbn [_processing_task set_processing]; rewrite ?T;
    unfold shutdown_inv; cbn [stopper task cancel_requested bus];
    cbn [_event_queue unfinished_tasks set_processing].
  1-3: repeat split; auto; exists []; rewrite app_nil_r; reflexivity.
  unfold stop_drain. cbn [_event_queue unfinished_tasks set_processing].
  destruct (_event_queue (bus s)); [contradiction|].
  destruct (unfinished_tasks (bus s)); [contradiction|].
  repeat split; auto. exists []. rewrite app_nil_r. reflexivity.
Qed.

Lemma step_shutdown_inv (q0 : list DomainEvent)
    (dc0 : list (string * DomainEvent)) (s : Loop) (a : action) :
  q0 <> [] ->
  shutdown_inv q0 dc0 s -> shutdown_inv q0 dc0 (step s a).
Proof.
  intros Q0 (Hs & Ht & (more & Hq) & Hu & Hd).
  destruct a as [event| | |]; cbn [step].
  - rewrite publish_eq. cbn [snd]. unfold shutdown_inv.
    cbn [stopper task cancel_requested bus].
    rewrite deferred_calls_published_state.
    unfold published_state. cbn [_event_queue unfinished_tasks].
    repeat split; auto.
    + destruct (enqueued (bus s) event); rewrite Hq;
        [exists (more ++ [event]); symmetry; apply app_assoc | exists more; reflexivity].
    + destruct (enqueued (bus s) event); [discriminate | exact Hu].
  - unfold run_consumer.
    destruct (task s) eqn:E.
    + destruct Ht as [Ht|Ht]; [discriminate|]. rewrite Ht.
      unfold shutdown_inv. cbn. repeat split; eauto.
    + destruct Ht as [Ht|Ht]; [discriminate|]. rewrite Ht.
      unfold shutdown_inv. cbn. repeat split; eauto.
    + destruct Ht as [Ht|Ht]; [discriminate|]. rewrite Ht.
      unfold shutdown_inv. cbn. repeat split; eauto.
    + unfold shutdown_inv. rewrite E. repeat split; eauto.
  - destruct Hs as [Hs|Hs]; rewrite Hs; unfold shutdown_inv; repeat split; eauto.
  - unfold stop_resume.
    destruct Hs as [Hs|Hs]; rewrite Hs.
    + destruct (task s) eqn:E;
        try (unfold shutdown_inv; rewrite E; repeat split; eauto; fail).
      unfold shutdown_inv, stop_drain. cbn [stopper task cancel_requested bus].
      rewrite Hq.
      destruct (q0 ++ more) eqn:A.
      * apply app_eq_nil in A. destruct A; contradiction.
      * destruct (unfinished_tasks (bus s)); [contradiction|].
        rewrite <- A. repeat split; eauto.
    + destruct (unfinished_tasks (bus s)) eqn:U; [contradiction|].
      unfold shutdown_inv. rewrite U. repeat split; eauto.
Qed.

Lemma run_shutdown_inv (q0 : list DomainEvent)
    (dc0 : list (string * DomainEvent)) (schedule : list action) :
  q0 <> [] ->
  forall s, shutdown_inv q0 dc0 s -> shutdown_inv q0 dc0 (run s schedule).
Proof.
  intro Q0. induction schedule as [|a schedule IH]; intros s Hi; [exact Hi|].
  change (run s (a :: schedule)) with (run (step s a) schedule).
  apply IH. apply step_shutdown_inv; assumption.
Qed.
End Shutdown.

(** [stop()] called while events are still queued: the loop is cancelled
    before anything waits for the queue, so whatever happens next, [stop()]
    never returns, the queued events stay in the queue and no deferred
    handler is called for them. *)
Lemma stop_with_queued_events_never_returns (s0 : EventBus.Loop)
    (schedule : list EventBus.action) :
  EventBus._processing (EventBus.bus s0) = true ->
  EventBus._processing_task (EventBus.bus s0) = true ->
  EventBus.stopper s0 = EventBus.NotCalled ->
  EventBus._event_queue (EventBus.bus s0) <> [] ->
  EventBus.unfinished_tasks (EventBus.bus s0) <> 0%nat ->
  let s := EventBus.run s0 (EventBus.DoStopCall :: schedule) in
  EventBus.stopper s <> EventBus.Returned /\
  deferred_calls (EventBus.bus s) = deferred_calls (EventBus.bus s0) /\
  exists more,
    EventBus._event_queue (EventBus.bus s)
    = EventBus._event_queue (EventBus.bus s0) ++ more.
Proof.
  intros P T N Q U s.
  assert (shutdown_inv (EventBus._event_queue (EventBus.bus s0))
                       (deferred_calls (EventBus.bus s0)) s) as (Hs & _ & Hq & _ & Hd).
  { subst s.
    change (EventBus.run s0 (EventBus.DoStopCall :: schedule))
      with (EventBus.run (EventBus.step s0 EventBus.DoStopCall) schedule).
    apply run_shutdown_inv; [exact Q|].
    cbn [EventBus.step]. rewrite N.
    apply stop_call_shutdown_inv; assumption. }
  split; [destruct Hs as [-> | ->]; discriminate|].
  split; assumption.
Qed.

(** [stop()] called while the loop is suspended in a handler, the queue
    being empty: the loop is cancelled where it stands, [stop()] finds the
    queue empty and returns, and the handlers that were still to come for
    the event in hand are never called. *)
Lemma stop_with_event_in_flight_returns (s0 : EventBus.Loop)
    (event : DomainEvent) (h : EventBus.Handler) (rest : list EventBus.Handler) :
  EventBus.task s0 = EventBus.AwaitHandler event h rest ->
  EventBus._processing (EventBus.bus s0) = true ->
  EventBus._processing_task (EventBus.bus s0) = true ->
  EventBus.stopper s0 = EventBus.NotCalled ->
  EventBus._event_queue (EventBus.bus s0) = [] ->
  let s := EventBus.run s0
             [EventBus.DoStopCall; EventBus.DoConsumer; EventBus.DoStopResume] in
  EventBus.stopper s = EventBus.Returned /\
  EventBus.task s = EventBus.Finished /\
  EventBus._event_queue (EventBus.bus s) = [] /\
  deferred_calls (EventBus.bus s) = deferred_calls (EventBus.bus s0).
Proof.
  intros T P R N Q.
  unfold EventBus.run. cbn [fold_left EventBus.step].
  rewrite N. unfold EventBus.stop_call. rewrite P, T. cbn [negb].
  cbn [EventBus._processing_task EventBus.set_processing]. rewrite R.
  unfold EventBus.run_consumer. cbn [EventBus.task EventBus.cancel_requested].
  unfold EventBus.stop_resume, EventBus.stop_drain.
  cbn [EventBus.stopper EventBus.task EventBus.bus EventBus._event_queue
       EventBus.set_processing EventBus.cancel_requested].
  rewrite Q. repeat split; reflexivity.
Qed.

(** C5 (the code fails it).  [stop()] cancels the consumption loop first
    and waits for the queue afterwards, so it does not drain: with events
    still queued it never returns and they are never delivered; with an
    event in the hands of a suspended handler it returns although the
    handlers that were still to come never get the event. *)
Theorem stop_does_not_drain :
  (forall (s0 : EventBus.Loop) (schedule : list EventBus.action),
      EventBus._processing (EventBus.bus s0) = true ->
      EventBus._processing_task (EventBus.bus s0) = true ->
      EventBus.stopper s0 = EventBus.NotCalled ->
      EventBus._event_queue (EventBus.bus s0) <> [] ->
      EventBus.unfinished_tasks (EventBus.bus s0) <> 0%nat ->
      let s := EventBus.run s0 (EventBus.DoStopCall :: schedule) in
      EventBus.stopper s <> EventBus.Returned /\
      deferred_calls (EventBus.bus s) = deferred_calls (EventBus.bus s0) /\
      exists more,
        EventBus._event_queue (EventBus.bus s)
        = EventBus._event_queue (EventBus.bus s0) ++ more) /\
  (forall (s0 : EventBus.Loop) (event : DomainEvent) (h : EventBus.Handler)
          (rest : list EventBus.Handler),
      EventBus.task s0 = EventBus.AwaitHandler event h rest ->
      EventBus._processing (EventBus.bus s0) = true ->
      EventBus._processing_task (EventBus.bus s0) = true ->
      EventBus.stopper s0 = EventBus.NotCalled ->
      EventBus._event_queue (EventBus.bus s0) = [] ->
      let s := EventBus.run s0
                 [EventBus.DoStopCall; EventBus.DoConsumer;
                  EventBus.DoStopResume] in
      EventBus.stopper s = EventBus.Returned /\
      EventBus.task s = EventBus.Finished /\
      EventBus._event_queue (EventBus.bus s) = [] /\
      deferred_calls (EventBus.bus s) = deferred_calls (EventBus.bus s0)).
Proof.
  split.
  - exact stop_with_queued_events_never_returns.
  - exact stop_with_event_in_flight_returns.
Qed.

(** Both failing runs on concrete buses.  In the first, one event is
    published while the loop waits in [get()], then [stop()] is called.  In
    the second, the loop has taken the event and is suspended in the first
    of two handlers when [stop()] is called. *)
Lemma stop_does_not_drain_witness :
  (let s0 := EventBus.step Sample.loop0
               (EventBus.DoPublish (Sample.task_created 0)) in
   let s := EventBus.run s0
              [EventBus.DoStopCall; EventBus.DoConsumer; EventBus.DoStopResume;
               EventBus.DoConsumer; EventBus.DoStopResume] in
   EventBus.stopper s <> EventBus.Returned /\
   deferred_calls (EventBus.bus s) = deferred_calls (EventBus.bus s0) /\
   exists more,
     EventBus._event_queue (EventBus.bus s)
     = EventBus._event_queue (EventBus.bus s0) ++ more) /\
  (let s0 := EventBus.run Sample.loop1
               [EventBus.DoPublish (Sample.task_created 0); EventBus.DoConsumer] in
   let s := EventBus.run s0
              [EventBus.DoStopCall; EventBus.DoConsumer; EventBus.DoStopResume] in
   EventBus.stopper s = EventBus.Returned /\
   EventBus.task s = EventBus.Finished /\
   EventBus._event_queue (EventBus.bus s) = [] /\
   deferred_calls (EventBus.bus s) = deferred_calls (EventBus.bus s0)).
Proof.
  split.
  - apply (proj1 stop_does_not_drain
             (EventBus.step Sample.loop0 (EventBus.DoPublish (Sample.task_created 0)))
             [EventBus.DoConsumer; EventBus.DoStopResume;
              EventBus.DoConsumer; EventBus.DoStopResume]).
    + reflexivity.
    + reflexivity.
    + reflexivity.
    + discriminate.
    + discriminate.
  - apply (proj2 stop_does_not_drain
             (EventBus.run Sample.loop1
                [EventBus.DoPublish (Sample.task_created 0); EventBus.DoConsumer])
             (Sample.task_created 0) (Sample.slow "mirror") [Sample.quiet "index"]).
    + reflexivity.
    + reflexivity.
    + reflexivity.
    + reflexivity.
    + reflexivity.
Defined.

(** Where the first run ends: [stop()] waits in [join()], the loop is gone,
    the event is still queued and nobody was called. *)
Example stop_blocks_in_join :
  let s := EventBus.run Sample.loop0
             [EventBus.DoPublish (Sample.task_created 0); EventBus.DoStopCall;
              EventBus.DoConsumer; EventBus.DoStopResume] in
  EventBus.stopper s = EventBus.AwaitJoin /\
  EventBus.task s = EventBus.Finished /\
  EventBus._event_queue (EventBus.bus s) = [Sample.task_created 0] /\
  EventBus.unfinished_tasks (EventBus.bus s) = 1%nat /\
  deferred_calls (EventBus.bus s) = [].
Proof. vm_compute. repeat split; reflexivity. Qed.

(** Where the second run ends: [stop()] has returned on an empty queue, and
    of the two subscribers only the first was ever called. *)
Example stop_returns_with_event_in_flight :
  let s := EventBus.run Sample.loop1
             [EventBus.DoPublish (Sample.task_created 0); EventBus.DoConsumer;
              EventBus.DoStopCall; EventBus.DoConsumer; EventBus.DoStopResume] in
  EventBus.stopper s = EventBus.Returned /\
  EventBus._event_queue (EventBus.bus s) = [] /\
  EventBus.unfinished_tasks (EventBus.bus s) = 1%nat /\
  map EventBus.h_name (deferred_subscribers (EventBus.bus s) "TaskCreated")
  = ["mirror"; "index"] /\
  map fst (deferred_calls (EventBus.bus s)) = ["mirror"].
Proof. vm_compute. repeat split; reflexivity. Qed.

(* ================================================================== *)
(** * Further properties of the entities                                 *)
(* ================================================================== *)

(** ** The life of a task *)

Lemma invoke_consistent (c : task_call) (e : Env) (t : Task) :
  lifecycle_consistent t = true ->
  lifecycle_consistent (snd (snd (invoke c (e, t)))) = true.
Proof.
  destruct t as [i ty st pl ag rs er md cr up sa co].
  unfold lifecycle_consistent.
  destruct st, c; cbn; intro H; try exact H;
    repeat (apply andb_prop in H; destruct H as [H ?]);
    repeat (apply andb_true_intro; split); auto.
Qed.

Lemma invoke_all_cons (c : task_call) (cs : list task_call) (s : Env * Task) :
  invoke_all (c :: cs) s = invoke_all cs (snd (invoke c s)).
Proof. reflexivity. Qed.

(** X1.  Whatever calls of [assign_to], [start], [complete], [fail] and
    [cancel] are made on a task, in any order and whether they return or
    raise, the optional fields stay in step with the status: a CREATED task
    has no agent, start time, completion time, result or error; an ASSIGNED
    one has an agent and none of the others; an IN_PROGRESS one has a start
    time and no completion time, result or error; a COMPLETED one has start
    time, completion time and result and no error; a FAILED one has a
    completion time and an error; a CANCELLED one has a completion time and
    no result or error. *)
Theorem task_lifecycle_invariant (cs : list task_call) (e : Env) (t : Task) :
  lifecycle_consistent t = true ->
  lifecycle_consistent (snd (invoke_all cs (e, t))) = true.
Proof.
  revert e t. induction cs as [|c cs IH]; intros e t H; [exact H|].
  rewrite invoke_all_cons.
  destruct (invoke c (e, t)) as [r [e' t']] eqn:E.
  apply IH. change t' with (snd (snd (r, (e', t')))). rewrite <- E.
  apply invoke_consistent, H.
Qed.

Lemma task_lifecycle_invariant_witness :
  lifecycle_consistent (Sample.task_in TaskStatus.CREATED) = true /\
  lifecycle_consistent
    (snd (invoke_all
            [Call_start; Call_assign_to "agent-1"; Call_complete [];
             Call_cancel; Call_fail "late"]
            (Sample.env0, (Sample.task_in TaskStatus.CREATED)))) = true.
Proof.
  split; [reflexivity|].
  apply (task_lifecycle_invariant
           [Call_start; Call_assign_to "agent-1"; Call_complete [];
            Call_cancel; Call_fail "late"] Sample.env0
           (Sample.task_in TaskStatus.CREATED)).
  reflexivity.
Defined.

Lemma invoke_forward (c : task_call) (e : Env) (t : Task) :
  (stage (Task.status t) <= stage (Task.status (snd (snd (invoke c (e, t))))))%nat /\
  match Task.status t with
  | TaskStatus.CREATED => True
  | _ => Task.assigned_agent (snd (snd (invoke c (e, t)))) = Task.assigned_agent t
  end /\
  Task.id (snd (snd (invoke c (e, t)))) = Task.id t /\
  Task.type (snd (snd (invoke c (e, t)))) = Task.type t /\
  Task.payload (snd (snd (invoke c (e, t)))) = Task.payload t /\
  Task.created_at (snd (snd (invoke c (e, t)))) = Task.created_at t.
Proof.
  destruct t as [i ty st pl ag rs er md cr up sa co].
  destruct st, c; cbn; repeat split; auto.
Qed.

(** X2.  No sequence of calls of the transition methods moves a task
    backwards (CREATED, then ASSIGNED, then IN_PROGRESS, then one of the
    three final statuses, which are never left for an earlier one), changes
    its id, type, payload or creation time, or, once the task has left
    CREATED, changes its assigned agent: an agent is assigned at most
    once. *)
Theorem task_never_goes_back (cs : list task_call) (e : Env) (t : Task) :
  let t' := snd (invoke_all cs (e, t)) in
  (stage (Task.status t) <= stage (Task.status t'))%nat /\
  match Task.status t with
  | TaskStatus.CREATED => True
  | _ => Task.assigned_agent t' = Task.assigned_agent t
  end /\
  Task.id t' = Task.id t /\ Task.type t' = Task.type t /\
  Task.payload t' = Task.payload t /\ Task.created_at t' = Task.created_at t.
Proof.
  revert e t. induction cs as [|c cs IH]; intros e t.
  - cbn. repeat split; auto. destruct (Task.status t); auto.
  - cbv zeta. rewrite invoke_all_cons.
    destruct (invoke_forward c e t) as (S1 & A1 & I1 & T1 & P1 & C1).
    destruct (invoke c (e, t)) as [r [e' t']] eqn:E. cbn [snd] in *.
    specialize (IH e' t'). cbv zeta in IH.
    destruct IH as (S2 & A2 & I2 & T2 & P2 & C2).
    repeat split; try congruence; [lia|].
    destruct (Task.status t) eqn:St; auto;
      destruct (Task.status t') eqn:St'; cbn in S1; try lia; congruence.
Qed.

(** ** Capabilities of an agent *)

Section DictDel.
Context {V : Type}.

Lemma dict_get_del_other (d : dict V) (k k' : string) :
  k' <> k -> dict_get (dict_del d k) k' = dict_get d k'.
Proof.
  intro N. induction d as [|[k0 v0] d IH]; cbn; [reflexivity|].
  destruct (String.eqb k0 k) eqn:E; cbn.
  - apply String.eqb_eq in E. subst k0.
    destruct (String.eqb k k') eqn:E'; [|reflexivity].
    apply String.eqb_eq in E'. congruence.
  - rewrite IH. reflexivity.
Qed.

Lemma dict_get_del_same (d : dict V) (k : string) :
  unique_keys d = true -> dict_get (dict_del d k) k = None.
Proof.
  induction d as [|[k0 v0] d IH]; cbn; [reflexivity|].
  intro U. apply andb_prop in U. destruct U as [U1 U2].
  destruct (String.eqb k0 k) eqn:E; cbn.
  - apply String.eqb_eq in E. subst k0.
    unfold dict_contains in U1. destruct (dict_get d k); [discriminate|reflexivity].
  - rewrite E. apply IH, U2.
Qed.

Lemma dict_contains_false (d : dict V) (k : string) :
  dict_contains d k = false -> dict_get d k = None.
Proof. unfold dict_contains. destruct (dict_get d k); [discriminate|reflexivity]. Qed.
End DictDel.

(** X3.  [add_capability] returns normally; afterwards [has_capability]
    holds for the capability, its value is the one given (replacing an
    earlier value), every other capability is as before, and [updated_at]
    is the reading of the clock taken by the call. *)
Theorem add_capability_then_has (e : Env) (a : Agent) (capability : string)
    (value : pyval) :
  let r := Agent.add_capability capability value (e, a) in
  let a' := snd (snd r) in
  fst r = Ok tt /\
  Agent.has_capability a' capability = true /\
  dict_get (Agent.capabilities a') capability = Some value /\
  (forall other, other <> capability ->
     dict_get (Agent.capabilities a') other
     = dict_get (Agent.capabilities a) other) /\
  Agent.updated_at a' = clock_of e (clock_ix e) /\
  Agent.status a' = Agent.status a /\ Agent.id a' = Agent.id a.
Proof.
  destruct a as [i n ty st cs md cr up]. cbn.
  repeat split; auto.
  - unfold Agent.has_capability. cbn. apply dict_contains_set.
  - apply dict_get_set_same.
  - intros other N. apply dict_get_set_other, N.
Qed.

(** X4.  [remove_capability] never raises.  For a capability the agent
    has, the call removes it, keeps every other capability and sets
    [updated_at] to the clock; for a capability the agent does not have,
    the call changes nothing, [updated_at] and the clock included. *)
Theorem remove_capability_effect (e : Env) (a : Agent) (capability : string) :
  unique_keys (Agent.capabilities a) = true ->
  let r := Agent.remove_capability capability (e, a) in
  let a' := snd (snd r) in
  fst r = Ok tt /\
  Agent.has_capability a' capability = false /\
  (forall other, other <> capability ->
     dict_get (Agent.capabilities a') other
     = dict_get (Agent.capabilities a) other) /\
  if Agent.has_capability a capability
  then Agent.updated_at a' = clock_of e (clock_ix e)
  else snd r = (e, a).
Proof.
  intro U. destruct a as [i n ty st cs md cr up].
  unfold Agent.remove_capability, Agent.has_capability, bind, self, gets in *.
  cbn in U |- *.
  destruct (dict_contains cs capability) eqn:C; cbn.
  - repeat split; auto.
    + unfold dict_contains. rewrite dict_get_del_same by exact U. reflexivity.
    + intros other N. apply dict_get_del_other, N.
  - repeat split; auto.
Qed.

Lemma remove_capability_effect_witness :
  let a := Sample.agent "agent-2" AgentStatus.IDLE
             [("rag", PBool true); ("ocr", PInt 2)] in
  let r := Agent.remove_capability "rag" (Sample.env0, a) in
  fst r = Ok tt /\
  Agent.has_capability (snd (snd r)) "rag" = false /\
  (forall other, other <> "rag" ->
     dict_get (Agent.capabilities (snd (snd r))) other
     = dict_get (Agent.capabilities a) other) /\
  if Agent.has_capability a "rag"
  then Agent.updated_at (snd (snd r)) = clock_of Sample.env0 (clock_ix Sample.env0)
  else snd r = (Sample.env0, a).
Proof.
  intros a r.
  apply (@remove_capability_effect Sample.env0 a "rag").
  reflexivity.
Defined.

(** ** Serialisation of agents, messages and conversations *)

Lemma agent_type_of_object (ty : AgentType.t) :
  AgentType.of_object (PStr (AgentType.value ty)) = Ok ty.
Proof. destruct ty; reflexivity. Qed.

Lemma agent_status_of_value (st : AgentStatus.t) :
  AgentStatus.of_value (PStr (AgentStatus.value st)) = Ok st.
Proof. destruct st; reflexivity. Qed.

(** X5.  For every agent [a] whose timestamps are naive datetimes,
    [Agent.from_dict(a.to_dict())] returns an agent equal to [a] in every
    field. *)
Theorem agent_from_dict_to_dict (e : Env) (a : Agent) :
  agent_timestamps_valid a = true ->
  fst (Agent.from_dict (Agent.to_dict a) e) = Ok a.
Proof.
  unfold agent_timestamps_valid. rewrite andb_true_iff. intros [Vc Vu].
  unfold Agent.from_dict, bind, lift_res, ret.
  cbn [uuid4 utcnow env_of with_env HasEnv_Env].
  change (dict_get_default (Agent.to_dict a) "type" _)
    with (PStr (AgentType.value (Agent.type a))).
  change (dict_get_default (Agent.to_dict a) "status" _)
    with (PStr (AgentStatus.value (Agent.status a))).
  rewrite agent_type_of_object, agent_status_of_value.
  change (dict_get_default (Agent.to_dict a) "created_at" _)
    with (PStr (datetime.isoformat (Agent.created_at a))).
  change (dict_get_default (Agent.to_dict a) "updated_at" _)
    with (PStr (datetime.isoformat (Agent.updated_at a))).
  cbn [Task.fromisoformat_any].
  rewrite !datetime_facts.fromisoformat_isoformat by assumption.
  destruct a; reflexivity.
Qed.

Lemma agent_from_dict_to_dict_witness :
  let a := Sample.agent "agent-2" AgentStatus.IDLE [("rag", PBool true)] in
  fst (Agent.from_dict (Agent.to_dict a) Sample.env0) = Ok a.
Proof.
  intro a. apply (@agent_from_dict_to_dict Sample.env0 a). reflexivity.
Defined.

Lemma timestamp_or_now_isoformat (e : Env) (data : dict pyval) (k : string)
    (d : datetime) :
  datetime.valid d = true ->
  dict_get data k = Some (PStr (datetime.isoformat d)) ->
  exists e', Message.timestamp_or_now data k e = (Ok d, e').
Proof.
  intros V G. unfold Message.timestamp_or_now, bind. cbn [utcnow].
  rewrite G, datetime_facts.isoformat_truthy.
  unfold lift_res. cbn [Task.fromisoformat_any].
  rewrite datetime_facts.fromisoformat_isoformat by exact V.
  eexists. reflexivity.
Qed.

Lemma message_from_dict_to_dict_env (e : Env) (m : Message) :
  message_timestamp_valid m = true ->
  exists e', Message.from_dict (Message.to_dict m) e = (Ok m, e').
Proof.
  intro V. unfold Message.from_dict.
  destruct (@timestamp_or_now_isoformat e (Message.to_dict m) "timestamp"
              (Message.timestamp m) V eq_refl) as [e1 E1].
  unfold bind at 1. rewrite E1.
  destruct m as [i r c ts md cv]. destruct cv; cbn; eexists; reflexivity.
Qed.

(** X6.  For every message [m] whose timestamp is a naive datetime,
    [Message.from_dict(m.to_dict())] returns a message equal to [m] in
    every field, an absent conversation id included. *)
Theorem message_from_dict_to_dict (e : Env) (m : Message) :
  message_timestamp_valid m = true ->
  fst (Message.from_dict (Message.to_dict m) e) = Ok m.
Proof.
  intro V. destruct (message_from_dict_to_dict_env e m V) as [e' E].
  rewrite E. reflexivity.
Qed.

Lemma message_from_dict_to_dict_witness :
  let m := Message.mk "m-1" "user" "hello" Sample.t0 [("lang", PStr "en")] None in
  fst (Message.from_dict (Message.to_dict m) Sample.env0) = Ok m.
Proof.
  intro m. apply (@message_from_dict_to_dict Sample.env0 m). reflexivity.
Defined.

Lemma messages_from_to_dict (ms : list Message) : forall e : Env,
  forallb message_timestamp_valid ms = true ->
  exists e',
    Conversation.messages_from
      (map (fun msg => PDict (Message.to_dict msg)) ms) e = (Ok ms, e').
Proof.
  induction ms as [|m ms IH]; intros e V; cbn [map Conversation.messages_from].
  - eexists. reflexivity.
  - cbn [forallb] in V. apply andb_prop in V. destruct V as [Vm Vms].
    destruct (message_from_dict_to_dict_env e m Vm) as [e1 E1].
    unfold bind at 1. cbn [Message.from_object]. rewrite E1.
    destruct (IH e1 Vms) as [e2 E2].
    unfold bind at 1. rewrite E2. eexists. reflexivity.
Qed.

(** X7.  For every conversation [c] whose timestamps and whose messages'
    timestamps are naive datetimes, [Conversation.from_dict(c.to_dict())]
    returns a conversation equal to [c]: the same id, context and
    timestamps, and the same messages in the same order. *)
Theorem conversation_from_dict_to_dict (e : Env) (c : Conversation) :
  conversation_timestamps_valid c = true ->
  fst (Conversation.from_dict (Conversation.to_dict c) e) = Ok c.
Proof.
  unfold conversation_timestamps_valid. rewrite !andb_true_iff.
  intros [[Vc Vu] Vm].
  unfold Conversation.from_dict.
  change (dict_get_default (Conversation.to_dict c) "messages" _)
    with (PList (map (fun msg => PDict (Message.to_dict msg))
                     (Conversation.messages c))).
  unfold bind at 1. cbn [lift_res Conversation.iterate].
  destruct (messages_from_to_dict (Conversation.messages c) e Vm) as [e1 E1].
  unfold bind at 1. rewrite E1.
  destruct (@timestamp_or_now_isoformat e1 (Conversation.to_dict c) "created_at"
              (Conversation.created_at c) Vc eq_refl) as [e2 E2].
  unfold bind at 1. rewrite E2.
  destruct (@timestamp_or_now_isoformat e2 (Conversation.to_dict c) "updated_at"
              (Conversation.updated_at c) Vu eq_refl) as [e3 E3].
  unfold bind at 1. rewrite E3.
  destruct c; reflexivity.
Qed.

Lemma conversation_from_dict_to_dict_witness :
  let c := Conversation.mk "conv-1"
             [Message.mk "m-1" "user" "hello" Sample.t0 [] (Some "conv-1");
              Message.mk "m-2" "assistant" "hi" Sample.t0 [] (Some "conv-1")]
             [("topic", PStr "greeting")] Sample.t0 Sample.t0 in
  fst (Conversation.from_dict (Conversation.to_dict c) Sample.env0) = Ok c.
Proof.
  intro c. apply (@conversation_from_dict_to_dict Sample.env0 c). reflexivity.
Defined.

(** ** Messages of a conversation *)

Lemma last_app_one {A} (l : list A) (x d : A) : last (l ++ [x]) d = x.
Proof. apply last_last. Qed.

(** X8.  [add_message] appends the message to the conversation, after the
    messages already there, and stamps it with the conversation's id
    whatever conversation id it carried; [get_last_message] then returns
    it, and [get_messages_by_role] for its role returns the earlier
    messages of that role followed by it. *)
Theorem add_message_then_last (e : Env) (c : Conversation) (m : Message) :
  let r := Conversation.add_message m (e, c) in
  let c' := snd (snd r) in
  let m' := Message.set_conversation_id (Some (Conversation.id c)) m in
  fst r = Ok m' /\
  Conversation.messages c' = Conversation.messages c ++ [m'] /\
  Conversation.get_last_message c' = Some m' /\
  Conversation.get_messages_by_role c' (Message.role m)
  = Conversation.get_messages_by_role c (Message.role m) ++ [m'] /\
  Conversation.updated_at c' = clock_of e (clock_ix e).
Proof.
  destruct c as [i ms ctx cr up]. cbn.
  repeat split; auto.
  - unfold Conversation.get_last_message. cbn.
    destruct (ms ++ _) as [|x l] eqn:E; [destruct ms; discriminate|].
    f_equal. destruct ms as [|y ms]; cbn in E.
    + injection E as <- <-. reflexivity.
    + injection E as <- <-. apply last_app_one.
  - unfold Conversation.get_messages_by_role. cbn.
    rewrite filter_app. cbn. rewrite String.eqb_refl. reflexivity.
Qed.

(* ================================================================== *)
(** * Further properties of the event bus                                *)
(* ================================================================== *)

Section DictDefault.
Context {V : Type}.

Lemma dict_get_default_set_same (d : dict V) (k : string) (v dv : V) :
  dict_get_default (dict_set d k v) k dv = v.
Proof. unfold dict_get_default. rewrite dict_get_set_same. reflexivity. Qed.

Lemma dict_get_default_set_other (d : dict V) (k k' : string) (v dv : V) :
  k' <> k -> dict_get_default (dict_set d k v) k' dv = dict_get_default d k' dv.
Proof.
  intro N. unfold dict_get_default. rewrite dict_get_set_other by exact N.
  reflexivity.
Qed.

Lemma dict_get_default_absent (d : dict V) (k : string) (dv : V) :
  dict_contains d k = false -> dict_get_default d k dv = dv.
Proof.
  unfold dict_contains, dict_get_default.
  destruct (dict_get d k); [discriminate|reflexivity].
Qed.

Lemma dict_contains_keys (d : dict V) (k : string) :
  dict_contains d k = true <-> In k (dict_keys d).
Proof.
  unfold dict_contains, dict_keys.
  induction d as [|[k0 v0] d IH]; cbn.
  - split; [discriminate|contradiction].
  - destruct (String.eqb k0 k) eqn:E.
    + apply String.eqb_eq in E. split; auto.
    + apply String.eqb_neq in E. rewrite IH. split; [auto|].
      intros [H|H]; [contradiction|exact H].
Qed.
End DictDefault.

(** X9.  [publish] calls the immediate handlers registered for the type
    of the event, each once, in the order of their subscription, and no
    other handler.  A handler that raises an [Exception] does not keep the
    later ones from being called.  When no call ends in an exception of
    another kind, all of them are called, [publish] returns, and it has put
    the event on the queue exactly when the event type is a key of the
    deferred subscriptions.  When a call ends in an exception that is no
    [Exception], the handlers after it are not called, the event is not put
    on the queue and [publish] raises that exception.  The subscriptions
    are unchanged either way. *)
Theorem publish_immediate_dispatch (event : DomainEvent) (b : EventBus) :
  let r := EventBus.publish event b in
  let b' := snd r in
  let hs := immediate_subscribers b (events.event_type event) in
  EventBus.invoked b'
  = EventBus.invoked b ++
    map (fun h => EventBus.mkInv EventBus.Immediate (EventBus.h_name h) event)
        (fst (called_until event hs)) /\
  match snd (called_until event hs) with
  | None =>
      fst (called_until event hs) = hs /\
      fst r = Ok tt /\
      EventBus._event_queue b'
      = (if dict_contains (EventBus._async_handlers b) (events.event_type event)
         then EventBus._event_queue b ++ [event]
         else EventBus._event_queue b)
  | Some e =>
      (exists before h after,
          hs = before ++ h :: after /\
          fst (called_until event hs) = before ++ [h] /\
          Forall (fun x => escapes x event = None) before /\
          escapes h event = Some e) /\
      is_Exception e = false /\
      fst r = Raise e /\
      EventBus._event_queue b' = EventBus._event_queue b
  end /\
  (Forall raises_only_Exception hs -> snd (called_until event hs) = None) /\
  EventBus._handlers b' = EventBus._handlers b /\
  EventBus._async_handlers b' = EventBus._async_handlers b.
Proof.
  cbv zeta. rewrite publish_eq. cbn [fst snd].
  assert (immediate_handlers b event
          = immediate_subscribers b (events.event_type event)) as E.
  { unfold immediate_handlers, immediate_subscribers.
    destruct (dict_contains (EventBus._handlers b) _) eqn:C; [reflexivity|].
    rewrite dict_get_default_absent by exact C. reflexivity. }
  unfold published_state, publish_result, enqueued. rewrite E.
  cbn [EventBus.invoked EventBus._event_queue EventBus._handlers
       EventBus._async_handlers].
  set (hs := immediate_subscribers b (events.event_type event)).
  split; [reflexivity|].
  split.
  - assert (match snd (called_until event hs) with
            | None => fst (called_until event hs) = hs
            | Some e =>
                exists before h after,
                  hs = before ++ h :: after /\
                  fst (called_until event hs) = before ++ [h] /\
                  Forall (fun x => escapes x event = None) before /\
                  escapes h event = Some e
            end) as Sp.
    { clearbody hs. clear E.
      induction hs as [|h hs IH]; cbn [called_until]; [reflexivity|].
      destruct (escapes h event) as [e|] eqn:Es.
      - cbn [fst snd]. exists [], h, hs. repeat split; auto.
      - destruct (called_until event hs) as [called [e|]]; cbn [fst snd] in *.
        + destruct IH as (before & x & after & -> & -> & Fb & Ex).
          exists (h :: before), x, after. repeat split; auto.
        + rewrite IH. reflexivity. }
    destruct (snd (called_until event hs)) as [e|] eqn:Se.
    + repeat split; auto.
      apply (called_until_not_Exception _ _ Se).
    + repeat split; auto.
  - split; [|split; reflexivity].
    intro T. rewrite (called_until_tame event T). reflexivity.
Qed.

(** X10.  [subscribe] registers the handler last among the handlers of its
    kind for the event type, so that [get_handlers_count] of that type
    grows by one, also when the same handler is subscribed again; the
    handlers of every other type, and those of the other kind, are as
    before. *)
Theorem subscribe_registers_last (b : EventBus) (event_type : string)
    (handler : EventBus.Handler) (async_processing : bool) :
  let r := EventBus.subscribe event_type handler async_processing b in
  let b' := snd r in
  fst r = Ok tt /\
  immediate_subscribers b' event_type
  = immediate_subscribers b event_type ++
    (if async_processing then [] else [handler]) /\
  queued_subscribers b' event_type
  = queued_subscribers b event_type ++
    (if async_processing then [handler] else []) /\
  EventBus.get_handlers_count b' event_type
  = S (EventBus.get_handlers_count b event_type) /\
  (forall other, other <> event_type ->
     immediate_subscribers b' other = immediate_subscribers b other /\
     queued_subscribers b' other = queued_subscribers b other /\
     EventBus.get_handlers_count b' other = EventBus.get_handlers_count b other).
Proof.
  unfold immediate_subscribers, queued_subscribers, EventBus.get_handlers_count.
  destruct async_processing; cbn -[dict_get_default];
    destruct (EventBus._processing b); cbn -[dict_get_default];
    unfold EventBus.dd_append;
    rewrite ?dict_get_default_set_same, ?app_nil_r, ?length_app; cbn [length];
    (split; [reflexivity|]); (split; [reflexivity|]); (split; [reflexivity|]);
    (split; [lia|]);
    intros other N; rewrite ?dict_get_default_set_other by exact N; auto.
Qed.

Lemma list_remove_absent (l : list EventBus.Handler) (h : EventBus.Handler) :
  EventBus.handler_in h l = false -> EventBus.list_remove l h = l.
Proof.
  unfold EventBus.handler_in.
  induction l as [|x l IH]; cbn; [reflexivity|].
  destruct (String.eqb (EventBus.h_name x) (EventBus.h_name h)); cbn;
    [discriminate|].
  intro H. rewrite IH by exact H. reflexivity.
Qed.

Lemma dd_remove_get (d : dict (list EventBus.Handler)) (k : string)
    (h : EventBus.Handler) :
  dict_get (EventBus.dd_remove d k h) k
  = Some (EventBus.list_remove (dict_get_default d k []) h) /\
  forall other, other <> k ->
    dict_get (EventBus.dd_remove d k h) other = dict_get d other.
Proof.
  unfold EventBus.dd_remove.
  destruct (EventBus.handler_in h (dict_get_default d k [])) eqn:E.
  - rewrite dict_set_set, dict_get_set_same. split; [reflexivity|].
    intros other N. apply dict_get_set_other, N.
  - rewrite dict_get_set_same, list_remove_absent by exact E.
    split; [reflexivity|].
    intros other N. apply dict_get_set_other, N.
Qed.

Lemma length_list_remove (l : list EventBus.Handler) (h : EventBus.Handler) :
  length (EventBus.list_remove l h)
  = (length l - (if EventBus.handler_in h l then 1 else 0))%nat.
Proof.
  unfold EventBus.handler_in.
  induction l as [|x l IH]; cbn [EventBus.list_remove existsb length];
    [reflexivity|].
  destruct (String.eqb (EventBus.h_name x) (EventBus.h_name h)); cbn [orb length].
  - lia.
  - rewrite IH. destruct (existsb _ l) eqn:E; [|lia].
    destruct l; [discriminate|cbn [length]; lia].
Qed.

Lemma handler_in_length (h : EventBus.Handler) (l : list EventBus.Handler) :
  ((if EventBus.handler_in h l then 1 else 0) <= length l)%nat.
Proof.
  destruct l; cbn; [lia|]. destruct (_ || _); lia.
Qed.

(** X11.  [unsubscribe] never raises.  From the immediate and from the
    deferred handlers of the event type it removes the first registration
    of the handler, if there is one, keeping the other registrations in
    order: a handler subscribed twice stays subscribed once.  A handler that
    is not subscribed leaves both lists as they were, and the handlers of
    every other type are untouched. *)
Theorem unsubscribe_removes_first (b : EventBus) (event_type : string)
    (handler : EventBus.Handler) :
  let r := EventBus.unsubscribe event_type handler b in
  let b' := snd r in
  fst r = Ok tt /\
  immediate_subscribers b' event_type
  = EventBus.list_remove (immediate_subscribers b event_type) handler /\
  queued_subscribers b' event_type
  = EventBus.list_remove (queued_subscribers b event_type) handler /\
  EventBus.get_handlers_count b' event_type
  = (EventBus.get_handlers_count b event_type
     - (if EventBus.handler_in handler (immediate_subscribers b event_type)
        then 1 else 0)
     - (if EventBus.handler_in handler (queued_subscribers b event_type)
        then 1 else 0))%nat /\
  (forall other, other <> event_type ->
     immediate_subscribers b' other = immediate_subscribers b other /\
     queued_subscribers b' other = queued_subscribers b other).
Proof.
  unfold immediate_subscribers, queued_subscribers, EventBus.get_handlers_count.
  cbn -[dict_get_default EventBus.dd_remove].
  destruct (dd_remove_get (EventBus._handlers b) event_type handler) as [S1 O1].
  destruct (dd_remove_get (EventBus._async_handlers b) event_type handler)
    as [S2 O2].
  unfold dict_get_default at 1 3 5 6. rewrite S1, S2.
  repeat split; auto.
  - rewrite !length_list_remove.
    pose proof (handler_in_length handler
                  (dict_get_default (EventBus._handlers b) event_type [])).
    pose proof (handler_in_length handler
                  (dict_get_default (EventBus._async_handlers b) event_type [])).
    destruct (EventBus.handler_in handler
                (dict_get_default (EventBus._handlers b) event_type []));
      destruct (EventBus.handler_in handler
                (dict_get_default (EventBus._async_handlers b) event_type []));
      lia.
  - unfold dict_get_default. rewrite O1 by assumption. reflexivity.
  - unfold dict_get_default. rewrite O2 by assumption. reflexivity.
Qed.

Lemma Forall_list_remove (P : EventBus.Handler -> Prop)
    (l : list EventBus.Handler) (h : EventBus.Handler) :
  Forall P l -> Forall P (EventBus.list_remove l h).
Proof.
  induction 1 as [|x l Px Pl IH]; cbn [EventBus.list_remove]; [constructor|].
  destruct (String.eqb (EventBus.h_name x) (EventBus.h_name h)); auto.
Qed.

(** X12.  [unsubscribe] leaves the event type registered: after the call
    the type is among [get_subscribed_events()], whether or not any handler
    was ever subscribed to it, and every later [publish] of an event of
    that type that gets past the immediate handlers (they raise only
    subclasses of [Exception]) puts the event on the queue, where it stays
    when no consumption loop is running. *)
Theorem unsubscribe_registers_type (b : EventBus) (handler : EventBus.Handler)
    (event : DomainEvent) :
  Forall raises_only_Exception
         (immediate_subscribers b (events.event_type event)) ->
  let b1 := snd (EventBus.unsubscribe (events.event_type event) handler b) in
  let b2 := snd (EventBus.publish event b1) in
  In (events.event_type event) (EventBus.get_subscribed_events b1) /\
  EventBus._event_queue b2 = EventBus._event_queue b ++ [event] /\
  EventBus.unfinished_tasks b2 = S (EventBus.unfinished_tasks b) /\
  EventBus.tasks_created b2 = EventBus.tasks_created b.
Proof.
  intro T. cbv zeta. rewrite publish_eq. cbn [snd].
  set (b1 := snd (EventBus.unsubscribe (events.event_type event) handler b)).
  destruct (dd_remove_get (EventBus._handlers b) (events.event_type event)
              handler) as [S1 _].
  destruct (dd_remove_get (EventBus._async_handlers b) (events.event_type event)
              handler) as [S2 _].
  assert (C : dict_contains (EventBus._async_handlers b1)
                (events.event_type event) = true).
  { unfold dict_contains. cbn. rewrite S2. reflexivity. }
  assert (T1 : Forall raises_only_Exception (immediate_handlers b1 event)).
  { unfold immediate_handlers, dict_contains, dict_get_default. cbn.
    rewrite S1. apply Forall_list_remove. exact T. }
  destruct (publish_result_tame event b1 T1) as (_ & En & _).
  unfold published_state. rewrite En, C.
  cbn -[dict_contains EventBus.dd_remove EventBus.get_subscribed_events].
  repeat split; auto.
  unfold EventBus.get_subscribed_events. apply nodup_In, in_or_app. right.
  apply dict_contains_keys. exact C.
Qed.

Lemma unsubscribe_registers_type_witness :
  let b1 := snd (EventBus.unsubscribe "TaskAssigned" (Sample.quiet "nobody")
                   Sample.bus1) in
  let b2 := snd (EventBus.publish Sample.task_assigned b1) in
  In "TaskAssigned" (EventBus.get_subscribed_events b1) /\
  EventBus._event_queue b2
  = EventBus._event_queue Sample.bus1 ++ [Sample.task_assigned] /\
  EventBus.unfinished_tasks b2 = S (EventBus.unfinished_tasks Sample.bus1) /\
  EventBus.tasks_created b2 = EventBus.tasks_created Sample.bus1.
Proof.
  apply (@unsubscribe_registers_type Sample.bus1 (Sample.quiet "nobody")
           Sample.task_assigned).
  constructor.
Defined.

(** Without that condition the event may not get to the queue: on the bus
    whose first immediate handler for TaskAssigned ends in
    [CancelledError], [publish] raises before it reaches [put], also after
    an [unsubscribe] has registered the type among the deferred
    subscriptions. *)
Example unsubscribe_then_cancelled_publish :
  let b1 := snd (EventBus.unsubscribe "TaskAssigned" (Sample.quiet "nobody")
                   Sample.bus2) in
  let r := EventBus.publish Sample.task_assigned b1 in
  dict_contains (EventBus._async_handlers b1) "TaskAssigned" = true /\
  fst r = Raise CancelledError /\
  EventBus._event_queue (snd r) = [].
Proof. repeat split; reflexivity. Qed.

Lemma subscribe_deferred_task (b : EventBus) (event_type : string)
    (handler : EventBus.Handler) :
  EventBus._processing b = false ->
  let b' := snd (EventBus.subscribe event_type handler true b) in
  EventBus._processing b' = false /\
  EventBus.tasks_created b' = S (EventBus.tasks_created b).
Proof.
  intro P. unfold EventBus.subscribe, bind, modify, get. cbn. rewrite P.
  cbn. rewrite P. auto.
Qed.

(** X13.  [subscribe] with [async_processing=True] creates a consumption
    task whenever [_processing] is false, and [_processing] becomes true
    only once a created task runs: deferred subscriptions made one after
    the other before the event loop has run the first task create one task
    each. *)
Theorem deferred_subscriptions_create_tasks
    (subs : list (string * EventBus.Handler)) (b : EventBus) :
  EventBus._processing b = false ->
  let b' := subscribe_all (map (fun s => (fst s, snd s, true)) subs) b in
  EventBus.tasks_created b' = (EventBus.tasks_created b + length subs)%nat /\
  EventBus._processing b' = false.
Proof.
  revert b. induction subs as [|[ty h] subs IH]; intros b P.
  - cbn. split; [lia|exact P].
  - cbv zeta. cbn [map subscribe_all fold_left fst snd length].
    destruct (@subscribe_deferred_task b ty h P) as [P1 T1].
    specialize (IH _ P1). cbv zeta in IH. unfold subscribe_all in IH.
    destruct IH as [IH1 IH2]. rewrite IH1, IH2, T1. split; [lia|reflexivity].
Qed.

Lemma deferred_subscriptions_create_tasks_witness :
  EventBus.tasks_created
    (subscribe_all [("TaskCreated", Sample.quiet "index", true);
                    ("TaskAssigned", Sample.quiet "index", true)]
                   EventBus.init) = 2%nat /\
  EventBus._processing
    (subscribe_all [("TaskCreated", Sample.quiet "index", true);
                    ("TaskAssigned", Sample.quiet "index", true)]
                   EventBus.init) = false.
Proof.
  apply (@deferred_subscriptions_create_tasks
           [("TaskCreated", Sample.quiet "index");
            ("TaskAssigned", Sample.quiet "index")] EventBus.init).
  reflexivity.
Defined.

Lemma enqueued_ext (b b0 : EventBus) (event : DomainEvent) :
  EventBus._handlers b = EventBus._handlers b0 ->
  EventBus._async_handlers b = EventBus._async_handlers b0 ->
  enqueued b event = enqueued b0 event.
Proof.
  unfold enqueued, immediate_handlers. intros -> ->. reflexivity.
Qed.

Lemma run_after_stop (b0 : EventBus) (later : list EventBus.action) :
  forall s : EventBus.Loop,
  EventBus.task s = EventBus.Finished ->
  EventBus.stopper s = EventBus.Returned ->
  EventBus._handlers (EventBus.bus s) = EventBus._handlers b0 ->
  EventBus._async_handlers (EventBus.bus s) = EventBus._async_handlers b0 ->
  let s' := EventBus.run s later in
  EventBus.task s' = EventBus.Finished /\
  EventBus.stopper s' = EventBus.Returned /\
  deferred_calls (EventBus.bus s') = deferred_calls (EventBus.bus s) /\
  EventBus._event_queue (EventBus.bus s')
  = EventBus._event_queue (EventBus.bus s) ++
    filter (enqueued b0) (published_events later).
Proof.
  induction later as [|a later IH]; intros s T R H A.
  - cbn. rewrite app_nil_r. auto.
  - cbv zeta.
    change (EventBus.run s (a :: later))
      with (EventBus.run (EventBus.step s a) later).
    assert (EventBus.task (EventBus.step s a) = EventBus.Finished /\
            EventBus.stopper (EventBus.step s a) = EventBus.Returned /\
            EventBus._handlers (EventBus.bus (EventBus.step s a))
            = EventBus._handlers b0 /\
            EventBus._async_handlers (EventBus.bus (EventBus.step s a))
            = EventBus._async_handlers b0 /\
            deferred_calls (EventBus.bus (EventBus.step s a))
            = deferred_calls (EventBus.bus s) /\
            EventBus._event_queue (EventBus.bus (EventBus.step s a))
            = EventBus._event_queue (EventBus.bus s) ++
              filter (enqueued b0) (published_events [a]))
      as (T1 & R1 & H1 & A1 & D1 & Q1).
    { destruct a as [event| | |]; cbn [EventBus.step].
      - rewrite publish_eq. cbn [snd EventBus.task EventBus.stopper EventBus.bus].
        rewrite deferred_calls_published_state.
        unfold published_state, published_events.
        cbn [EventBus._handlers EventBus._async_handlers EventBus._event_queue
             flat_map app filter].
        rewrite (enqueued_ext (EventBus.bus s) b0 event H A).
        destruct (enqueued b0 event); rewrite ?app_nil_r; auto 10.
      - unfold EventBus.run_consumer. rewrite T. cbn. rewrite app_nil_r. auto 10.
      - rewrite R. cbn. rewrite app_nil_r. auto 10.
      - unfold EventBus.stop_resume. rewrite R. cbn. rewrite app_nil_r. auto 10. }
    destruct (IH _ T1 R1 H1 A1) as (T2 & R2 & D2 & Q2).
    rewrite T2, R2, D2, Q2, D1, Q1, (published_events_cons a later).
    rewrite filter_app, app_assoc.
    repeat split; reflexivity.
Qed.

(** X14.  On a bus with one consumption loop, [stop()] called when the loop
    has caught up (it waits in [get()] on an empty queue) cancels the loop
    and returns once the loop has ended.  From then on, until a deferred
    subscription starts a new loop, the bus delivers nothing to a deferred
    handler: whatever is published later is still put on the queue when
    its type has deferred subscriptions and no immediate handler has ended
    the [publish] before, and stays there. *)
Theorem stop_on_idle_bus (s0 : EventBus.Loop) (later : list EventBus.action) :
  one_loop (EventBus.bus s0) ->
  EventBus.task s0 = EventBus.AwaitGet ->
  EventBus._processing (EventBus.bus s0) = true ->
  EventBus._processing_task (EventBus.bus s0) = true ->
  EventBus.stopper s0 = EventBus.NotCalled ->
  EventBus._event_queue (EventBus.bus s0) = [] ->
  let s1 := EventBus.run s0
              [EventBus.DoStopCall; EventBus.DoConsumer; EventBus.DoStopResume] in
  let s2 := EventBus.run s1 later in
  EventBus.stopper s1 = EventBus.Returned /\
  EventBus.task s1 = EventBus.Finished /\
  EventBus._processing (EventBus.bus s1) = false /\
  EventBus.tasks_created (EventBus.bus s1) = 1%nat /\
  deferred_calls (EventBus.bus s2) = deferred_calls (EventBus.bus s0) /\
  EventBus._event_queue (EventBus.bus s2)
  = filter (enqueued (EventBus.bus s0)) (published_events later) /\
  (Forall (fun e => tame_for (EventBus._handlers (EventBus.bus s0)) e)
          (published_events later) ->
   EventBus._event_queue (EventBus.bus s2)
   = with_deferred_key (EventBus._async_handlers (EventBus.bus s0))
                       (published_events later)).
Proof.
  intros One T P R N Q.
  set (s1 := EventBus.run s0 _).
  assert (E1 : s1 = EventBus.mkLoop (EventBus.set_processing false (EventBus.bus s0))
                      EventBus.Finished false EventBus.Returned).
  { subst s1. unfold EventBus.run. cbn [fold_left EventBus.step].
    rewrite N. unfold EventBus.stop_call. rewrite P, T. cbn [negb].
    cbn [EventBus._processing_task EventBus.set_processing]. rewrite R.
    unfold EventBus.run_consumer. cbn [EventBus.task EventBus.cancel_requested].
    unfold EventBus.stop_resume, EventBus.stop_drain.
    cbn [EventBus.stopper EventBus.task EventBus.bus EventBus._event_queue
         EventBus.set_processing EventBus.cancel_requested].
    rewrite Q. reflexivity. }
  cbv zeta.
  destruct (@run_after_stop (EventBus.bus s0) later s1)
    as (_ & _ & D & Qe).
  1-4: rewrite E1; reflexivity.
  rewrite D, Qe. rewrite E1. cbn [EventBus.stopper EventBus.task EventBus.bus].
  cbn [EventBus._processing EventBus.set_processing EventBus._event_queue
       EventBus.tasks_created].
  rewrite Q. cbn [app].
  split; [reflexivity|]. split; [reflexivity|]. split; [reflexivity|].
  split; [exact One|]. split; [reflexivity|]. split; [reflexivity|].
  intro Tm. unfold with_deferred_key. clear D Qe.
  induction Tm as [|e es Te _ IH]; [reflexivity|].
  cbn [filter]. rewrite IH.
  assert (Forall raises_only_Exception (immediate_handlers (EventBus.bus s0) e))
    as Ti by exact Te.
  destruct (publish_result_tame e (EventBus.bus s0) Ti) as (_ & -> & _).
  reflexivity.
Qed.

Lemma stop_on_idle_bus_witness :
  let s1 := EventBus.run Sample.loop0
              [EventBus.DoStopCall; EventBus.DoConsumer; EventBus.DoStopResume] in
  let s2 := EventBus.run s1 [EventBus.DoPublish (Sample.task_created 0);
                             EventBus.DoConsumer] in
  EventBus.stopper s1 = EventBus.Returned /\
  EventBus.task s1 = EventBus.Finished /\
  EventBus._processing (EventBus.bus s1) = false /\
  EventBus.tasks_created (EventBus.bus s1) = 1%nat /\
  deferred_calls (EventBus.bus s2) = deferred_calls (EventBus.bus Sample.loop0) /\
  EventBus._event_queue (EventBus.bus s2)
  = filter (enqueued (EventBus.bus Sample.loop0))
      (published_events [EventBus.DoPublish (Sample.task_created 0);
                         EventBus.DoConsumer]) /\
  (Forall (fun e => tame_for (EventBus._handlers (EventBus.bus Sample.loop0)) e)
          (published_events [EventBus.DoPublish (Sample.task_created 0);
                             EventBus.DoConsumer]) ->
   EventBus._event_queue (EventBus.bus s2)
   = with_deferred_key (EventBus._async_handlers (EventBus.bus Sample.loop0))
       (published_events [EventBus.DoPublish (Sample.task_created 0);
                          EventBus.DoConsumer])).
Proof.
  apply (@stop_on_idle_bus Sample.loop0
           [EventBus.DoPublish (Sample.task_created 0); EventBus.DoConsumer]);
    reflexivity.
Defined.

(* ================================================================== *)
(** * Further properties of the repositories                             *)
(* ================================================================== *)

Section StoreFacts.
Context {V : Type}.
Variable key : V -> string.

Lemma dict_contains_set_other (d : dict V) (k k' : string) (v : V) :
  k' <> k -> dict_contains (dict_set d k v) k' = dict_contains d k'.
Proof.
  intro N. unfold dict_contains. rewrite dict_get_set_other by exact N.
  reflexivity.
Qed.

Lemma unique_keys_set (d : dict V) (k : string) (v : V) :
  unique_keys d = true -> unique_keys (dict_set d k v) = true.
Proof.
  induction d as [|[k0 v0] d IH]; cbn; [reflexivity|].
  intro U. apply andb_prop in U. destruct U as [U1 U2].
  destruct (String.eqb k0 k) eqn:E; cbn.
  - rewrite U1, U2. reflexivity.
  - rewrite IH by exact U2. rewrite andb_true_r.
    apply String.eqb_neq in E.
    rewrite dict_contains_set_other by exact E. exact U1.
Qed.

Lemma dict_contains_del (d : dict V) (k k' : string) :
  dict_contains (dict_del d k) k' = true -> dict_contains d k' = true.
Proof.
  unfold dict_contains.
  induction d as [|[k0 v0] d IH]; cbn; [auto|].
  destruct (String.eqb k0 k) eqn:E; cbn.
  - destruct (String.eqb k0 k'); auto.
  - destruct (String.eqb k0 k'); auto.
Qed.

Lemma unique_keys_del (d : dict V) (k : string) :
  unique_keys d = true -> unique_keys (dict_del d k) = true.
Proof.
  induction d as [|[k0 v0] d IH]; cbn; [reflexivity|].
  intro U. apply andb_prop in U. destruct U as [U1 U2].
  destruct (String.eqb k0 k) eqn:E; cbn; [exact U2|].
  rewrite IH by exact U2. rewrite andb_true_r.
  destruct (dict_contains (dict_del d k) k0) eqn:C; [|reflexivity].
  apply dict_contains_del in C. rewrite C in U1. discriminate.
Qed.

Lemma stored_under_id_set (d : dict V) (v : V) :
  stored_under_id key d = true -> stored_under_id key (dict_set d (key v) v) = true.
Proof.
  unfold stored_under_id. intro H. apply andb_prop in H. destruct H as [U F].
  rewrite unique_keys_set by exact U. cbn [andb].
  clear U. induction d as [|[k0 v0] d IH]; cbn.
  - rewrite String.eqb_refl. reflexivity.
  - cbn in F. apply andb_prop in F. destruct F as [F1 F2].
    destruct (String.eqb k0 (key v)) eqn:E; cbn.
    + rewrite E, F2. reflexivity.
    + rewrite F1, IH by exact F2. reflexivity.
Qed.

Lemma stored_under_id_del (d : dict V) (k : string) :
  stored_under_id key d = true -> stored_under_id key (dict_del d k) = true.
Proof.
  unfold stored_under_id. intro H. apply andb_prop in H. destruct H as [U F].
  rewrite unique_keys_del by exact U. cbn [andb].
  clear U. induction d as [|[k0 v0] d IH]; cbn; [reflexivity|].
  cbn in F. apply andb_prop in F. destruct F as [F1 F2].
  destruct (String.eqb k0 k); cbn; [exact F2|].
  rewrite F1, IH by exact F2. reflexivity.
Qed.

(** In such a store every object is found under its id. *)
Lemma stored_under_id_get (d : dict V) (v : V) :
  stored_under_id key d = true -> In v (dict_values d) ->
  dict_get d (key v) = Some v.
Proof.
  unfold stored_under_id, dict_values. intro H. apply andb_prop in H.
  destruct H as [U F].
  induction d as [|[k0 v0] d IH]; cbn; [contradiction|].
  cbn in U, F. apply andb_prop in U. destruct U as [U1 U2].
  apply andb_prop in F. destruct F as [F1 F2].
  apply String.eqb_eq in F1. cbn in F1. subst k0.
  intros [->|I]; [rewrite String.eqb_refl; reflexivity|].
  specialize (IH U2 F2 I).
  destruct (String.eqb (key v0) (key v)) eqn:E; [|exact IH].
  apply String.eqb_eq in E. rewrite E in U1.
  unfold dict_contains in U1. rewrite IH in U1. discriminate.
Qed.

End StoreFacts.

(** X15.  The agent repository stores by id.  After [create(agent)],
    [get_by_id(agent.id)] returns the agent, replacing without error an
    agent already stored under that id, and every other id resolves as
    before.  [update(agent)] does the same when the id is stored, and
    otherwise raises [ValueError] and changes nothing.  Both keep each
    agent stored once, under its own id. *)
Theorem agent_repository_create_update (w : World) (agent : Agent) :
  let w1 := snd (InMemoryAgentRepository.create agent w) in
  fst (InMemoryAgentRepository.create agent w) = Ok agent /\
  InMemoryAgentRepository.get_by_id (Agent.id agent) w1 = (Ok (Some agent), w1) /\
  (forall other, other <> Agent.id agent ->
     InMemoryAgentRepository.get_by_id other w1
     = (fst (InMemoryAgentRepository.get_by_id other w), w1)) /\
  (stored_under_id Agent.id (_agents w) = true ->
   stored_under_id Agent.id (_agents w1) = true) /\
  InMemoryAgentRepository.update agent w
  = (if dict_contains (_agents w) (Agent.id agent)
     then InMemoryAgentRepository.create agent w
     else (Raise ValueError, w)).
Proof.
  unfold InMemoryAgentRepository.create, InMemoryAgentRepository.update,
    InMemoryAgentRepository.get_by_id, bind, modify, gets, get, ret.
  cbn [fst snd _agents set_agents].
  split; [reflexivity|]. split; [rewrite dict_get_set_same; reflexivity|].
  split; [intros other N; rewrite dict_get_set_other by exact N; reflexivity|].
  split; [apply stored_under_id_set|].
  destruct (dict_contains (_agents w) (Agent.id agent)); reflexivity.
Qed.

(** X16.  [delete(agent_id)] of the agent repository never raises.  It
    returns whether the id was stored; afterwards [get_by_id(agent_id)]
    returns nothing, every other id resolves as before, each remaining
    agent is still stored once under its own id, and a second [delete] of
    the id returns [False] and changes nothing. *)
Theorem agent_repository_delete (w : World) (agent_id : string) :
  unique_keys (_agents w) = true ->
  let r := InMemoryAgentRepository.delete agent_id w in
  let w1 := snd r in
  fst r = Ok (dict_contains (_agents w) agent_id) /\
  InMemoryAgentRepository.get_by_id agent_id w1 = (Ok None, w1) /\
  (forall other, other <> agent_id ->
     InMemoryAgentRepository.get_by_id other w1
     = (fst (InMemoryAgentRepository.get_by_id other w), w1)) /\
  (stored_under_id Agent.id (_agents w) = true ->
   stored_under_id Agent.id (_agents w1) = true) /\
  InMemoryAgentRepository.delete agent_id w1 = (Ok false, w1).
Proof.
  intro U.
  unfold InMemoryAgentRepository.delete, InMemoryAgentRepository.get_by_id,
    bind, modify, gets, get, ret.
  destruct (dict_contains (_agents w) agent_id) eqn:C; cbn [fst snd].
  - cbn [_agents set_agents].
    assert (G : dict_get (dict_del (_agents w) agent_id) agent_id = None)
      by (apply dict_get_del_same, U).
    split; [reflexivity|]. split; [rewrite G; reflexivity|].
    split; [intros other N; rewrite dict_get_del_other by exact N; reflexivity|].
    split; [apply stored_under_id_del|].
    unfold dict_contains. rewrite G. reflexivity.
  - rewrite C. rewrite (dict_contains_false _ _ C).
    repeat split; auto.
Qed.

Lemma agent_repository_delete_witness :
  let r := InMemoryAgentRepository.delete "agent-1" Sample.world0 in
  let w1 := snd r in
  fst r = Ok (dict_contains (_agents Sample.world0) "agent-1") /\
  InMemoryAgentRepository.get_by_id "agent-1" w1 = (Ok None, w1) /\
  (forall other, other <> "agent-1" ->
     InMemoryAgentRepository.get_by_id other w1
     = (fst (InMemoryAgentRepository.get_by_id other Sample.world0), w1)) /\
  (stored_under_id Agent.id (_agents Sample.world0) = true ->
   stored_under_id Agent.id (_agents w1) = true) /\
  InMemoryAgentRepository.delete "agent-1" w1 = (Ok false, w1).
Proof.
  apply (@agent_repository_delete Sample.world0 "agent-1"). reflexivity.
Defined.

(** ** The messages of a conversation, by time *)

Section TimestampOrder.
Import InMemoryMessageRepository.

Lemma lex_ltb_irrefl (a : list Z) : lex_ltb a a = false.
Proof.
  induction a as [|x a IH]; cbn; [reflexivity|].
  rewrite Z.ltb_irrefl, Z.eqb_refl, IH. reflexivity.
Qed.

Lemma lex_ltb_trans (a : list Z) : forall b c,
  lex_ltb a b = true -> lex_ltb b c = true -> lex_ltb a c = true.
Proof.
  induction a as [|x a IH]; intros [|y b] [|z c]; cbn; try discriminate; auto.
  intros H1 H2.
  apply orb_prop in H1. apply orb_prop in H2. apply orb_true_iff.
  destruct H1 as [H1|H1], H2 as [H2|H2].
  - left. apply Z.ltb_lt in H1, H2. apply Z.ltb_lt. lia.
  - apply andb_prop in H2. destruct H2 as [E2 _].
    apply Z.eqb_eq in E2. subst z. left. exact H1.
  - apply andb_prop in H1. destruct H1 as [E1 _].
    apply Z.eqb_eq in E1. subst y. left. exact H2.
  - apply andb_prop in H1. destruct H1 as [E1 L1].
    apply andb_prop in H2. destruct H2 as [E2 L2].
    apply Z.eqb_eq in E1, E2. subst y z. right.
    rewrite Z.eqb_refl. cbn. exact (IH _ _ L1 L2).
Qed.

Lemma lex_ltb_total (a : list Z) : forall b,
  lex_ltb a b = false -> lex_ltb b a = false -> a = b.
Proof.
  induction a as [|x a IH]; intros [|y b]; cbn; try discriminate; auto.
  intros H1 H2.
  apply orb_false_iff in H1. destruct H1 as [L1 A1].
  apply orb_false_iff in H2. destruct H2 as [L2 A2].
  apply Z.ltb_ge in L1, L2. assert (x = y) by lia. subst y.
  rewrite Z.eqb_refl in A1, A2. cbn in A1, A2.
  f_equal. apply IH; assumption.
Qed.

Lemma timestamp_ltb_asym (a b : Message) :
  timestamp_ltb a b = true -> timestamp_ltb b a = false.
Proof.
  unfold timestamp_ltb. intro H.
  destruct (lex_ltb (datetime_key (Message.timestamp b)) _) eqn:E; [|reflexivity].
  rewrite <- (lex_ltb_irrefl (datetime_key (Message.timestamp a))).
  symmetry. exact (lex_ltb_trans _ _ _ H E).
Qed.

Lemma datetime_key_eqb (a b : datetime) :
  datetime_eqb a b = true <-> datetime_key a = datetime_key b.
Proof.
  unfold datetime_eqb, datetime_key. rewrite !andb_true_iff, !Z.eqb_eq.
  split.
  - intros [[[[[[-> ->] ->] ->] ->] ->] ->]. reflexivity.
  - intros [= -> -> -> -> -> -> ->]. repeat split.
Qed.

Lemma insert_sorted_perm (m : Message) (l : list Message) :
  Permutation (insert_sorted m l) (m :: l).
Proof.
  induction l as [|x l IH]; cbn [insert_sorted]; [apply Permutation_refl|].
  destruct (timestamp_ltb m x); [apply Permutation_refl|].
  eapply Permutation_trans; [apply perm_skip, IH | apply perm_swap].
Qed.

Lemma insert_sorted_order (m : Message) (l : list Message) :
  in_timestamp_order l -> in_timestamp_order (insert_sorted m l).
Proof.
  unfold in_timestamp_order.
  induction l as [|x l IH]; intro SS; cbn [insert_sorted].
  - constructor; constructor.
  - inversion SS as [|? ? SS' FA]; subst.
    destruct (timestamp_ltb m x) eqn:L.
    + constructor; [exact SS|].
      constructor; [apply timestamp_ltb_asym, L|].
      rewrite Forall_forall in *. intros y Iy.
      specialize (FA y Iy). cbv beta in FA.
      destruct (timestamp_ltb y m) eqn:E; [|reflexivity].
      rewrite <- FA. symmetry. unfold timestamp_ltb in *.
      exact (lex_ltb_trans _ _ _ E L).
    + constructor; [apply IH, SS'|].
      eapply Permutation_Forall;
        [apply Permutation_sym, insert_sorted_perm|].
      constructor; assumption.
Qed.

(** An element goes after the elements of its own time. *)
Lemma insert_sorted_at_time (ts : datetime) (m : Message) (l : list Message) :
  in_timestamp_order l ->
  at_time ts (insert_sorted m l)
  = at_time ts l ++ at_time ts [m].
Proof.
  unfold in_timestamp_order, at_time.
  induction l as [|x l IH]; intro SS; [reflexivity|].
  inversion SS as [|? ? SS' FA]; subst.
  cbn [insert_sorted].
  destruct (timestamp_ltb m x) eqn:L.
  - replace (m :: x :: l) with ([m] ++ x :: l) by reflexivity.
    rewrite filter_app.
    destruct (datetime_eqb (Message.timestamp m) ts) eqn:Em.
    2:{ assert (F1 : filter (fun m0 => datetime_eqb (Message.timestamp m0) ts) [m]
                     = []) by (cbn; rewrite Em; reflexivity).
        rewrite F1, app_nil_r. reflexivity. }
    assert (N : forall y, In y (x :: l) ->
                datetime_eqb (Message.timestamp y) ts = false).
    { intros y Iy.
      destruct (datetime_eqb (Message.timestamp y) ts) eqn:Ey; [|reflexivity].
      apply datetime_key_eqb in Em, Ey.
      assert (Ly : timestamp_ltb y x = true)
        by (unfold timestamp_ltb in *; rewrite Ey, <- Em; exact L).
      destruct Iy as [<-|Iy].
      - unfold timestamp_ltb in Ly. rewrite lex_ltb_irrefl in Ly. discriminate.
      - rewrite Forall_forall in FA. specialize (FA y Iy). cbv beta in FA.
        apply timestamp_ltb_asym in Ly.
        assert (K : datetime_key (Message.timestamp x)
                    = datetime_key (Message.timestamp y))
          by (apply lex_ltb_total; assumption).
        unfold timestamp_ltb in L. rewrite K, Ey, <- Em in L.
        rewrite lex_ltb_irrefl in L. discriminate. }
    assert (F0 : filter (fun m0 => datetime_eqb (Message.timestamp m0) ts) (x :: l)
                 = []).
    { clear - N. induction (x :: l) as [|y l' IH']; [reflexivity|].
      cbn. rewrite (N y (or_introl eq_refl)). apply IH'.
      intros z Iz. apply N. right. exact Iz. }
    rewrite F0, app_nil_r. reflexivity.
  - cbn [filter]. rewrite (IH SS').
    destruct (datetime_eqb (Message.timestamp x) ts); reflexivity.
Qed.

Lemma sort_by_timestamp_spec (l : list Message) : forall acc,
  in_timestamp_order acc ->
  let sorted := fold_left (fun acc m => insert_sorted m acc) l acc in
  in_timestamp_order sorted /\
  Permutation sorted (acc ++ l) /\
  forall ts, at_time ts sorted = at_time ts acc ++ at_time ts l.
Proof.
  induction l as [|m l IH]; intros acc SS; cbn [fold_left].
  - cbv zeta. rewrite app_nil_r. repeat split; auto.
    intro ts. unfold at_time. cbn. rewrite app_nil_r. reflexivity.
  - destruct (IH (insert_sorted m acc) (insert_sorted_order m SS))
      as (S1 & P1 & T1).
    cbv zeta. split; [exact S1|]. split.
    + eapply Permutation_trans; [exact P1|].
      change (acc ++ m :: l) with (acc ++ [m] ++ l). rewrite app_assoc.
      apply Permutation_app_tail.
      eapply Permutation_trans; [apply insert_sorted_perm|].
      apply Permutation_cons_append.
    + intro ts. rewrite T1, insert_sorted_at_time by exact SS.
      unfold at_time. rewrite <- app_assoc. f_equal.
      rewrite <- filter_app. reflexivity.
Qed.
End TimestampOrder.

(** X17.  [get_conversation_messages], for [skip] and [limit] not
    negative, reads the repository without changing it.  What it returns is
    the window [skip : skip + limit] of the
    stored messages of the conversation arranged by timestamp: every stored
    message of the conversation once, none strictly earlier than one before
    it, and messages of equal timestamp in the order in which they were
    stored. *)
Theorem get_conversation_messages_sorted (w : World) (conversation_id : string)
    (skip limit : nat) :
  exists sorted,
    InMemoryMessageRepository.get_conversation_messages
      conversation_id skip limit w
    = (Ok (firstn limit (skipn skip sorted)), w) /\
    Permutation sorted (messages_of w conversation_id) /\
    in_timestamp_order sorted /\
    forall ts, at_time ts sorted = at_time ts (messages_of w conversation_id).
Proof.
  exists (InMemoryMessageRepository.sort_by_timestamp
            (messages_of w conversation_id)).
  split; [reflexivity|].
  destruct (@sort_by_timestamp_spec (messages_of w conversation_id) [])
    as (S1 & P1 & T1); [constructor|].
  repeat split; assumption.
Qed.

Lemma dict_values_set_in {V} (d : dict V) (k : string) (v : V) :
  In v (dict_values (dict_set d k v)).
Proof.
  unfold dict_values. induction d as [|[k0 v0] d IH]; cbn; [auto|].
  destruct (String.eqb k0 k); cbn; auto.
Qed.

(** X18.  [add_message_to_conversation] on an id under which no
    conversation is stored raises [ValueError] and changes nothing.
    Otherwise it returns the message stamped with the id of the stored
    conversation, stores it under the message's id, appends it to the
    messages of the conversation (whose [updated_at] becomes the clock
    reading), and leaves agents, tasks and the bus alone; the message is
    then among the stored messages of that conversation. *)
Theorem add_message_to_conversation_effect (w : World)
    (conversation_id : string) (message : Message) :
  let r := InMemoryMessageRepository.add_message_to_conversation
             conversation_id message w in
  let w' := snd r in
  match dict_get (_conversations w) conversation_id with
  | None => r = (Raise ValueError, w)
  | Some c =>
      let m' := Message.set_conversation_id (Some (Conversation.id c)) message in
      fst r = Ok m' /\
      dict_get (_messages w') (Message.id message) = Some m' /\
      dict_get (_conversations w') conversation_id
      = Some (Conversation.set_updated_at (clock_of (env w) (clock_ix (env w)))
                (Conversation.set_messages (Conversation.messages c ++ [m']) c)) /\
      In m' (messages_of w' (Conversation.id c)) /\
      _agents w' = _agents w /\ _tasks w' = _tasks w /\
      event_bus w' = event_bus w
  end.
Proof.
  unfold InMemoryMessageRepository.add_message_to_conversation,
    InMemoryMessageRepository.get_conversation_by_id, bind, gets.
  destruct (dict_get (_conversations w) conversation_id) as [c|]; [|reflexivity].
  destruct c as [i ms ctx cr up]. cbn.
  rewrite !dict_get_set_same.
  repeat split; auto.
  unfold messages_of. apply filter_In. split.
  - cbn. apply dict_values_set_in.
  - cbn. apply String.eqb_refl.
Qed.

(* ================================================================== *)
(** * Further properties of the services                                 *)
(* ================================================================== *)

(** ** Creating an agent *)



(** ** Assigning a task *)

Lemma assign_task_to_agent_ok (orch : AgentOrchestrator) (t : Task)
    (agent_id : string) (a : Agent) (w : World) :
  dict_get (_agents w) agent_id = Some a ->
  Agent.is_available a = true ->
  Task.status t = TaskStatus.CREATED ->
  dict_get (_tasks w) (Task.id t) = Some t ->
  let t' := assigned t agent_id (clock_of (env w) (clock_ix (env w))) in
  AgentOrchestrator.assign_task_to_agent orch t agent_id w
  = (Ok t', set_tasks (dict_set (_tasks w) (Task.id t) t')
              (set_env (tick (env w)) w)).
Proof.
  intros GA AV S G.
  unfold AgentOrchestrator.assign_task_to_agent, bind,
    InMemoryAgentRepository.get_by_id, gets.
  rewrite GA, AV. cbn [negb].
  unfold call, Task.assign_to, bind, self, gets. cbn [snd fst].
  rewrite S. cbn [TaskStatus.eqb negb].
  unfold update_self, modify, utcnow, ret. cbn [snd fst env_of with_env HasEnv_pair].
  unfold InMemoryTaskRepository.update, bind, get, modify.
  cbn [set_env _tasks]. fold (assigned t agent_id (clock_of (env w) (clock_ix (env w)))).
  change (Task.id (assigned t agent_id (clock_of (env w) (clock_ix (env w)))))
    with (Task.id t).
  rewrite (dict_contains_get _ _ G). cbn [negb].
  reflexivity.
Qed.

(** X20.  [assign_task_to_agent] for a stored task raises [ValueError]
    and changes nothing when no agent is stored under the id, when the
    agent is neither ACTIVE nor IDLE, or when the task is not in status
    CREATED.  Otherwise it returns the task assigned to the agent, in
    status ASSIGNED, and stores it; the agent itself is not changed, so it
    stays available for further assignments. *)
Theorem assign_task_to_agent_outcome (orch : AgentOrchestrator) (t : Task)
    (agent_id : string) (w : World) :
  dict_get (_tasks w) (Task.id t) = Some t ->
  let r := AgentOrchestrator.assign_task_to_agent orch t agent_id w in
  let w' := snd r in
  if match dict_get (_agents w) agent_id with
     | Some a => Agent.is_available a
     | None => false
     end && TaskStatus.eqb (Task.status t) TaskStatus.CREATED
  then
    let t' := assigned t agent_id (clock_of (env w) (clock_ix (env w))) in
    fst r = Ok t' /\
    Task.status t' = TaskStatus.ASSIGNED /\
    Task.assigned_agent t' = Some agent_id /\
    dict_get (_tasks w') (Task.id t) = Some t' /\
    _agents w' = _agents w /\
    event_bus w' = event_bus w
  else r = (Raise ValueError, w).
Proof.
  intro G. cbv zeta.
  destruct (dict_get (_agents w) agent_id) as [a|] eqn:GA; cbn [andb].
  2:{ unfold AgentOrchestrator.assign_task_to_agent, bind,
        InMemoryAgentRepository.get_by_id, gets. rewrite GA. reflexivity. }
  destruct (Agent.is_available a) eqn:AV; cbn [andb].
  2:{ unfold AgentOrchestrator.assign_task_to_agent, bind,
        InMemoryAgentRepository.get_by_id, gets. rewrite GA, AV. reflexivity. }
  destruct (TaskStatus.eqb (Task.status t) TaskStatus.CREATED) eqn:S.
  - apply TaskStatus_eqb_eq in S.
    rewrite (@assign_task_to_agent_ok orch t agent_id a w GA AV S G).
    cbn [fst snd]. cbn -[dict_get dict_set]. rewrite dict_get_set_same.
    repeat split; reflexivity.
  - unfold AgentOrchestrator.assign_task_to_agent, bind,
      InMemoryAgentRepository.get_by_id, gets. rewrite GA, AV. cbn [negb].
    unfold call, Task.assign_to, bind, self, gets. cbn [snd fst].
    rewrite S. cbn [negb]. unfold raise. destruct w; reflexivity.
Qed.

Lemma assign_task_to_agent_outcome_witness :
  let t := Sample.task_in TaskStatus.CREATED in
  let w := world_with_new_task in
  let r := AgentOrchestrator.assign_task_to_agent Sample.orchestrator t
             "agent-2" w in
  let t' := assigned t "agent-2" (clock_of (env w) (clock_ix (env w))) in
  fst r = Ok t' /\
  Task.status t' = TaskStatus.ASSIGNED /\
  Task.assigned_agent t' = Some "agent-2" /\
  dict_get (_tasks (snd r)) (Task.id t) = Some t' /\
  _agents (snd r) = _agents w /\
  event_bus (snd r) = event_bus w.
Proof.
  intros t w.
  apply (@assign_task_to_agent_outcome Sample.orchestrator t "agent-2" w).
  reflexivity.
Defined.

(** ** Scheduling *)



(** What the metadata holds under [required_capabilities] is handed on as
    it is.  A string is iterated character by character: "rag" asks for the
    capabilities "r", "a" and "g", which no agent has, and the task is
    returned unassigned although an available agent has the capability
    "rag".  A number cannot be iterated: [find_available_agent] raises
    [TypeError], which comes out of [schedule_task]. *)
Example schedule_task_capabilities_not_a_list :
  let run v := TaskScheduler.schedule_task Sample.plain_scheduler "task-1"
                 (world_with_task_requiring v) in
  run (PStr "rag")
  = (Ok (Some (task_requiring (PStr "rag"))),
     world_with_task_requiring (PStr "rag")) /\
  option_map Task.status
    (match fst (run (PList [PStr "rag"])) with Ok o => o | Raise _ => None end)
  = Some TaskStatus.ASSIGNED /\
  run (PInt 3) = (Raise TypeError, world_with_task_requiring (PInt 3)).
Proof.
  repeat split; reflexivity.
Qed.

Lemma schedule_task_without_orchestrator (ts : TaskScheduler) (t : Task)
    (w : World) :
  TaskScheduler.agent_orchestrator ts = None ->
  dict_get (_tasks w) (Task.id t) = Some t ->
  TaskScheduler.schedule_task ts (Task.id t) w = (Ok (Some t), w).
Proof.
  intros O G.
  unfold TaskScheduler.schedule_task, bind at 1,
    InMemoryTaskRepository.get_by_id, gets.
  rewrite G.
  destruct (TaskStatus.eqb (Task.status t) TaskStatus.CREATED); cbn [negb];
    [|reflexivity].
  rewrite O. reflexivity.
Qed.

Lemma schedule_each_without_orchestrator (ts : TaskScheduler) (w : World)
    (pending : list Task) : forall n,
  TaskScheduler.agent_orchestrator ts = None ->
  (forall t, In t pending -> dict_get (_tasks w) (Task.id t) = Some t) ->
  TaskScheduler.schedule_each ts pending n w
  = (Ok (n + length (filter (fun t => TaskStatus.eqb (Task.status t)
                                        TaskStatus.ASSIGNED) pending))%nat, w).
Proof.
  induction pending as [|t pending IH]; intros n O G.
  - cbn. rewrite Nat.add_0_r. reflexivity.
  - cbn [TaskScheduler.schedule_each]. unfold bind at 1.
    rewrite (@schedule_task_without_orchestrator ts t w O)
      by (apply G; left; reflexivity).
    rewrite IH by (auto; intros; apply G; right; assumption).
    cbn [filter].
    destruct (TaskStatus.eqb (Task.status t) TaskStatus.ASSIGNED); cbn [length];
      do 2 f_equal; lia.
Qed.

Lemma filter_filter {A} (p q : A -> bool) (l : list A) :
  (forall x, p x = true -> q x = true) ->
  filter p (filter q l) = filter p l.
Proof.
  intro H. induction l as [|x l IH]; cbn; [reflexivity|].
  destruct (q x) eqn:Q; cbn; rewrite IH.
  - reflexivity.
  - destruct (p x) eqn:P; [|reflexivity].
    rewrite (H x P) in Q. discriminate.
Qed.

(** X22.  A scheduler without an orchestrator assigns nothing:
    [schedule_all_pending] leaves the repositories and the bus as they were,
    and the count it returns is the number of stored tasks that were
    already in status ASSIGNED. *)
Theorem schedule_all_pending_without_orchestrator (ts : TaskScheduler)
    (w : World) :
  TaskScheduler.agent_orchestrator ts = None ->
  stored_under_id Task.id (_tasks w) = true ->
  TaskScheduler.schedule_all_pending ts w = (Ok (assigned_count w), w).
Proof.
  intros O SU.
  unfold TaskScheduler.schedule_all_pending, bind,
    TaskScheduler.get_pending_tasks, InMemoryTaskRepository.get_pending, gets.
  rewrite schedule_each_without_orchestrator.
  - unfold assigned_count. rewrite filter_filter; [reflexivity|].
    intros x H. destruct (Task.status x); cbn in *; congruence.
  - exact O.
  - intros t I. apply filter_In in I. destruct I as [I _].
    apply (stored_under_id_get Task.id _ t SU I).
Qed.

Lemma schedule_all_pending_without_orchestrator_witness :
  TaskScheduler.schedule_all_pending (TaskScheduler.mk None true) Sample.world0
  = (Ok 1%nat, Sample.world0).
Proof.
  apply (@schedule_all_pending_without_orchestrator
           (TaskScheduler.mk None true) Sample.world0); reflexivity.
Defined.

(** ** Requests to the language model *)


(** ** Processing a message *)



Lemma shown_rebuilt (ids : nat -> string) (ms : list Message) :
  forall ix, map shown (rebuilt ids ix ms) = map shown ms.
Proof.
  induction ms as [|m ms IH]; intro ix; [reflexivity|].
  cbn [rebuilt map]. rewrite IH. reflexivity.
Qed.

Lemma _generate_response_ok (mp : MessageProcessor) (llm : LLMService)
    (conv conv1 : Conversation) (user_message : Message) (w : World)
    (response : LLMResponse) :
  MessageProcessor.event_bus mp = false ->
  LLMService.event_bus llm = false ->
  llm_client_generate w (Message.content user_message)
    (context_in w (Conversation.id conv)) = Ok response ->
  dict_get (_conversations w) (Conversation.id conv) = Some conv1 ->
  Conversation.id conv1 = Conversation.id conv ->
  exists w' e now,
    let am := reply_message e response (Conversation.id conv) in
    MessageProcessor._generate_response mp llm conv user_message w = (Ok tt, w') /\
    llm_calls w'
    = llm_calls w ++
      [(Message.content user_message, context_in w (Conversation.id conv))] /\
    _messages w' = dict_set (_messages w) (Message.id am) am /\
    _conversations w'
    = dict_set (_conversations w) (Conversation.id conv)
        (Conversation.set_updated_at now
           (Conversation.set_messages (Conversation.messages conv1 ++ [am])
              conv1)) /\
    _agents w' = _agents w /\ _tasks w' = _tasks w /\
    event_bus w' = event_bus w.
Proof.
  intros HB HL L G I.
  unfold MessageProcessor._generate_response, try_except_Exception.
  unfold bind at 1,
    InMemoryMessageRepository.get_conversation_messages at 1, bind at 1, get, ret.
  unfold bind at 1.
  fold (messages_of w (Conversation.id conv)). cbn [skipn].
  rewrite build_context_eq.
  fold (context_in w (Conversation.id conv)).
  unfold bind at 1.
  rewrite generate_eq, HL. world_simpl. rewrite L.
  unfold bind at 1, Message.new, bind at 1, uuid4, bind at 1, utcnow, ret at 1.
  world_simpl.
  match goal with
  | |- context [Message.mk (?u ?i) "assistant" (content response) (?c ?j) _ _] =>
      change (Message.mk (u i) "assistant" (content response) (c j)
                [("model", opt_pystr (model response));
                 ("tokens_used", events.opt_pyint (tokens_used response))]
                (Some (Conversation.id conv)))
        with (reply_message (mkEnv u i c j) response (Conversation.id conv));
      set (am := reply_message (mkEnv u i c j) response (Conversation.id conv))
  end.
  unfold bind at 1, InMemoryMessageRepository.create_message at 1, bind at 1,
    modify, ret at 1.
  unfold bind at 1, InMemoryMessageRepository.add_message_to_conversation,
    bind at 1, InMemoryMessageRepository.get_conversation_by_id, gets.
  world_simpl. rewrite G.
  unfold bind at 1, call, Conversation.add_message, bind, self, gets,
    update_self, modify, utcnow, ret,
    InMemoryMessageRepository.create_message, modify.
  world_simpl.
  rewrite I.
  change (Message.set_conversation_id (Some (Conversation.id conv)) am) with am.
  rewrite HB.
  eexists _, _, _. fold am. split; [reflexivity|].
  cbn -[dict_set am]. rewrite dict_set_set.
  repeat split; reflexivity.
Qed.

(** X25.  [process_message] with role "user" on a stored conversation, by
    a processor and an LLM service that were given no bus, when the adapter
    answers: the call returns the user message; the conversation ends with
    the user message followed by an assistant message that carries the
    content of the response, and the assistant message is stored.  The
    adapter is called once, with the content as prompt and a context
    rebuilt from the first 100 stored messages of the conversation by
    timestamp, the new user message being stored by then.  Agents, tasks
    and the bus are untouched. *)
Theorem process_message_with_reply (mp : MessageProcessor) (llm : LLMService)
    (w : World) (content_ cid : string) (metadata : option (dict pyval))
    (conv : Conversation) (response : LLMResponse) :
  MessageProcessor.llm_service mp = Some llm ->
  MessageProcessor.event_bus mp = false ->
  LLMService.event_bus llm = false ->
  resolved_conversation w (Some cid) = Some conv ->
  Conversation.id conv = cid ->
  let m := received_message (env w) "user" content_ cid metadata in
  llm_client_generate w content_ (reply_context w m cid) = Ok response ->
  let r := MessageProcessor.process_message mp content_ "user" (Some cid)
             metadata w in
  let w' := snd r in
  fst r = Ok m /\
  (exists e conv',
    let am := reply_message e response cid in
    dict_get (_conversations w') cid = Some conv' /\
    Conversation.messages conv' = Conversation.messages conv ++ [m; am] /\
    InMemoryMessageRepository.get_message_by_id (Message.id am) w'
    = (Ok (Some am), w')) /\
  llm_calls w' = llm_calls w ++ [(content_, reply_context w m cid)] /\
  map shown (reply_context w m cid)
  = map shown
      (firstn 100
         (InMemoryMessageRepository.sort_by_timestamp
            (messages_of
               (set_messages (dict_set (_messages w) (Message.id m) m) w)
               cid))) /\
  _agents w' = _agents w /\ _tasks w' = _tasks w /\
  event_bus w' = event_bus w.
Proof.
  intros O HB HL R I m L r w'.
  destruct (@process_message_received mp w content_ "user" cid metadata conv R I)
    as (wc & E & Hm & Hc & Ha & Ht & Hl & Hg & Ho & Hb & Hx).
  fold m in E, Hm, Hc, Hx.
  rewrite O, HB in E. cbn [String.eqb Ascii.eqb Bool.eqb andb] in E.
  set (conv1 := Conversation.set_updated_at _ _) in Hc.
  assert (G1 : dict_get (_conversations wc) (Conversation.id conv) = Some conv1)
    by (rewrite Hc, I; apply dict_get_set_same).
  assert (L1 : llm_client_generate wc (Message.content m)
                 (context_in wc (Conversation.id conv)) = Ok response)
    by (rewrite Hg, I, Hx; exact L).
  destruct (@_generate_response_ok mp llm conv conv1 m wc response HB HL L1 G1
              eq_refl)
    as (w1 & e & now & Er & Hl1 & Hm1 & Hc1 & Ha1 & Ht1 & Hb1).
  rewrite Er in E.
  subst w' r. rewrite E. cbn [fst snd].
  split; [reflexivity|].
  rewrite I in *. change (Message.content m) with content_ in *.
  split.
  { exists e. eexists. cbv zeta.
    split; [rewrite Hc1; apply dict_get_set_same|].
    split.
    { cbn [Conversation.messages Conversation.set_updated_at
           Conversation.set_messages conv1].
      subst conv1. cbn [Conversation.messages Conversation.set_updated_at
                        Conversation.set_messages].
      rewrite <- app_assoc. reflexivity. }
    unfold InMemoryMessageRepository.get_message_by_id, gets.
    rewrite Hm1, dict_get_set_same. reflexivity. }
  split; [rewrite Hl1, Hl, Hx; reflexivity|].
  split; [apply shown_rebuilt|].
  repeat split; congruence.
Qed.

Lemma process_message_with_reply_witness :
  fst (MessageProcessor.process_message Sample.plain_processor "hello" "user"
         (Some "conv-1") None world_with_adapter)
  = Ok (received_message (env world_with_adapter) "user" "hello" "conv-1" None).
Proof.
  exact (proj1 (@process_message_with_reply Sample.plain_processor
                  (LLMService.mk false)
                  world_with_adapter "hello" "conv-1" None
                  Sample.stored_conversation sample_response
                  eq_refl eq_refl eq_refl eq_refl eq_refl eq_refl)).
Defined.

(* ================================================================== *)
(** * Further properties of the REST routes                              *)
(* ================================================================== *)

(** X26.  [POST /tasks] answers 400 and leaves the world as it was, the
    scheduler not being called, when the type is not a value of [TaskType],
    when the payload is empty, or when the priority is negative.  Every
    other request reaches [TaskScheduler.create_task] with the member of the
    enum and the payload, priority and metadata of the request: the task it
    returns is the response, a [ValueError] it raises becomes 400 and any
    other [Exception] 500. *)
Theorem rest_create_task_validation (task_data : rest.TaskCreate)
    (scheduler : TaskScheduler) (w : World) :
  let r := rest.create_task task_data scheduler w in
  match TaskType.of_value (PStr (rest.tc_type task_data)) with
  | Raise _ => r = (rest.Raises (rest.HTTPException 400), w)
  | Ok ty =>
      match rest.tc_payload task_data with
      | [] => r = (rest.Raises (rest.HTTPException 400), w)
      | _ :: _ =>
          if rest.tc_priority task_data <? 0
          then r = (rest.Raises (rest.HTTPException 400), w)
          else
            match TaskScheduler.create_task scheduler (inr ty)
                    (rest.tc_payload task_data) (rest.tc_priority task_data)
                    (rest.tc_metadata task_data) w with
            | (Ok t, w') => r = (rest.Returns (rest.task_response t), w')
            | (Raise ValueError, w') =>
                r = (rest.Raises (rest.HTTPException 400), w')
            | (Raise e, w') =>
                r = (if is_Exception e
                     then rest.Raises (rest.HTTPException 500)
                     else rest.Raises (rest.Service e), w')
            end
      end
  end.
Proof.
  cbv zeta. unfold rest.create_task, rest.and_then at 1,
    rest.try_except_ValueError, rest.await at 1, lift_res.
  destruct (TaskType.of_value (PStr (rest.tc_type task_data))) as [ty|e] eqn:T.
  - destruct (rest.tc_payload task_data) as [|kv pl] eqn:P; [reflexivity|].
    cbn [truthy negb].
    destruct (rest.tc_priority task_data <? 0); [reflexivity|].
    unfold rest.try_except_ValueError_Exception, rest.and_then, rest.await.
    destruct (TaskScheduler.create_task scheduler (inr ty) (kv :: pl)
                (rest.tc_priority task_data) (rest.tc_metadata task_data) w)
      as [[t|e] w'].
    + reflexivity.
    + destruct e; reflexivity.
  - unfold TaskType.of_value in T.
    destruct (find _ _) in T; [discriminate|]. injection T as <-.
    reflexivity.
Qed.

(** X27.  For a task id that is not stored, [GET /tasks/{task_id}] answers
    404, but [POST /tasks/{task_id}/schedule] answers 500: its 404 is
    raised inside the [try] whose [except Exception] turns it into 500.
    Neither changes the world.  For a stored task, [GET] answers with the
    task as it is stored.  The schedule route never answers 404. *)
Theorem rest_schedule_task_unknown_id (task_id : string)
    (scheduler : TaskScheduler) (w : World) :
  fst (rest.schedule_task task_id scheduler w)
  <> rest.Raises (rest.HTTPException 404) /\
  match dict_get (_tasks w) task_id with
  | None =>
      rest.get_task task_id scheduler w
      = (rest.Raises (rest.HTTPException 404), w) /\
      rest.schedule_task task_id scheduler w
      = (rest.Raises (rest.HTTPException 500), w)
  | Some t =>
      rest.get_task task_id scheduler w = (rest.Returns (rest.task_response t), w)
  end.
Proof.
  split.
  - unfold rest.schedule_task, rest.try_except_Exception, rest.and_then,
      rest.await.
    destruct (TaskScheduler.schedule_task scheduler task_id w) as [[[t|]|e] w'];
      cbn; try discriminate.
    destruct (is_Exception e); cbn; discriminate.
  - unfold rest.get_task, rest.schedule_task, rest.try_except_Exception,
      rest.and_then, rest.await, TaskScheduler.get_task,
      TaskScheduler.schedule_task, InMemoryTaskRepository.get_by_id, gets,
      bind at 1.
    destruct (dict_get (_tasks w) task_id); [reflexivity|].
    split; reflexivity.
Qed.



(** The same request for a stored agent: the orchestrator with a bus
    answers 500 and has made the agent ACTIVE all the same. *)
Example rest_update_agent_status_with_bus :
  let r := rest.update_agent_status "agent-1" "active" None Sample.orchestrator
             Sample.world0 in
  fst r = rest.Raises (rest.HTTPException 500) /\
  option_map Agent.status (dict_get (_agents (snd r)) "agent-1")
  = Some AgentStatus.ACTIVE /\
  option_map Agent.status (dict_get (_agents Sample.world0) "agent-1")
  = Some AgentStatus.CREATED.
Proof. repeat split; reflexivity. Qed.

(* ================================================================== *)
(** * Pages                                                              *)
(* ================================================================== *)

Lemma py_slice_window {A} (l : list A) (skip limit : Z) :
  0 <= skip -> 0 <= limit ->
  py_slice l skip (skip + limit)
  = firstn (Z.to_nat limit) (skipn (Z.to_nat skip) l).
Proof.
  intros Hs Hl. unfold py_slice, slice_index.
  destruct (skip <? 0) eqn:E1; [apply Z.ltb_lt in E1; lia|].
  destruct (skip + limit <? 0) eqn:E2; [apply Z.ltb_lt in E2; lia|].
  rewrite Z2Nat.inj_add by lia.
  set (s := Z.to_nat skip). set (k := Z.to_nat limit). set (n := length l).
  destruct (Nat.le_gt_cases n s) as [Big|Small].
  - rewrite (skipn_all2 l) by (fold n; lia).
    rewrite Nat.min_r by lia. rewrite skipn_all2 by (fold n; lia).
    rewrite !firstn_nil. reflexivity.
  - rewrite (Nat.min_l s n) by lia.
    destruct (Nat.le_gt_cases (s + k) n) as [In|Out].
    + rewrite Nat.min_l by lia. f_equal. lia.
    + rewrite Nat.min_r by lia.
      rewrite !firstn_all2; auto; rewrite length_skipn; fold n; lia.
Qed.

(** X29.  [get_all_agents(skip, limit)] with [skip] and [limit] not
    negative reads the repository without changing it and returns at most
    [limit] agents, those from position [skip] on in the order of the
    repository.  Consecutive pages tile the list: a page of [limit] agents
    followed by the next page of [limit'] is the page of [limit + limit']
    at the same place, and a page from 0 that is as long as the repository
    holds every agent. *)
Theorem get_all_agents_pages (orch : AgentOrchestrator) (w : World)
    (skip limit limit' : Z) :
  0 <= skip -> 0 <= limit -> 0 <= limit' ->
  exists p1 p2 p,
    AgentOrchestrator.get_all_agents orch skip limit w = (Ok p1, w) /\
    AgentOrchestrator.get_all_agents orch (skip + limit) limit' w = (Ok p2, w) /\
    AgentOrchestrator.get_all_agents orch skip (limit + limit') w = (Ok p, w) /\
    p1 ++ p2 = p /\
    (length p1 <= Z.to_nat limit)%nat /\
    p1 = firstn (Z.to_nat limit) (skipn (Z.to_nat skip) (dict_values (_agents w))) /\
    AgentOrchestrator.get_all_agents orch 0
      (Z.of_nat (length (dict_values (_agents w)))) w
    = (Ok (dict_values (_agents w)), w).
Proof.
  intros Hs Hl Hl'.
  unfold AgentOrchestrator.get_all_agents, InMemoryAgentRepository.get_all, gets.
  eexists _, _, _. split; [reflexivity|]. split; [reflexivity|].
  split; [reflexivity|].
  rewrite !py_slice_window by lia.
  rewrite !Z2Nat.inj_add, Nat2Z.id by lia.
  set (l := dict_values (_agents w)).
  set (s := Z.to_nat skip). set (k := Z.to_nat limit). set (k' := Z.to_nat limit').
  split.
  { rewrite <- (firstn_skipn k (firstn (k + k') (skipn s l))).
    rewrite firstn_firstn, Nat.min_l by lia. f_equal.
    rewrite skipn_firstn_comm, skipn_skipn.
    replace (k + k' - k)%nat with k' by lia.
    replace (k + s)%nat with (s + k)%nat by lia. reflexivity. }
  split; [apply firstn_le_length|].
  split; [reflexivity|].
  change (Z.to_nat 0) with 0%nat. cbn [skipn].
  rewrite firstn_all. reflexivity.
Qed.

Lemma get_all_agents_pages_witness :
  exists p1 p2 p,
    AgentOrchestrator.get_all_agents Sample.orchestrator 1 1 Sample.world0
    = (Ok p1, Sample.world0) /\
    AgentOrchestrator.get_all_agents Sample.orchestrator (1 + 1) 5 Sample.world0
    = (Ok p2, Sample.world0) /\
    AgentOrchestrator.get_all_agents Sample.orchestrator 1 (1 + 5) Sample.world0
    = (Ok p, Sample.world0) /\
    p1 ++ p2 = p /\
    (length p1 <= Z.to_nat 1)%nat /\
    p1 = firstn (Z.to_nat 1)
           (skipn (Z.to_nat 1) (dict_values (_agents Sample.world0))) /\
    AgentOrchestrator.get_all_agents Sample.orchestrator 0
      (Z.of_nat (length (dict_values (_agents Sample.world0)))) Sample.world0
    = (Ok (dict_values (_agents Sample.world0)), Sample.world0).
Proof.
  apply (@get_all_agents_pages Sample.orchestrator Sample.world0 1 1 5); lia.
Defined.
